(** * imodels: marginal-shrinkage linear model and GMDI importance pipeline

    A shallow embedding of
      - [imodels/algebraic/marginal_shrinkage_linear_model.py]
      - [imodels/importance/r2f_exp_cleaned.py]
    together with the statements about them that the specification makes
    and further properties that the code shows.

    Conventions of the embedding.
      - A Python call that can raise is a computation in [result]; an
        exception ends the run.  The state a raising call leaves behind is
        observed only where a definition gives the object as it is before
        the raising statement ([_fit_importance_scores_writes]).
      - A NumPy double is a [float]: an exact rational, or one of the IEEE
        special values (both infinities and not-a-number).  Rounding,
        overflow and the sign of zero are not modelled.
      - A NumPy array is an [ndarray] of dimension 0, 1 or 2, with NumPy's
        broadcasting and its shape errors.
      - An object is a record; a method takes the record and returns the
        updated record next to its value.
      - What scikit-learn and SciPy compute (solvers, scalers, matrix
        inverse, bootstrap indices) enters as Section variables. *)

From Stdlib Require Import QArith Qabs Lqa ZArith List String Bool Lia.
From stdpp Require Import base option gmap.
Import ListNotations.

Set Default Proof Using "Type".
Local Open Scope string_scope.

(* ===================================================================== *)
(** ** Python exceptions and the error monad *)

Module Py.

Inductive exn : Type :=
| KeyError (key : string)
| AssertionError (msg : string)
| ValueError (msg : string)
| TypeError (msg : string)
| IndexError (msg : string)
| AttributeError (msg : string)
| UnboundLocalError (name : string)
| LinAlgError (msg : string).

Inductive result (A : Type) : Type :=
| Ok (a : A)
| Raise (e : exn).
Arguments Ok {A} a.
Arguments Raise {A} e.

Definition bind {A B} (c : result A) (k : A -> result B) : result B :=
  match c with
  | Ok a => k a
  | Raise e => Raise e
  end.

Definition fmap_result {A B} (f : A -> B) (c : result A) : result B :=
  bind c (fun a => Ok (f a)).

Definition is_ok {A} (c : result A) : bool :=
  match c with Ok _ => true | Raise _ => false end.

(** [for x in xs: body] over an accumulator. *)
Fixpoint for_each {A S} (xs : list A) (body : A -> S -> result S) (s : S)
  : result S :=
  match xs with
  | [] => Ok s
  | x :: xs' => bind (body x s) (for_each xs' body)
  end.

(** [[f(x) for x in xs]] *)
Fixpoint map_result {A B} (f : A -> result B) (xs : list A)
  : result (list B) :=
  match xs with
  | [] => Ok []
  | x :: xs' =>
      bind (f x) (fun y => bind (map_result f xs') (fun ys => Ok (y :: ys)))
  end.

End Py.
Export Py.

Declare Scope py_scope.
Delimit Scope py_scope with py.
Notation "x <- c ;; k" := (Py.bind c (fun x => k))
  (at level 100, c at next level, right associativity) : py_scope.
Local Open Scope py_scope.

(* ===================================================================== *)
(** ** Doubles: exact rationals and the IEEE special values *)

Module Float.

Inductive float : Type :=
| Finite (q : Q)
| PInf
| NInf
| NaN.

Definition zero : float := Finite 0.
Definition one : float := Finite 1.
Definition of_nat (n : nat) : float := Finite (inject_Z (Z.of_nat n)).

Definition isnan (x : float) : bool :=
  match x with NaN => true | _ => false end.

Definition isfinite (x : float) : bool :=
  match x with Finite _ => true | _ => false end.

Definition Qsgn (q : Q) : Z := Z.sgn (Qnum q).

Definition neg (x : float) : float :=
  match x with
  | Finite q => Finite (- q)
  | PInf => NInf
  | NInf => PInf
  | NaN => NaN
  end.

Definition add (x y : float) : float :=
  match x, y with
  | NaN, _ | _, NaN => NaN
  | PInf, NInf | NInf, PInf => NaN
  | PInf, _ | _, PInf => PInf
  | NInf, _ | _, NInf => NInf
  | Finite a, Finite b => Finite (a + b)
  end.

Definition sub (x y : float) : float := add x (neg y).

(** An infinity scaled by a number of sign [s]. *)
Definition inf_of_sign (s : Z) : float :=
  match s with
  | Z0 => NaN
  | Zpos _ => PInf
  | Zneg _ => NInf
  end.

Definition sgn (x : float) : Z :=
  match x with
  | Finite q => Qsgn q
  | PInf => 1
  | NInf => -1
  | NaN => 0
  end.

Definition mul (x y : float) : float :=
  match x, y with
  | NaN, _ | _, NaN => NaN
  | Finite a, Finite b => Finite (a * b)
  | _, _ => inf_of_sign (sgn x * sgn y)
  end.

Definition div (x y : float) : float :=
  match x, y with
  | NaN, _ | _, NaN => NaN
  | Finite a, Finite b =>
      if Qeq_bool b 0 then inf_of_sign (Qsgn a) else Finite (a / b)
  | Finite _, _ => Finite 0
  | _, Finite b => if Qeq_bool b 0 then x else inf_of_sign (sgn x * Qsgn b)
  | _, _ => NaN
  end.

(** [np.sign] *)
Definition sign (x : float) : float :=
  match x with
  | NaN => NaN
  | _ => Finite (inject_Z (sgn x))
  end.

(** IEEE comparison: not-a-number compares false with everything. *)
Definition eqb (x y : float) : bool :=
  match x, y with
  | Finite a, Finite b => Qeq_bool a b
  | PInf, PInf | NInf, NInf => true
  | _, _ => false
  end.

Definition ltb (x y : float) : bool :=
  match x, y with
  | NaN, _ | _, NaN => false
  | Finite a, Finite b => negb (Qle_bool b a)
  | NInf, NInf | PInf, _ => false
  | NInf, _ | _, PInf => true
  | _, NInf => false
  end.

(** [np.maximum] and [np.minimum] propagate not-a-number. *)
Definition maximum (x y : float) : float :=
  if isnan x then x else if isnan y then y else if ltb x y then y else x.
Definition minimum (x y : float) : float :=
  if isnan x then x else if isnan y then y else if ltb y x then y else x.

(** [np.clip(x, lo, hi)] *)
Definition clip (lo hi x : float) : float := minimum (maximum x lo) hi.

(** [np.abs] *)
Definition abs (x : float) : float :=
  match x with
  | Finite q => Finite (Qabs q)
  | PInf | NInf => PInf
  | NaN => NaN
  end.

End Float.
Export Float.

(* ===================================================================== *)
(** ** The part of NumPy the two files use *)

Module Np.

Definition matrix : Type := list (list float).

Inductive ndarray : Type :=
| A0 (x : float)
| A1 (v : list float)
| A2 (m : matrix).

Definition ndim (a : ndarray) : nat :=
  match a with A0 _ => 0 | A1 _ => 1 | A2 _ => 2 end.

Definition nrows (m : matrix) : nat := length m.
Definition ncols (m : matrix) : nat :=
  match m with [] => 0 | r :: _ => length r end.

(** [a.shape[0]] and [a.shape[1]] *)
Definition shape0 (a : ndarray) : result nat :=
  match a with
  | A0 _ => Raise (IndexError "tuple index out of range")
  | A1 v => Ok (length v)
  | A2 m => Ok (nrows m)
  end.
Definition shape1 (a : ndarray) : result nat :=
  match a with
  | A2 m => Ok (ncols m)
  | _ => Raise (IndexError "tuple index out of range")
  end.

(** [len(a)] *)
Definition len (a : ndarray) : result nat :=
  match a with
  | A0 _ => Raise (TypeError "len() of unsized object")
  | A1 v => Ok (length v)
  | A2 m => Ok (nrows m)
  end.

Fixpoint map2 {A B C} (f : A -> B -> C) (xs : list A) (ys : list B)
  : list C :=
  match xs, ys with
  | x :: xs', y :: ys' => f x y :: map2 f xs' ys'
  | _, _ => []
  end.

(** *** Broadcasting of two operands of dimension at most two *)

Definition as2d (a : ndarray) : matrix :=
  match a with A0 x => [[x]] | A1 v => [v] | A2 m => m end.

Definition of2d (d : nat) (m : matrix) : ndarray :=
  match d with
  | 0 => A0 (hd NaN (hd [] m))
  | 1 => A1 (hd [] m)
  | _ => A2 m
  end.

Definition bdim (n1 n2 : nat) : option nat :=
  if Nat.eqb n1 n2 then Some n1
  else if Nat.eqb n1 1 then Some n2
  else if Nat.eqb n2 1 then Some n1
  else None.

Definition stretch {A} (n : nat) (l : list A) : list A :=
  match l with
  | [x] => repeat x n
  | _ => l
  end.

Definition broadcast2 (f : float -> float -> float) (a b : ndarray)
  : result ndarray :=
  let ma := as2d a in
  let mb := as2d b in
  match bdim (nrows ma) (nrows mb), bdim (ncols ma) (ncols mb) with
  | Some r, Some c =>
      Ok (of2d (Nat.max (ndim a) (ndim b))
            (map2 (fun ra rb => map2 f (stretch c ra) (stretch c rb))
               (stretch r ma) (stretch r mb)))
  | _, _ => Raise (ValueError "operands could not be broadcast together")
  end.

Definition np_add := broadcast2 Float.add.
Definition np_sub := broadcast2 Float.sub.
Definition np_mul := broadcast2 Float.mul.
Definition np_div := broadcast2 Float.div.

Definition map_elems (f : float -> float) (a : ndarray) : ndarray :=
  match a with
  | A0 x => A0 (f x)
  | A1 v => A1 (map f v)
  | A2 m => A2 (map (map f) m)
  end.

Definition np_sign : ndarray -> ndarray := map_elems Float.sign.
Definition np_clip (lo hi : float) : ndarray -> ndarray :=
  map_elems (Float.clip lo hi).

(** *** Products *)

Definition dot (u v : list float) : float :=
  fold_left (fun acc p => Float.add acc (Float.mul (fst p) (snd p)))
    (combine u v) Float.zero.

Definition transpose (m : matrix) : matrix :=
  map (fun j => map (fun r => nth j r NaN) m) (seq 0 (ncols m)).

(** [a.T] *)
Definition T (a : ndarray) : ndarray :=
  match a with A2 m => A2 (transpose m) | _ => a end.

(** [a @ b]: a 0-dimensional operand is refused. *)
Definition matmul (a b : ndarray) : result ndarray :=
  match a, b with
  | A0 _, _ | _, A0 _ =>
      Raise (ValueError "matmul: Input operand does not have enough dimensions")
  | A1 u, A1 v =>
      if Nat.eqb (length u) (length v) then Ok (A0 (dot u v))
      else Raise (ValueError "matmul: mismatch in core dimension")
  | A2 m, A1 v =>
      if Nat.eqb (ncols m) (length v) then Ok (A1 (map (fun r => dot r v) m))
      else Raise (ValueError "matmul: mismatch in core dimension")
  | A1 u, A2 m =>
      if Nat.eqb (length u) (nrows m) then Ok (A1 (map (dot u) (transpose m)))
      else Raise (ValueError "matmul: mismatch in core dimension")
  | A2 m1, A2 m2 =>
      if Nat.eqb (ncols m1) (nrows m2)
      then Ok (A2 (map (fun r => map (dot r) (transpose m2)) m1))
      else Raise (ValueError "matmul: mismatch in core dimension")
  end.

(** [np.dot]: as [@], except that a scalar operand multiplies. *)
Definition np_dot (a b : ndarray) : result ndarray :=
  match a, b with
  | A0 _, _ | _, A0 _ => np_mul a b
  | _, _ => matmul a b
  end.

(** *** Shapes *)

Definition ones (r c : nat) : ndarray := A2 (repeat (repeat Float.one c) r).
Definition zeros (n : nat) : ndarray := A1 (repeat Float.zero n).

Definition ones_like : ndarray -> ndarray := map_elems (fun _ => Float.one).

(** [np.hstack([a, b])] of two matrices *)
Definition hstack (a b : ndarray) : result ndarray :=
  match a, b with
  | A2 m1, A2 m2 =>
      if Nat.eqb (nrows m1) (nrows m2) then Ok (A2 (map2 (@app float) m1 m2))
      else Raise (ValueError "all the input array dimensions except for the concatenation axis must match exactly")
  | _, _ => Raise (ValueError "all the input arrays must have same number of dimensions")
  end.

Definition column (m : matrix) : list float := map (hd NaN) m.

(** [a.squeeze()]: every axis of length one is dropped. *)
Definition squeeze (a : ndarray) : ndarray :=
  match a with
  | A0 x => A0 x
  | A1 v => if Nat.eqb (length v) 1 then A0 (hd NaN v) else A1 v
  | A2 m =>
      if Nat.eqb (nrows m) 1
      then if Nat.eqb (ncols m) 1 then A0 (hd NaN (hd [] m))
           else A1 (hd [] m)
      else if Nat.eqb (ncols m) 1 then A1 (column m)
      else A2 m
  end.

Definition all_length (n : nat) (m : matrix) : bool :=
  forallb (fun r => Nat.eqb (length r) n) m.

(** [np.vstack(arrays)] *)
Definition vstack (arrays : list ndarray) : result ndarray :=
  let rows := concat (map as2d arrays) in
  match rows with
  | [] => Raise (ValueError "need at least one array to concatenate")
  | r :: _ =>
      if all_length (length r) rows then Ok (A2 rows)
      else Raise (ValueError "all the input array dimensions except for the concatenation axis must match exactly")
  end.

Definition ravel (a : ndarray) : list float :=
  match a with A0 x => [x] | A1 v => v | A2 m => concat m end.

(** [a.reshape(-1, 1)] *)
Definition reshape_col (a : ndarray) : ndarray :=
  A2 (map (fun x => [x]) (ravel a)).

(** [X[:, i]] *)
Definition get_col (a : ndarray) (i : nat) : result ndarray :=
  match a with
  | A2 m =>
      if Nat.ltb i (ncols m) then Ok (A1 (map (fun r => nth i r NaN) m))
      else Raise (IndexError "index is out of bounds for axis 1")
  | _ => Raise (IndexError "too many indices for array")
  end.

(** [a[:k]] *)
Definition head_rows (k : nat) (a : ndarray) : result ndarray :=
  match a with
  | A0 _ => Raise (IndexError "too many indices for array")
  | A1 v => Ok (A1 (firstn k v))
  | A2 m => Ok (A2 (firstn k m))
  end.

(** *** Indexing *)

(** A possibly negative index into an axis of length [n]. *)
Definition norm_index (n : nat) (i : Z) : result nat :=
  let j := if Z.ltb i 0 then (i + Z.of_nat n)%Z else i in
  if Z.leb 0 j && Z.ltb j (Z.of_nat n) then Ok (Z.to_nat j)
  else Raise (IndexError "index is out of bounds").

(** [v[i]] *)
Definition item (v : list float) (i : Z) : result float :=
  j <- norm_index (length v) i ;; Ok (nth j v NaN).

(** [a[-1]] *)
Definition last_item (a : ndarray) : result ndarray :=
  match a with
  | A0 _ => Raise (IndexError "too many indices for array")
  | A1 v => x <- item v (-1) ;; Ok (A0 x)
  | A2 m => j <- norm_index (nrows m) (-1) ;; Ok (A1 (nth j m []))
  end.

(** [a[:, -1]] *)
Definition last_col (a : ndarray) : result ndarray :=
  match a with
  | A2 m => j <- norm_index (ncols m) (-1) ;;
            Ok (A1 (map (fun r => nth j r NaN) m))
  | _ => Raise (IndexError "too many indices for array")
  end.

(** [a[:, idx]] with an index array *)
Definition take_cols (a : ndarray) (idx : list Z) : result ndarray :=
  match a with
  | A2 m =>
      js <- map_result (norm_index (ncols m)) idx ;;
      Ok (A2 (map (fun r => map (fun j => nth j r NaN) js) m))
  | _ => Raise (IndexError "too many indices for array")
  end.

(** [a[idx]] or [a[idx, :]] with an index array *)
Definition take_rows (a : ndarray) (idx : list nat) : result ndarray :=
  match a with
  | A0 _ => Raise (IndexError "too many indices for array")
  | A1 v =>
      if forallb (fun i => Nat.ltb i (length v)) idx
      then Ok (A1 (map (fun i => nth i v NaN) idx))
      else Raise (IndexError "index is out of bounds for axis 0")
  | A2 m =>
      if forallb (fun i => Nat.ltb i (nrows m)) idx
      then Ok (A2 (map (fun i => nth i m []) idx))
      else Raise (IndexError "index is out of bounds for axis 0")
  end.

(** [v[-1] = x] *)
Definition set_last (v : list float) (x : float) : result (list float) :=
  match rev v with
  | [] => Raise (IndexError "index -1 is out of bounds for axis 0 with size 0")
  | _ :: r => Ok (rev (x :: r))
  end.

(** [a[:, np.newaxis]] of a vector *)
Definition newaxis_col (a : ndarray) : result ndarray :=
  match a with
  | A1 v => Ok (A2 (map (fun x => [x]) v))
  | _ => Raise (IndexError "too many indices for array")
  end.

(** *** Reductions *)

Definition fsum (v : list float) : float := fold_left Float.add v Float.zero.

(** [np.sum(a, axis=1)] and [np.sum(a, axis=0)] *)
Definition sum_axis1 (a : ndarray) : result ndarray :=
  match a with
  | A2 m => Ok (A1 (map fsum m))
  | _ => Raise (ValueError "axis 1 is out of bounds for array")
  end.
Definition sum_axis0 (a : ndarray) : result ndarray :=
  match a with
  | A2 m => Ok (A1 (map fsum (transpose m)))
  | A1 v => Ok (A0 (fsum v))
  | A0 _ => Raise (ValueError "axis 0 is out of bounds for array")
  end.

(** [np.diag(v)] of a vector *)
Definition diag (v : list float) : matrix :=
  map (fun i => map (fun j => if Nat.eqb i j then nth i v NaN else Float.zero)
                  (seq 0 (length v)))
    (seq 0 (length v)).

Definition np_repeat (x : float) (n : nat) : ndarray := A1 (repeat x n).

(** [np.array(rows).T] of a list of vectors of one length *)
Definition array_T (rows : list ndarray) : result ndarray :=
  match rows with
  | [] => Ok (A1 [])
  | _ => a <- vstack rows ;; Ok (T a)
  end.

(** *** Reductions that ignore not-a-number *)

Definition nan_to_zero (x : float) : float :=
  if isnan x then Float.zero else x.

Definition count_not_nan (v : list float) : nat :=
  length (List.filter (fun x => negb (isnan x)) v).

(** [np.nanmean] of one column: not-a-number entries are replaced by zero
    in the sum and left out of the count; an empty count gives [0/0]. *)
Definition nanmean1 (v : list float) : float :=
  Float.div (fsum (map nan_to_zero v)) (Float.of_nat (count_not_nan v)).

(** [np.nanmean(arrays, axis=0)] of a list of vectors *)
Definition nanmean_axis0 (arrays : list ndarray) : result ndarray :=
  match arrays with
  | [] => Ok (A0 NaN)
  | _ =>
      a <- vstack arrays ;;
      match a with
      | A2 m => Ok (A1 (map nanmean1 (transpose m)))
      | _ => Raise (ValueError "inhomogeneous shape")
      end
  end.

(** [np.nanmin] of a vector *)
Definition nanmin (v : list float) : float :=
  match List.filter (fun x => negb (isnan x)) v with
  | [] => NaN
  | x :: xs => fold_left Float.minimum xs x
  end.

(** [np.argmin]: the first smallest entry; a not-a-number counts as
    smallest. *)
Fixpoint argmin_from (best : float) (ibest i : nat) (v : list float) : nat :=
  match v with
  | [] => ibest
  | x :: v' =>
      if negb (isnan best) && (isnan x || Float.ltb x best)
      then argmin_from x i (S i) v'
      else argmin_from best ibest (S i) v'
  end.
Definition argmin (v : list float) : result nat :=
  match v with
  | [] => Raise (ValueError "attempt to get argmin of an empty sequence")
  | x :: v' => Ok (argmin_from x 0 1 v')
  end.

End Np.
Export Np.

(* ===================================================================== *)
(** ** imodels/algebraic/marginal_shrinkage_linear_model.py *)

Module MarginalShrinkage.

(** *** The scikit-learn objects the model wraps *)

(** The three estimators [_get_est_from_name] can build, with the
    arguments it passes; [alphas = None] stands for the library default. *)
Inductive estimator_kind : Type :=
| RidgeCV (fit_intercept : bool) (alphas : option (list float))
| LinearRegression (fit_intercept : bool)
| ElasticNetCV (l1_ratio : float) (fit_intercept positive : bool)
    (alphas : list float) (max_iter : Z).

Definition fit_intercept_of (k : estimator_kind) : bool :=
  match k with
  | RidgeCV b _ => b
  | LinearRegression b => b
  | ElasticNetCV _ b _ _ _ => b
  end.

Record estimator : Type := mk_estimator {
  kind : estimator_kind;
  coef_ : option ndarray;
  intercept_ : option float
}.

Definition unfitted (k : estimator_kind) : estimator :=
  {| kind := k; coef_ := None; intercept_ := None |}.

Definition set_coef (e : estimator) (c : ndarray) : estimator :=
  {| kind := kind e; coef_ := Some c; intercept_ := intercept_ e |}.

Definition get_coef (e : estimator) : result ndarray :=
  match coef_ e with
  | Some c => Ok c
  | None => Raise (AttributeError "coef_")
  end.

Record StandardScaler : Type := mk_scaler {
  mean_ : list float;
  scale_ : list float
}.

(** [scaler.transform(X)] is [(X - mean_) / scale_]. *)
Definition transform (s : StandardScaler) (X : ndarray) : result ndarray :=
  c <- np_sub X (A1 (mean_ s)) ;; np_div c (A1 (scale_ s)).

(** [scaler.inverse_transform(X)] is [X * scale_ + mean_]. *)
Definition inverse_transform (s : StandardScaler) (X : ndarray)
  : result ndarray :=
  c <- np_mul X (A1 (scale_ s)) ;; np_add c (A1 (mean_ s)).

Definition all_finite (a : ndarray) : bool := forallb isfinite (ravel a).

(** [column_or_1d(y, warn=True)], which [check_X_y] applies to the target
    when [multi_output=False]: a vector stays, a matrix of one column is
    ravelled (with a [DataConversionWarning]), and every other shape is
    refused. *)
Definition column_or_1d (y : ndarray) : option (list float) :=
  match y with
  | A1 v => Some v
  | A2 m =>
      if Nat.eqb (ncols m) 1 && all_length 1 m then Some (concat m) else None
  | A0 _ => None
  end.

(** [check_X_y(X, y, accept_sparse=False, multi_output=False)]: a
    rectangular, non-empty, finite matrix and a finite vector (or column)
    with one entry per row; the target is returned as a vector. *)
Definition check_X_y (X y : ndarray) : result (ndarray * ndarray) :=
  match X, column_or_1d y with
  | A2 m, Some v =>
      if negb (Nat.ltb 0 (nrows m)) || negb (Nat.ltb 0 (ncols m))
      then Raise (ValueError "Found array with 0 sample(s) or 0 feature(s)")
      else if negb (all_length (ncols m) m)
      then Raise (ValueError "setting an array element with a sequence")
      else if negb (Nat.eqb (nrows m) (length v))
      then Raise (ValueError "Found input variables with inconsistent numbers of samples")
      else if negb (all_finite X && all_finite (A1 v))
      then Raise (ValueError "Input contains NaN or infinity")
      else Ok (X, A1 v)
  | A2 _, None => Raise (ValueError "y should be a 1d array")
  | _, _ => Raise (ValueError "Expected 2D array")
  end.

(** [_check_sample_weight(sample_weight, X, dtype=None)] *)
Definition _check_sample_weight (sample_weight : option ndarray)
    (X : ndarray) : result ndarray :=
  n <- shape0 X ;;
  match sample_weight with
  | None => Ok (A1 (repeat Float.one n))
  | Some (A0 w) => Ok (A1 (repeat w n))
  | Some (A1 w) =>
      if Nat.eqb (length w) n then Ok (A1 w)
      else Raise (ValueError "sample_weight.shape does not match the number of samples")
  | Some (A2 _) => Raise (ValueError "Sample weights must be 1D array or scalar")
  end.

Section Model.

(** What the library computes: the scaler's statistics, and the
    coefficients and intercept an estimator finds on [(X, y, weights)]. *)
Variable scaler_fit : ndarray -> StandardScaler.
Variable sk_solve :
  estimator_kind -> ndarray -> ndarray -> option ndarray ->
  result (ndarray * float).

(** [est.fit(X, y, sample_weight)]; without [fit_intercept] the
    intercept is [0.0]. *)
Definition est_fit (e : estimator) (X y : ndarray)
    (sample_weight : option ndarray) : result estimator :=
  cb <- sk_solve (kind e) X y sample_weight ;;
  Ok {| kind := kind e;
        coef_ := Some (fst cb);
        intercept_ :=
          Some (if fit_intercept_of (kind e) then snd cb else Float.zero) |}.

(** [est.predict(X)] of a linear model *)
Definition est_predict (e : estimator) (X : ndarray) : result ndarray :=
  match coef_ e, intercept_ e with
  | Some c, Some b =>
      p <- matmul X (if Nat.eqb (ndim c) 1 then c else T c) ;;
      np_add p (A0 b)
  | _, _ => Raise (AttributeError "This instance is not fitted yet")
  end.

(** *** The model object *)

Record MarginalShrinkageLinearModel : Type := mk_model {
  random_state : option Z;
  est_marginal_name : option string;
  est_main_name : option string;
  marginal_divide_by_d : bool;
  marginal_sign_constraint : bool;
  alphas : list float;
  (** [isinstance(self, RegressorMixin)] *)
  is_regressor : bool;
  (** set by [fit] *)
  scalar_X_ : option StandardScaler;
  scalar_y_ : option StandardScaler;
  coef_marginal_ : option ndarray;
  est_main_ : option estimator
}.

(** The [alphas] argument: one number, or a sequence. *)
Inductive alphas_arg : Type :=
| Number (a : float)
| Sequence (l : list float).

Definition default_alphas : alphas_arg :=
  Sequence [Finite (1 # 10); Finite 1; Finite 10; Finite 100;
            Finite 1000; Finite 10000].

Definition __init__ (regressor : bool)
    (est_marginal_name est_main_name : option string)
    (marginal_divide_by_d marginal_sign_constraint : bool)
    (alphas : alphas_arg) (random_state : option Z)
  : MarginalShrinkageLinearModel :=
  {| random_state := random_state;
     est_marginal_name := est_marginal_name;
     est_main_name := est_main_name;
     marginal_divide_by_d := marginal_divide_by_d;
     marginal_sign_constraint := marginal_sign_constraint;
     alphas := match alphas with Number a => [a] | Sequence l => l end;
     is_regressor := regressor;
     scalar_X_ := None; scalar_y_ := None;
     coef_marginal_ := None; est_main_ := None |}.

Definition _get_est_from_name (self : MarginalShrinkageLinearModel)
    (est_name : option string) : result (option estimator) :=
  match est_name with
  | None => Ok None
  | Some name =>
      if String.eqb name "ridge"
      then Ok (Some (unfitted (RidgeCV false (Some (alphas self)))))
      else if String.eqb name "ols"
      then Ok (Some (unfitted (LinearRegression false)))
      else if String.eqb name "NNLS"
      then Ok (Some (unfitted
             (ElasticNetCV (Finite (1 # 10000000000)) false true
                (alphas self) 10000%Z)))
      else if String.eqb name "None"
      then Ok None
      else Raise (KeyError name)
  end.

Definition _fit_marginal (self : MarginalShrinkageLinearModel)
    (X y sample_weight : ndarray) : result ndarray :=
  est_marginal <- _get_est_from_name self (est_marginal_name self) ;;
  d <- shape1 X ;;
  coef_marginal_ <-
    match est_marginal with
    | None => Ok (zeros d)
    | Some est =>
        cs <- map_result
                (fun i =>
                   xi <- get_col X i ;;
                   est' <- est_fit est (reshape_col xi) y
                             (Some sample_weight) ;;
                   get_coef est')
                (seq 0 d) ;;
        stacked <- vstack cs ;;
        Ok (squeeze stacked)
    end ;;
  if marginal_divide_by_d self
  then np_div coef_marginal_ (A0 (Float.of_nat d))
  else Ok coef_marginal_.

Definition set_fitted (self : MarginalShrinkageLinearModel)
    (sx : StandardScaler) (sy : option StandardScaler)
    (cm : ndarray) (em : estimator) : MarginalShrinkageLinearModel :=
  {| random_state := random_state self;
     est_marginal_name := est_marginal_name self;
     est_main_name := est_main_name self;
     marginal_divide_by_d := marginal_divide_by_d self;
     marginal_sign_constraint := marginal_sign_constraint self;
     alphas := alphas self;
     is_regressor := is_regressor self;
     scalar_X_ := Some sx; scalar_y_ := sy;
     coef_marginal_ := Some cm; est_main_ := Some em |}.

(** What [fit] holds once its blocks "checks" and "center X and y" are
    done: the standardized data, the weights and the two scalers. *)
Record centered : Type := mk_centered {
  c_X : ndarray;
  c_y : ndarray;
  c_sample_weight : ndarray;
  c_scalar_X : StandardScaler;
  c_scalar_y : option StandardScaler
}.

(** [self.set_params(marginal_divide_by_d=b)] *)
Definition set_marginal_divide_by_d (b : bool)
    (self : MarginalShrinkageLinearModel) : MarginalShrinkageLinearModel :=
  {| random_state := random_state self;
     est_marginal_name := est_marginal_name self;
     est_main_name := est_main_name self;
     marginal_divide_by_d := b;
     marginal_sign_constraint := marginal_sign_constraint self;
     alphas := alphas self;
     is_regressor := is_regressor self;
     scalar_X_ := scalar_X_ self; scalar_y_ := scalar_y_ self;
     coef_marginal_ := coef_marginal_ self; est_main_ := est_main_ self |}.

Definition fit_checks_and_center (self : MarginalShrinkageLinearModel)
    (X y : ndarray) (sample_weight : option ndarray) : result centered :=
  (* checks *)
  Xy <- check_X_y X y ;;
  let X := fst Xy in
  let y := snd Xy in
  sample_weight <- _check_sample_weight sample_weight X ;;
  (* no class of the file mixes in ClassifierMixin: that branch is dead *)
  (* center X and y *)
  let scalar_X_ := scaler_fit X in
  X <- transform scalar_X_ X ;;
  if is_regressor self
  then
    let scalar_y_ := scaler_fit (reshape_col y) in
    y' <- transform scalar_y_ (reshape_col y) ;;
    Ok (mk_centered X (squeeze y') sample_weight scalar_X_ (Some scalar_y_))
  else Ok (mk_centered X y sample_weight scalar_X_ None).

Definition fit (self : MarginalShrinkageLinearModel)
    (X y : ndarray) (sample_weight : option ndarray)
  : result MarginalShrinkageLinearModel :=
  c <- fit_checks_and_center self X y sample_weight ;;
  let X := c_X c in
  let y := c_y c in
  let sample_weight := c_sample_weight c in
  let scalar_X_ := c_scalar_X c in
  let scalar_y_ := c_scalar_y c in
  (* fit marginal *)
  coef_marginal_ <- _fit_marginal self X y sample_weight ;;
  est_main_ <- _get_est_from_name self (est_main_name self) ;;
  if marginal_sign_constraint self then
    if negb (match est_main_name self with
             | Some name => String.eqb name "NNLS"
             | None => false
             end)
    then Raise (AssertionError "must use NNLS for sign constraint")
    else
      let coef_signs := np_sign coef_marginal_ in
      X <- np_mul X coef_signs ;;
      match est_main_ with
      | None => Raise (AttributeError "'NoneType' object has no attribute 'fit'")
      | Some est =>
          est <- est_fit est X y (Some sample_weight) ;;
          c <- get_coef est ;;
          c <- np_mul c coef_signs ;;
          Ok (set_fitted self scalar_X_ scalar_y_ coef_marginal_
                (set_coef est c))
      end
  else
    match est_main_ with
    | None =>
        (* fit dummy clf and override coefs *)
        let est := unfitted (RidgeCV false None) in
        X5 <- head_rows 5 X ;;
        y5 <- head_rows 5 y ;;
        est <- est_fit est X5 y5 None ;;
        Ok (set_fitted self scalar_X_ scalar_y_ coef_marginal_
              (set_coef est coef_marginal_))
    | Some est =>
        (* fit main estimator *)
        preds_marginal <- matmul X coef_marginal_ ;;
        residuals <- np_sub y preds_marginal ;;
        est <- est_fit est X residuals (Some sample_weight) ;;
        c <- get_coef est ;;
        c <- np_add c coef_marginal_ ;;
        Ok (set_fitted self scalar_X_ scalar_y_ coef_marginal_
              (set_coef est c))
    end.

Definition predict (self : MarginalShrinkageLinearModel) (X : ndarray)
  : result ndarray :=
  match scalar_X_ self with
  | None => Raise (AttributeError "scalar_X_")
  | Some sx =>
      X <- transform sx X ;;
      match est_main_ self with
      | None => Raise (AttributeError "est_main_")
      | Some est =>
          pred <- est_predict est X ;;
          match scalar_y_ self with
          | None => Raise (AttributeError "scalar_y_")
          | Some sy =>
              out <- inverse_transform sy (reshape_col pred) ;;
              Ok (squeeze out)
          end
      end
  end.

End Model.

End MarginalShrinkage.

(* ===================================================================== *)
(** ** Stand-ins for the library, to run the embedding on data *)

Module Toy.
Import MarginalShrinkage.

Definition col (m : matrix) (j : nat) : list float :=
  map (fun r => nth j r NaN) m.

Definition col_mean (m : matrix) (j : nat) : float :=
  Float.div (fold_left Float.add (col m j) Float.zero)
    (Float.of_nat (nrows m)).

(** A scaler that centres every column and keeps its scale. *)
Definition centring_scaler (X : ndarray) : StandardScaler :=
  let m := as2d X in
  {| mean_ := map (col_mean m) (seq 0 (ncols m));
     scale_ := repeat Float.one (ncols m) |}.

Definition penalty (k : estimator_kind) : float :=
  match k with
  | RidgeCV _ (Some (a :: _)) => a
  | RidgeCV _ _ => Float.one
  | LinearRegression _ => Float.zero
  | ElasticNetCV _ _ _ (a :: _) _ => a
  | ElasticNetCV _ _ _ [] _ => Float.one
  end.

Definition is_positive (k : estimator_kind) : bool :=
  match k with
  | ElasticNetCV _ _ p _ _ => p
  | _ => false
  end.

Definition nonneg_part (x : float) : float :=
  match x with
  | Finite q => if Qle_bool 0 q then Finite q else Float.zero
  | _ => Float.zero
  end.

(** Ridge regression through the origin, one column at a time. *)
Definition ridge_1d (alpha : float) (x y : list float) : float :=
  Float.div (dot x y) (Float.add (dot x x) alpha).

(** The folds of the cross-validation of an estimator: [ElasticNetCV] is
    built with its default [cv], five folds; [RidgeCV] with its default
    leaves one sample out analytically and splits nothing. *)
Definition n_splits (k : estimator_kind) : nat :=
  match k with
  | ElasticNetCV _ _ _ _ _ => 5
  | _ => 0
  end.

(** The fit is refused on fewer samples than folds, as [KFold] refuses
    it. *)
Definition columnwise_solve (k : estimator_kind) (X y : ndarray)
    (w : option ndarray) : result (ndarray * float) :=
  match X with
  | A2 m =>
      if Nat.ltb (nrows m) (n_splits k)
      then Raise (ValueError "Cannot have number of splits n_splits=5 greater than the number of samples")
      else
        let c := map (fun j => ridge_1d (penalty k) (col m j) (ravel y))
                   (seq 0 (ncols m)) in
        Ok (A1 (if is_positive k then map nonneg_part c else c), Float.zero)
  | _ => Raise (ValueError "Expected 2D array")
  end.

Definition F (z : Z) : float := Finite (inject_Z z).

Definition regressor (marginal main : option string)
    (divide sign_constraint : bool) : MarginalShrinkageLinearModel :=
  __init__ true marginal main divide sign_constraint default_alphas None.

(** Three samples of one feature, and four samples of two features. *)
Definition X1 : ndarray := A2 [[F 1]; [F 2]; [F 3]].
Definition y1 : ndarray := A1 [F 1; F 2; F 4].
Definition X2 : ndarray := A2 [[F 1; F 0]; [F 2; F 1]; [F 3; F 0]; [F 6; F 3]].
Definition y2 : ndarray := A1 [F 1; F 2; F 4; F 9].

(** Six samples of two features. *)
Definition X3 : ndarray :=
  A2 [[F 1; F 0]; [F 2; F 1]; [F 3; F 0]; [F 6; F 3]; [F 4; F 2]; [F 5; F 1]].
Definition y3 : ndarray := A1 [F 1; F 2; F 4; F 9; F 6; F 5].

End Toy.


(* ===================================================================== *)
(** ** imodels/importance/r2f_exp_cleaned.py *)

Module Importance.

(** *** The Huber loss *)

(** What a call ends in when Python's own division is part of it: dividing
    by zero raises [ZeroDivisionError], where NumPy's division returns a
    special value. *)
Inductive outcome (A : Type) : Type :=
| Returns (a : A)
| Raises (e : exn)
| RaisesZeroDivisionError.
Arguments Returns {A} a.
Arguments Raises {A} e.
Arguments RaisesZeroDivisionError {A}.

Definition half : float := Finite (1 # 2).

(** One turn of the loop of [huber_loss]. *)
Definition huber_turn (y preds : list float) (epsilon : float) (i : nat)
    (total_loss : float) : result float :=
  yi <- item y (Z.of_nat i) ;;
  pi <- item preds (Z.of_nat i) ;;
  let sample_absolute_error := Float.abs (Float.sub yi pi) in
  if Float.ltb sample_absolute_error epsilon
  then
    Ok (Float.add total_loss
          (Float.mul half (Float.mul (Float.sub yi pi) (Float.sub yi pi))))
  else
    let sample_robust_loss :=
      Float.sub (Float.mul epsilon sample_absolute_error)
        (Float.mul half (Float.mul epsilon epsilon)) in
    Ok (Float.add total_loss sample_robust_loss).

(** [huber_loss(y, preds, epsilon)] on one-dimensional [y] and [preds]:
    the loop runs over [range(len(y))], and the total is divided by
    [len(y)]. *)
Definition huber_loss (y preds : list float) (epsilon : float)
  : outcome float :=
  match for_each (seq 0 (length y)) (huber_turn y preds epsilon) Float.zero with
  | Raise e => Raises e
  | Ok total_loss =>
      match length y with
      | 0 => RaisesZeroDivisionError
      | S _ => Returns (Float.div total_loss (Float.of_nat (length y)))
      end
  end.

(** *** Block-partitioned data *)

(** Modelled from the spec: [BlockPartitionedData], of
    [imodels.importance.representation_cleaned], is not among the sources.
    The spec describes it as a feature representation split into blocks,
    one block per original feature, each block holding any number of
    derived columns; the blocks partition the columns of the transformed
    representation, and block [k] is retrievable as its sub-matrix, as its
    column indices, and as the complement of both; it can be split by row
    indices into a train and a test part. *)
Module BlockPartitionedData.

Record t : Type := mk {
  n_samples : nat;
  (** one matrix of [n_samples] rows per feature *)
  data_blocks : list matrix
}.

Definition n_blocks (self : t) : nat := length (data_blocks self).

Definition hstack_all (n : nat) (blocks : list matrix) : matrix :=
  fold_left (map2 (@app float)) blocks (repeat [] n).

Definition get_all_data (self : t) : ndarray :=
  A2 (hstack_all (n_samples self) (data_blocks self)).

Definition block_lookup (self : t) (k : nat) : result matrix :=
  match nth_error (data_blocks self) k with
  | Some b => Ok b
  | None => Raise (IndexError "list index out of range")
  end.

Definition get_block (self : t) (k : nat) : result ndarray :=
  b <- block_lookup self k ;; Ok (A2 b).

Definition block_width (self : t) (b : matrix) : nat :=
  match n_samples self with 0 => 0 | _ => ncols b end.

Definition block_start (self : t) (k : nat) : nat :=
  list_sum (map (block_width self) (firstn k (data_blocks self))).

Definition get_block_indices (self : t) (k : nat) : result (list Z) :=
  b <- block_lookup self k ;;
  Ok (map Z.of_nat (seq (block_start self k) (block_width self b))).

Definition remove_nth {A} (k : nat) (l : list A) : list A :=
  firstn k l ++ skipn (S k) l.

Definition get_all_except_block (self : t) (k : nat) : result ndarray :=
  _ <- block_lookup self k ;;
  Ok (A2 (hstack_all (n_samples self) (remove_nth k (data_blocks self)))).

Definition get_all_except_block_indices (self : t) (k : nat)
  : result (list Z) :=
  b <- block_lookup self k ;;
  let total := block_start self (n_blocks self) in
  let lo := block_start self k in
  let hi := lo + block_width self b in
  Ok (map Z.of_nat (seq 0 lo ++ seq hi (total - hi))).

Definition rows_of (idx : list nat) (b : matrix) : matrix :=
  map (fun i => nth i b []) idx.

Definition train_test_split (self : t) (train_indices test_indices : list nat)
  : result (t * t) :=
  if forallb (fun i => Nat.ltb i (n_samples self))
       (train_indices ++ test_indices)
  then Ok (mk (length train_indices)
             (map (rows_of train_indices) (data_blocks self)),
           mk (length test_indices)
             (map (rows_of test_indices) (data_blocks self)))
  else Raise (IndexError "index is out of bounds for axis 0").

(** [BlockPartitionedData(data_blocks)] *)
Definition of_blocks (blocks : list ndarray) : result t :=
  ms <- map_result (fun b => match b with
                             | A2 m => Ok m
                             | _ => Raise (ValueError "a block is a matrix")
                             end) blocks ;;
  Ok (mk (match ms with [] => 0 | m :: _ => nrows m end) ms).

End BlockPartitionedData.

(** *** Estimators of the library, seen through their attributes *)

(** An attribute of an object: absent, or present with a value that may be
    [None]. *)
Inductive attr : Type :=
| Absent
| Present (v : option float).

Definition hasattr (a : attr) : bool :=
  match a with Absent => false | Present _ => true end.

Module Estimator.

Record t : Type := mk {
  class_name : string;
  alpha : attr;
  C : attr;
  epsilon : attr;
  coef_ : option ndarray;
  intercept_ : option ndarray
}.

(** [est.set_params(alpha=a)] *)
Definition set_alpha (a : option float) (e : t) : t :=
  {| class_name := class_name e; alpha := Present a; C := C e;
     epsilon := epsilon e; coef_ := coef_ e; intercept_ := intercept_ e |}.

(** [est.set_params(C=c)] *)
Definition set_C (c : option float) (e : t) : t :=
  {| class_name := class_name e; alpha := alpha e; C := Present c;
     epsilon := epsilon e; coef_ := coef_ e; intercept_ := intercept_ e |}.

End Estimator.

(** [extract_coef_and_intercept(estimator)] *)
Definition extract_coef_and_intercept (estimator : Estimator.t)
  : result (ndarray * ndarray) :=
  match Estimator.coef_ estimator, Estimator.intercept_ estimator with
  | Some coef_, Some intercept_ =>
      if Nat.ltb 1 (ndim coef_)
      then
        match intercept_ with
        | A1 (b :: _) => Ok (A1 (ravel coef_), A0 b)
        | A2 (r :: _) => Ok (A1 (ravel coef_), A1 r)
        | A0 _ => Raise (IndexError "invalid index to scalar variable")
        | _ => Raise (IndexError "index 0 is out of bounds for axis 0 with size 0")
        end
      else Ok (coef_, intercept_)
  | _, _ => Raise (AttributeError "coef_")
  end.

(** [extract_coef_and_intercept(estimator, merge=True)] *)
Definition extract_augmented_coef (estimator : Estimator.t)
  : result ndarray :=
  ci <- extract_coef_and_intercept estimator ;;
  Ok (A1 (ravel (fst ci) ++ ravel (snd ci))).

(** A Python callable of two or of three arguments, as the loss
    derivatives and the scorers are; a call with the wrong number of
    arguments raises. *)
Inductive callable (A : Type) : Type :=
| Lambda2 (f : ndarray -> ndarray -> result A)
| Lambda3 (f : ndarray -> ndarray -> float -> result A).
Arguments Lambda2 {A} f.
Arguments Lambda3 {A} f.

Definition call2 {A} (f : callable A) (a b : ndarray) : result A :=
  match f with
  | Lambda2 g => g a b
  | Lambda3 _ => Raise (TypeError "missing 1 required positional argument")
  end.

Definition call3 {A} (f : callable A) (a b : ndarray) (c : option float)
  : result A :=
  match f, c with
  | Lambda3 g, Some c => g a b c
  | Lambda3 _, None => Raise (TypeError "unsupported operand type(s): 'NoneType'")
  | Lambda2 _, _ => Raise (TypeError "takes 2 positional arguments but 3 were given")
  end.

Definition attr_value (a : attr) : option float :=
  match a with Present v => v | Absent => None end.

(** [x] where Python needs an array and may find [None] *)
Definition require {A} (what : string) (x : option A) : result A :=
  match x with
  | Some a => Ok a
  | None => Raise (TypeError what)
  end.

(** A warning handed to [warnings.warn]. *)
Definition warning : Type := string.

(** *** GlmAlooCalculator *)

Module GlmAlooCalculator.

Record t : Type := mk {
  estimator : Estimator.t;
  alpha_grid : list float;
  link_fn : ndarray -> result ndarray;
  l_dot : callable ndarray;
  l_doubledot : callable ndarray;
  r_doubledot : option (ndarray -> result ndarray);
  trim : option float;
  hyperparameter_scorer : callable ndarray;
  alpha_ : option float;
  loo_fitted_parameters : option ndarray
}.

Definition __init__ (estimator : Estimator.t) (alpha_grid : list float)
    (link_fn : ndarray -> result ndarray) (l_dot l_doubledot : callable ndarray)
    (r_doubledot : option (ndarray -> result ndarray))
    (hyperparameter_scorer : callable ndarray) (trim : option float) : t :=
  {| estimator := estimator; alpha_grid := alpha_grid; link_fn := link_fn;
     l_dot := l_dot; l_doubledot := l_doubledot; r_doubledot := r_doubledot;
     trim := trim; hyperparameter_scorer := hyperparameter_scorer;
     alpha_ := None; loo_fitted_parameters := None |}.

(** [self.estimator = e] *)
Definition set_estimator (e : Estimator.t) (self : t) : t :=
  {| estimator := e; alpha_grid := alpha_grid self; link_fn := link_fn self;
     l_dot := l_dot self; l_doubledot := l_doubledot self;
     r_doubledot := r_doubledot self; trim := trim self;
     hyperparameter_scorer := hyperparameter_scorer self;
     alpha_ := alpha_ self;
     loo_fitted_parameters := loo_fitted_parameters self |}.

(** [self.loo_fitted_parameters = p] *)
Definition set_loo_fitted_parameters (p : ndarray) (self : t) : t :=
  {| estimator := estimator self; alpha_grid := alpha_grid self;
     link_fn := link_fn self; l_dot := l_dot self;
     l_doubledot := l_doubledot self; r_doubledot := r_doubledot self;
     trim := trim self; hyperparameter_scorer := hyperparameter_scorer self;
     alpha_ := alpha_ self; loo_fitted_parameters := Some p |}.

(** [self.alpha_ = a] *)
Definition set_alpha_ (a : float) (self : t) : t :=
  {| estimator := estimator self; alpha_grid := alpha_grid self;
     link_fn := link_fn self; l_dot := l_dot self;
     l_doubledot := l_doubledot self; r_doubledot := r_doubledot self;
     trim := trim self; hyperparameter_scorer := hyperparameter_scorer self;
     alpha_ := Some a;
     loo_fitted_parameters := loo_fitted_parameters self |}.

Definition _trim_values (self : t) (values : ndarray) : result ndarray :=
  match trim self with
  | Some t =>
      if Float.ltb Float.zero t && Float.ltb t (Finite (1 # 2))
      then Ok (np_clip t (Float.sub Float.one t) values)
      else Raise (AssertionError "Limit must be between 0 and 0.5")
  | None => Ok values
  end.

Definition score_to_pred (self : t) (score : ndarray) : result ndarray :=
  v <- link_fn self score ;; _trim_values self v.

(** A loss derivative or a scorer, called with the Huber threshold when
    the estimator has one. *)
Definition call_loss (self : t) (f : callable ndarray) (y preds : ndarray)
  : result ndarray :=
  if hasattr (Estimator.epsilon (estimator self))
  then call3 f y preds (attr_value (Estimator.epsilon (estimator self)))
  else call2 f y preds.

Section Methods.

(** What the library computes: [estimator.fit(X, y)] on a copy of the
    estimator, and [np.linalg.inv]. *)
Variable sk_fit :
  Estimator.t -> option ndarray -> option ndarray -> result Estimator.t.
Variable np_linalg_inv : ndarray -> result ndarray.

(** The first branch of the computation: the regularization parameter is
    handed to the estimator, and the strength used for the curvature term
    is chosen. *)
Definition set_regularization (self : t) (alpha : option float)
  : result (t * option float) :=
  if hasattr (Estimator.alpha (estimator self))
  then Ok (set_estimator (Estimator.set_alpha alpha (estimator self)) self,
           alpha)
  else if hasattr (Estimator.C (estimator self))
  then
    a <- require "unsupported operand type(s) for /: 'int' and 'NoneType'"
           alpha ;;
    Ok (set_estimator
          (Estimator.set_C (Some (Float.div Float.one a)) (estimator self))
          self,
        alpha)
  else Ok (self, Some Float.zero).

(** [J]: the weighted information matrix, with the curvature of the
    regularizer scaled by [alpha] when there is one. *)
Definition information_matrix (self : t) (X1 augmented_coef_ : ndarray)
    (l_doubledot_vals : ndarray) (alpha : option float) : result ndarray :=
  weighted <- np_mul (T X1) l_doubledot_vals ;;
  J <- matmul weighted X1 ;;
  match r_doubledot self with
  | Some r =>
      rv <- r augmented_coef_ ;;
      r_doubledot_vals <- np_mul rv (ones_like augmented_coef_) ;;
      r_doubledot_vals <- set_last (ravel r_doubledot_vals) Float.zero ;;
      let reg_curvature := A2 (diag r_doubledot_vals) in
      a <- require "unsupported operand type(s) for *: 'NoneType'" alpha ;;
      scaled <- np_mul (A0 a) reg_curvature ;;
      np_add J scaled
  | None => Ok J
  end.

(** The body of [get_aloo_fitted_parameters] once the cache is known to be
    empty and the regularization is set.  (The source also binds a local
    [a] to the correction term; it is not used.) *)
Definition aloo_parameters (self : t) (X y : option ndarray)
    (alpha : option float) : result (ndarray * Estimator.t) :=
  estimator <- sk_fit (estimator self) X y ;;
  X <- require "'NoneType' object has no attribute 'shape'" X ;;
  n <- shape0 X ;;
  X1 <- hstack X (ones n 1) ;;
  augmented_coef_ <- extract_augmented_coef estimator ;;
  scores <- matmul X1 augmented_coef_ ;;
  orig_preds <- link_fn self scores ;;
  y <- require "unsupported operand type(s): 'NoneType'" y ;;
  l_doubledot_vals <- call_loss self (l_doubledot self) y orig_preds ;;
  J <- information_matrix self X1 augmented_coef_ l_doubledot_vals alpha ;;
  Jinv <- np_linalg_inv J ;;
  normal_eqn_mat <- matmul Jinv (T X1) ;;
  hx <- np_mul (T X1) normal_eqn_mat ;;
  hs <- sum_axis0 hx ;;
  h_vals <- np_mul hs l_doubledot_vals ;;
  l_dot_vals <- call_loss self (l_dot self) y orig_preds ;;
  num <- np_mul normal_eqn_mat l_dot_vals ;;
  den <- np_sub (A0 Float.one) h_vals ;;
  correction <- np_div num den ;;
  column <- newaxis_col augmented_coef_ ;;
  loo_fitted_parameters <- np_add column correction ;;
  Ok (loo_fitted_parameters, estimator).

(** The method returns its value, the calculator as the call leaves it,
    and the warnings the call issued. *)
Definition get_aloo_fitted_parameters (self : t) (X y : option ndarray)
    (alpha : option float) (cache : bool)
  : result (ndarray * t * list warning) :=
  match loo_fitted_parameters self with
  | Some p => Ok (p, self, [])
  | None =>
      sa <- set_regularization self alpha ;;
      let self := fst sa in
      let alpha := snd sa in
      pe <- aloo_parameters self X y alpha ;;
      let loo_fitted_parameters := fst pe in
      let estimator := snd pe in
      if cache
      then Ok (loo_fitted_parameters,
               set_estimator estimator
                 (set_loo_fitted_parameters loo_fitted_parameters self),
               [])
      else Ok (loo_fitted_parameters, self, [])
  end.

(** One turn of the loop of [get_aloocv_alpha]. *)
Definition cv_score (X y : ndarray) (alpha : float)
    (st : t * list float * list warning)
  : result (t * list float * list warning) :=
  let '(self, cv_scores, ws) := st in
  r <- get_aloo_fitted_parameters self (Some X) (Some y) (Some alpha) false ;;
  let '(loo_fitted_parameters, self, ws') := r in
  n <- shape0 X ;;
  X1 <- hstack X (ones n 1) ;;
  prod <- np_mul (T loo_fitted_parameters) X1 ;;
  s <- sum_axis1 prod ;;
  preds <- score_to_pred self s ;;
  score <- call_loss self (hyperparameter_scorer self) y preds ;;
  match score with
  | A0 x => Ok (self, app cv_scores [x], app ws ws')
  | _ => Raise (ValueError "setting an array element with a sequence")
  end.

Definition get_aloocv_alpha (self : t) (X y : ndarray)
  : result (float * t * list warning) :=
  st <- for_each (alpha_grid self) (cv_score X y) (self, [], []) ;;
  let '(self, cv_scores, ws) := st in
  i <- argmin cv_scores ;;
  let a := nth i (alpha_grid self) NaN in
  Ok (a, set_alpha_ a self, ws).

End Methods.

End GlmAlooCalculator.

(** *** Partial prediction models *)

(** What [_fit_partial_predictions] returns next to the predictions: a
    Python list of parameters, or an array of them. *)
Inductive partial_params : Type :=
| ParamList (l : list ndarray)
| ParamArray (a : ndarray).

Definition partial_prediction : Type := (ndarray * partial_params)%type.

Module PartialPredictionModelBase.

Record t : Type := mk {
  n_blocks : option nat;
  _partial_preds : gmap nat partial_prediction;
  _full_preds : option ndarray;
  is_fitted : bool
}.

Definition __init__ : t :=
  {| n_blocks := None; _partial_preds := ∅; _full_preds := None;
     is_fitted := false |}.

End PartialPredictionModelBase.

(** The abstract class: a state that holds the base attributes, and the
    three abstract methods. *)
Class PartialPredictionModel (P : Type) : Type := {
  ppm_base : P -> PartialPredictionModelBase.t;
  ppm_set_base : PartialPredictionModelBase.t -> P -> P;
  _fit_model :
    P -> BlockPartitionedData.t -> ndarray -> result (P * list warning);
  _fit_full_predictions :
    P -> BlockPartitionedData.t -> option ndarray -> result (ndarray * P);
  _fit_partial_predictions :
    P -> nat -> string -> BlockPartitionedData.t -> option ndarray ->
    result (partial_prediction * P)
}.

Section Base.

Context {P : Type} `{PartialPredictionModel P}.

Import PartialPredictionModelBase.

Definition set_n_blocks (n : nat) (self : P) : P :=
  let b := ppm_base self in
  ppm_set_base (mk (Some n) (_partial_preds b) (_full_preds b) (is_fitted b))
    self.

Definition set_full_preds (p : ndarray) (self : P) : P :=
  let b := ppm_base self in
  ppm_set_base (mk (n_blocks b) (_partial_preds b) (Some p) (is_fitted b)) self.

Definition set_partial_pred (k : nat) (p : partial_prediction) (self : P) : P :=
  let b := ppm_base self in
  ppm_set_base
    (mk (n_blocks b) (<[k := p]> (_partial_preds b)) (_full_preds b)
       (is_fitted b))
    self.

Definition set_is_fitted (self : P) : P :=
  let b := ppm_base self in
  ppm_set_base (mk (n_blocks b) (_partial_preds b) (_full_preds b) true) self.

Definition fit (self : P) (train_blocked_data : BlockPartitionedData.t)
    (y_train : ndarray) (test_blocked_data : BlockPartitionedData.t)
    (y_test : option ndarray) (mode : string) : result (P * list warning) :=
  let n := BlockPartitionedData.n_blocks train_blocked_data in
  let self := set_n_blocks n self in
  sw <- _fit_model self train_blocked_data y_train ;;
  let self := fst sw in
  fp <- _fit_full_predictions self test_blocked_data y_test ;;
  let self := set_full_preds (fst fp) (snd fp) in
  self <- for_each (seq 0 n)
            (fun k self =>
               pp <- _fit_partial_predictions self k mode test_blocked_data
                       y_test ;;
               Ok (set_partial_pred k (fst pp) (snd pp)))
            self ;;
  Ok (set_is_fitted self, snd sw).

Definition get_partial_predictions (self : P) (k : nat)
  : result partial_prediction :=
  match _partial_preds (ppm_base self) !! k with
  | Some p => Ok p
  | None => Raise (KeyError "k")
  end.

Definition get_full_predictions (self : P) : option ndarray :=
  _full_preds (ppm_base self).

End Base.

(** *** GenericLOOPPM, the parent of the three leave-one-out models *)

Module GenericLOOPPM.

Record t : Type := mk {
  base : PartialPredictionModelBase.t;
  estimator : Estimator.t;
  aloo_calculator : GlmAlooCalculator.t;
  trim : option float;
  fixed_intercept : bool;
  alpha_ : option float
}.

Definition __init__ (estimator : Estimator.t) (alpha_grid : list float)
    (link_fn : ndarray -> result ndarray) (l_dot l_doubledot : callable ndarray)
    (r_doubledot : option (ndarray -> result ndarray))
    (hyperparameter_scorer : callable ndarray) (trim : option float)
    (fixed_intercept : bool) : t :=
  {| base := PartialPredictionModelBase.__init__;
     estimator := estimator;
     aloo_calculator :=
       GlmAlooCalculator.__init__ estimator alpha_grid link_fn l_dot
         l_doubledot r_doubledot hyperparameter_scorer trim;
     trim := trim;
     fixed_intercept := fixed_intercept;
     alpha_ := None |}.

Definition set_base (b : PartialPredictionModelBase.t) (self : t) : t :=
  mk b (estimator self) (aloo_calculator self) (trim self)
    (fixed_intercept self) (alpha_ self).

Definition set_estimator (e : Estimator.t) (self : t) : t :=
  mk (base self) e (aloo_calculator self) (trim self) (fixed_intercept self)
    (alpha_ self).

Definition set_aloo_calculator (c : GlmAlooCalculator.t) (self : t) : t :=
  mk (base self) (estimator self) c (trim self) (fixed_intercept self)
    (alpha_ self).

Definition set_alpha_ (a : float) (self : t) : t :=
  mk (base self) (estimator self) (aloo_calculator self) (trim self)
    (fixed_intercept self) (Some a).

(** The two modes: the columns kept and their indices. *)
Definition reduced (mode : string) (k : nat)
    (test_blocked_data : BlockPartitionedData.t)
  : result (list Z * ndarray) :=
  if String.eqb mode "keep_k"
  then
    col_indices <- BlockPartitionedData.get_block_indices test_blocked_data k ;;
    reduced_data <- BlockPartitionedData.get_block test_blocked_data k ;;
    Ok (col_indices, reduced_data)
  else if String.eqb mode "keep_rest"
  then
    col_indices <-
      BlockPartitionedData.get_all_except_block_indices test_blocked_data k ;;
    reduced_data <-
      BlockPartitionedData.get_all_except_block test_blocked_data k ;;
    Ok (col_indices, reduced_data)
  else Raise (ValueError "Invalid mode").

(** [np.repeat(a, n)] *)
Definition np_repeat_each (a : ndarray) (n : nat) : ndarray :=
  A1 (concat (map (fun x => repeat x n) (ravel a))).

(** [a[:, col_indices]] for [col_indices = np.append(block_indices, -1)]:
    the indices of a block are a list of integers, and [np.append] of an
    empty list is an array of floats, which NumPy refuses as an index. *)
Definition index_cols (a : ndarray) (block_indices col_indices : list Z)
  : result ndarray :=
  match block_indices with
  | [] =>
      Raise (IndexError "arrays used as indices must be of integer (or boolean) type")
  | _ :: _ => take_cols a col_indices
  end.

Section Methods.

Variable sk_fit :
  Estimator.t -> option ndarray -> option ndarray -> result Estimator.t.
Variable np_linalg_inv : ndarray -> result ndarray.

Definition _fit_model (self : t) (train_blocked_data : BlockPartitionedData.t)
    (y_train : ndarray) : result (t * list warning) :=
  r <- GlmAlooCalculator.get_aloocv_alpha sk_fit np_linalg_inv
         (aloo_calculator self)
         (BlockPartitionedData.get_all_data train_blocked_data) y_train ;;
  let '(a, calc, ws) := r in
  let self := set_alpha_ a (set_aloo_calculator calc self) in
  if hasattr (Estimator.alpha (estimator self))
  then Ok (set_estimator (Estimator.set_alpha (Some a) (estimator self)) self,
           ws)
  else if hasattr (Estimator.C (estimator self))
  then Ok (set_estimator
             (Estimator.set_C (Some (Float.div Float.one a)) (estimator self))
             self,
           ws)
  else Ok (self, app ws ["Estimator has no regularization parameter."]).

Definition _fit_full_predictions (self : t)
    (test_blocked_data : BlockPartitionedData.t) (y_test : option ndarray)
  : result (ndarray * t) :=
  match y_test with
  | None => Raise (ValueError "Need to supply y_test for LOO")
  | Some y_test =>
      let all_data := BlockPartitionedData.get_all_data test_blocked_data in
      X1 <- hstack all_data
              (ones (BlockPartitionedData.n_samples test_blocked_data) 1) ;;
      r <- GlmAlooCalculator.get_aloo_fitted_parameters sk_fit np_linalg_inv
             (aloo_calculator self) (Some all_data) (Some y_test)
             (alpha_ self) true ;;
      let '(fitted_parameters, calc, _) := r in
      prod <- np_mul (T fitted_parameters) X1 ;;
      s <- sum_axis1 prod ;;
      preds <- GlmAlooCalculator.score_to_pred calc s ;;
      Ok (preds, set_aloo_calculator calc self)
  end.

Definition _fit_partial_predictions (self : t) (k : nat) (mode : string)
    (test_blocked_data : BlockPartitionedData.t) (y_test : option ndarray)
  : result (partial_prediction * t) :=
  match y_test with
  | None => Raise (ValueError "Need to supply y_test for LOO")
  | Some y_test =>
      cr <- reduced mode k test_blocked_data ;;
      let col_indices := fst cr in
      let reduced_data := snd cr in
      reduced_data1 <-
        hstack reduced_data
          (ones (BlockPartitionedData.n_samples test_blocked_data) 1) ;;
      let col_indices := app col_indices [(-1)%Z] in
      if fixed_intercept self && Nat.eqb (length col_indices) 1
      then
        ci <- extract_coef_and_intercept
                (GlmAlooCalculator.estimator (aloo_calculator self)) ;;
        let intercept := snd ci in
        p <- GlmAlooCalculator.score_to_pred (aloo_calculator self) intercept ;;
        n <- len y_test ;;
        (* returning learnt intercept for null model *)
        Ok (np_repeat_each p n, ParamList [intercept], self)
      else
        r <- GlmAlooCalculator.get_aloo_fitted_parameters sk_fit np_linalg_inv
               (aloo_calculator self) None None None false ;;
        let '(fitted_parameters, calc, _) := r in
        reduced_parameters <-
          index_cols (T fitted_parameters) (fst cr) col_indices ;;
        prod <- np_mul reduced_parameters reduced_data1 ;;
        s <- sum_axis1 prod ;;
        preds <- GlmAlooCalculator.score_to_pred calc s ;;
        (* returning learnt parameters for partial model *)
        Ok (preds, ParamArray reduced_parameters, set_aloo_calculator calc self)
  end.

#[export] Instance ppm : PartialPredictionModel t := {
  ppm_base := base;
  ppm_set_base := set_base;
  _fit_model := _fit_model;
  _fit_full_predictions := _fit_full_predictions;
  _fit_partial_predictions := _fit_partial_predictions
}.

End Methods.

End GenericLOOPPM.

(** *** The per-member scorer *)

(** Modelled from the spec: the transformers of
    [imodels.importance.representation_cleaned] are not among the sources.
    [GMDI] uses of its transformer the [transform] method, which yields
    block-partitioned data, the adjustment factors [all_adj_factors], and
    the random state of the tree the transformer was built from. *)
Module Transformer.

Record t : Type := mk {
  transform : ndarray -> bool -> result BlockPartitionedData.t;
  all_adj_factors : list ndarray;
  estimator_random_state : Z
}.

End Transformer.

(** The [scoring_fn] argument: a callable, or a tag such as "mdi_oob". *)
Inductive scoring : Type :=
| ScoringTag (tag : string)
| ScoringFn (f : ndarray -> ndarray -> result ndarray).

Definition call_scoring (f : scoring) (y_true y_pred : ndarray)
  : result ndarray :=
  match f with
  | ScoringFn g => g y_true y_pred
  | ScoringTag _ => Raise (TypeError "'str' object is not callable")
  end.

Definition is_mdi_oob (f : scoring) : bool :=
  match f with
  | ScoringTag tag => String.eqb tag "mdi_oob"
  | ScoringFn _ => false
  end.

(** The values [_fit_one_target] puts in the tuple it returns. *)
Inductive pyobj : Type :=
| PyArray (a : option ndarray)
| PyPreds (d : gmap nat ndarray)
| PyParams (d : gmap nat partial_params).

(** [a, b = t] and [a, b, c = t] *)
Definition unpack2 (t : list pyobj) : result (pyobj * pyobj) :=
  match t with
  | [a; b] => Ok (a, b)
  | _ :: _ :: _ :: _ => Raise (ValueError "too many values to unpack (expected 2)")
  | _ => Raise (ValueError "not enough values to unpack (expected 2)")
  end.

Definition unpack3 (t : list pyobj) : result (pyobj * pyobj * pyobj) :=
  match t with
  | [a; b; c] => Ok (a, b, c)
  | _ :: _ :: _ :: _ :: _ => Raise (ValueError "too many values to unpack (expected 3)")
  | _ => Raise (ValueError "not enough values to unpack (expected 3)")
  end.

Definition as_array (o : pyobj) : result ndarray :=
  match o with
  | PyArray (Some a) => Ok a
  | _ => Raise (TypeError "unsupported operand type(s)")
  end.

Definition as_preds (o : pyobj) : result (gmap nat ndarray) :=
  match o with
  | PyPreds d => Ok d
  | _ => Raise (TypeError "object is not subscriptable")
  end.

Definition as_params (o : pyobj) : result (gmap nat partial_params) :=
  match o with
  | PyParams d => Ok d
  | _ => Raise (TypeError "object is not subscriptable")
  end.

(** [d[k]] *)
Definition getitem {A} (d : gmap nat A) (k : nat) : result A :=
  match d !! k with
  | Some v => Ok v
  | None => Raise (KeyError "k")
  end.

(** [len(p)], [p.ndim] and the array a parameter list turns into in
    arithmetic *)
Definition params_len (p : partial_params) : result nat :=
  match p with
  | ParamList l => Ok (length l)
  | ParamArray a => len a
  end.

Definition params_ndim (p : partial_params) : result nat :=
  match p with
  | ParamList _ => Raise (AttributeError "'list' object has no attribute 'ndim'")
  | ParamArray a => Ok (ndim a)
  end.

Definition params_array (p : partial_params) : result ndarray :=
  match p with
  | ParamArray a => Ok a
  | ParamList l =>
      if forallb (fun a => Nat.eqb (ndim a) 0) l
      then Ok (A1 (concat (map ravel l)))
      else vstack l
  end.

(** [scores[k] = v] *)
Definition setitem (scores : list float) (k : nat) (v : ndarray)
  : result (list float) :=
  if Nat.ltb k (length scores)
  then
    match v with
    | A0 x | A1 [x] | A2 [[x]] => Ok (<[k := x]> scores)
    | _ => Raise (ValueError "setting an array element with a sequence.")
    end
  else Raise (IndexError "index is out of bounds for axis 0").

Module GMDI.

Record t (P : Type) : Type := mk {
  transformer : Transformer.t;
  partial_prediction_model : P;
  scoring_fn : scoring;
  mode : string;
  n_features : option nat;
  _scores : option ndarray;
  is_fitted : bool;
  oob : bool;
  training : bool;
  center : bool;
  include_raw : bool;
  drop_features : bool
}.
Arguments mk {P}.
Arguments transformer {P}.
Arguments partial_prediction_model {P}.
Arguments scoring_fn {P}.
Arguments mode {P}.
Arguments n_features {P}.
Arguments _scores {P}.
Arguments is_fitted {P}.
Arguments oob {P}.
Arguments training {P}.
Arguments center {P}.
Arguments include_raw {P}.
Arguments drop_features {P}.

Definition __init__ {P} (transformer : Transformer.t)
    (partial_prediction_model : P) (scoring_fn : scoring) (mode : string)
    (oob training center include_raw drop_features : bool) : t P :=
  {| transformer := transformer;
     partial_prediction_model := partial_prediction_model;
     scoring_fn := scoring_fn; mode := mode; n_features := None;
     _scores := None; is_fitted := false; oob := oob; training := training;
     center := center; include_raw := include_raw;
     drop_features := drop_features |}.

Definition set_n_features {P} (n : nat) (self : t P) : t P :=
  mk (transformer self) (partial_prediction_model self) (scoring_fn self)
    (mode self) (Some n) (_scores self) (is_fitted self) (oob self)
    (training self) (center self) (include_raw self) (drop_features self).

Definition set_scores {P} (s : ndarray) (self : t P) : t P :=
  mk (transformer self) (partial_prediction_model self) (scoring_fn self)
    (mode self) (n_features self) (Some s) (is_fitted self) (oob self)
    (training self) (center self) (include_raw self) (drop_features self).

Definition set_is_fitted {P} (self : t P) : t P :=
  mk (transformer self) (partial_prediction_model self) (scoring_fn self)
    (mode self) (n_features self) (_scores self) true (oob self)
    (training self) (center self) (include_raw self) (drop_features self).

Definition set_partial_prediction_model {P} (p : P) (self : t P) : t P :=
  mk (transformer self) p (scoring_fn self)
    (mode self) (n_features self) (_scores self) (is_fitted self) (oob self)
    (training self) (center self) (include_raw self) (drop_features self).

(** The data [_fit_importance_scores] works on after its first part. *)
Record split : Type := mk_split {
  train_blocked_data : BlockPartitionedData.t;
  test_blocked_data : BlockPartitionedData.t;
  y_train : ndarray;
  y_test : ndarray
}.

(** [self._scores[k] = np.NaN] for [k] in [range(d)], on [np.zeros(d)] *)
Definition nan_scores (d : nat) : list float :=
  fold_left (fun scores k => <[k := NaN]> scores) (seq 0 d)
    (repeat Float.zero d).

Section Methods.

Context {P : Type} `{PartialPredictionModel P}.

(** What the library computes: the standard deviation of a column, and
    the bootstrap indices of a tree ([_generate_sample_indices] and
    [_generate_unsampled_indices]). *)
Variable np_std : ndarray -> float.
Variable _generate_sample_indices : Z -> nat -> nat -> list nat.
Variable _generate_unsampled_indices : Z -> nat -> nat -> list nat.

Definition _train_test_split (self : t P)
    (blocked_data : BlockPartitionedData.t) (y : ndarray) : result split :=
  n_samples <- len y ;;
  let random_state := Transformer.estimator_random_state (transformer self) in
  let train_indices :=
    _generate_sample_indices random_state n_samples n_samples in
  let test_indices :=
    _generate_unsampled_indices random_state n_samples n_samples in
  tt <- BlockPartitionedData.train_test_split blocked_data train_indices
          test_indices ;;
  y_train <- take_rows y train_indices ;;
  y_test <- take_rows y test_indices ;;
  Ok (mk_split (fst tt) (snd tt) y_train y_test).

(** The branch of [_fit_importance_scores] for [include_raw] without
    [drop_features]: the blocks that hold only the raw feature are scaled. *)
Definition rescale_raw_blocks (self : t P) (X : ndarray) (n_features : nat)
    (blocked_data : BlockPartitionedData.t) : result BlockPartitionedData.t :=
  factors <-
    match Transformer.all_adj_factors (transformer self) with
    | [] => Raise (ValueError "need at least one array to concatenate")
    | fs => Ok (concat (map ravel fs))
    end ;;
  let min_adj_factor := nanmin factors in
  data_blocks <-
    map_result
      (fun k =>
         block <- BlockPartitionedData.get_block blocked_data k ;;
         width <- shape1 block ;;
         raw_only <-
           (if Nat.eqb width 1
            then xk <- take_cols X [Z.of_nat k] ;;
                 Ok (Float.ltb Float.zero (np_std xk))
            else Ok false) ;;
         idx <- BlockPartitionedData.get_block_indices blocked_data k ;;
         cols <- take_cols (BlockPartitionedData.get_all_data blocked_data)
                   idx ;;
         if raw_only
         then
           xk <- take_cols X [Z.of_nat k] ;;
           scaled <- np_mul cols (A0 min_adj_factor) ;;
           np_div scaled (A0 (np_std xk))
         else Ok cols)
      (seq 0 n_features) ;;
  BlockPartitionedData.of_blocks data_blocks.

(** The first part of [_fit_importance_scores]: the transformed data, and
    its train and test parts. *)
Definition blocked_train_test (self : t P) (X y : ndarray)
  : result (t P * split) :=
  blocked_data <-
    Transformer.transform (transformer self) X (center self) ;;
  let n := BlockPartitionedData.n_blocks blocked_data in
  let self := set_n_features n self in
  blocked_data <-
    (if include_raw self && negb (drop_features self)
     then rescale_raw_blocks self X n blocked_data
     else Ok blocked_data) ;;
  sp <-
    (if oob self
     then
       if training self
       then
         sp <- _train_test_split self blocked_data y ;;
         Ok (mk_split (train_blocked_data sp) (train_blocked_data sp)
               (y_train sp) (y_train sp))
       else _train_test_split self blocked_data y
     else Ok (mk_split blocked_data blocked_data y y)) ;;
  Ok (self, sp).

Definition _fit_one_target (self : t P)
    (train_blocked_data : BlockPartitionedData.t) (y_train : ndarray)
    (test_blocked_data : BlockPartitionedData.t) (y_test : ndarray)
    (multitarget : bool) : result (list pyobj * t P) :=
  (* a copy when [multitarget], the model of [self] otherwise *)
  let ppm := partial_prediction_model self in
  fitted <- fit ppm train_blocked_data y_train test_blocked_data
              (Some y_test) (mode self) ;;
  let ppm := fst fitted in
  let full_preds := get_full_predictions ppm in
  n <- require "'NoneType' object cannot be interpreted as an integer"
         (n_features self) ;;
  dicts <- for_each (seq 0 n)
             (fun k (d : gmap nat ndarray * gmap nat partial_params) =>
                pp <- get_partial_predictions ppm k ;;
                Ok (<[k := fst pp]> (fst d), <[k := snd pp]> (snd d)))
             (∅, ∅) ;;
  Ok ([PyArray full_preds; PyPreds (fst dicts); PyParams (snd dicts)],
      if multitarget then self else set_partial_prediction_model ppm self).

(** [np.dot(y_test, partial_preds[k] - baseline) / len(y_test)] *)
Definition mdi_oob_score (y_test preds baseline : ndarray) : result ndarray :=
  diff <- np_sub preds baseline ;;
  d <- np_dot y_test diff ;;
  n <- len y_test ;;
  np_div d (A0 (Float.of_nat n)).

Definition _score_partial_predictions (self : t P)
    (full_preds : option ndarray) (partial_params : gmap nat partial_params)
    (partial_preds : gmap nat ndarray) (y_test : ndarray) : result (t P) :=
  n <- require "'NoneType' object cannot be interpreted as an integer"
         (n_features self) ;;
  let scores := repeat Float.zero n in
  scores <-
    (if String.eqb (mode self) "keep_k"
     then
       for_each (seq 0 n)
         (fun k scores =>
            v <-
              (if is_mdi_oob (scoring_fn self)
               then
                 params <- getitem partial_params k ;;
                 l <- params_len params ;;
                 if Nat.eqb l 1
                 then (* only intercept model *)
                   preds <- getitem partial_preds k ;;
                   baseline <- params_array params ;;
                   mdi_oob_score y_test preds baseline
                 else
                   d <- params_ndim params ;;
                   if Nat.eqb d 1
                   then (* partial prediction model without LOO *)
                     preds <- getitem partial_preds k ;;
                     a <- params_array params ;;
                     baseline <- last_item a ;;
                     mdi_oob_score y_test preds baseline
                   else (* LOO partial prediction model *)
                     preds <- getitem partial_preds k ;;
                     a <- params_array params ;;
                     baseline <- last_col a ;;
                     mdi_oob_score y_test preds baseline
               else
                 preds <- getitem partial_preds k ;;
                 call_scoring (scoring_fn self) y_test preds) ;;
            setitem scores k v)
         scores
     else if String.eqb (mode self) "keep_rest"
     then
       fp <- require "unsupported operand type(s): 'NoneType'" full_preds ;;
       full_score <- call_scoring (scoring_fn self) y_test fp ;;
       for_each (seq 0 n)
         (fun k scores =>
            preds <- getitem partial_preds k ;;
            s <- call_scoring (scoring_fn self) y_test preds ;;
            v <- np_sub full_score s ;;
            setitem scores k v)
         scores
     else Ok scores) ;;
  Ok (set_scores (A1 scores) self).

(** The loop of [_fit_importance_scores] over the columns of a target of
    more than one dimension: [for j in range(y.ndim)]. *)
Definition fit_targets (self : t P) (sp : split) (y : ndarray)
  : result (list pyobj * list pyobj) :=
  for_each (seq 0 (ndim y))
    (fun j (lists : list pyobj * list pyobj) =>
       yj_train <- get_col (y_train sp) j ;;
       yj_test <- get_col (y_test sp) j ;;
       r <- _fit_one_target self (train_blocked_data sp) yj_train
              (test_blocked_data sp) yj_test true ;;
       fp <- unpack2 (fst r) ;;
       Ok (app (fst lists) [fst fp], app (snd lists) [snd fp]))
    ([], []).

Definition _fit_importance_scores (self : t P) (X y : ndarray)
  : result (t P) :=
  ss <- blocked_train_test self X y ;;
  let self := fst ss in
  let sp := snd ss in
  width <- shape1 (BlockPartitionedData.get_all_data (train_blocked_data sp)) ;;
  self <-
    (if Nat.eqb width 0
     then (* checking if learnt representation is empty *)
       d <- shape1 X ;;
       Ok (set_scores (A1 (nan_scores d)) self)
     else
       if Nat.eqb (ndim y) 1
       then
         r <- _fit_one_target self (train_blocked_data sp) (y_train sp)
                (test_blocked_data sp) (y_test sp) false ;;
         let self := snd r in
         fpp <- unpack3 (fst r) ;;
         let '(full_preds, partial_preds, partial_params) := fpp in
         full_preds <- match full_preds with
                       | PyArray a => Ok a
                       | _ => Raise (TypeError "unsupported operand type(s)")
                       end ;;
         partial_preds <- as_preds partial_preds ;;
         partial_params <- as_params partial_params ;;
         _score_partial_predictions self full_preds partial_params
           partial_preds (y_test sp)
       else
         lists <- fit_targets self sp y ;;
         full_arrays <- map_result as_array (fst lists) ;;
         full_preds <- array_T full_arrays ;;
         n <- require "'NoneType' object cannot be interpreted as an integer"
                (n_features self) ;;
         partial_preds <-
           for_each (seq 0 n)
             (fun k (d : gmap nat ndarray) =>
                cols <- map_result
                          (fun o => pj <- as_preds o ;; getitem pj k)
                          (snd lists) ;;
                a <- array_T cols ;;
                Ok (<[k := a]> d))
             ∅ ;;
         (* [partial_params] is bound in the other branch only *)
         Raise (UnboundLocalError "partial_params")) ;;
  Ok (set_is_fitted self).

Definition get_scores (self : t P) (X y : option ndarray)
  : result (option ndarray * t P) :=
  if is_fitted self then Ok (_scores self, self)
  else
    match X, y with
    | Some X, Some y =>
        self <- _fit_importance_scores self X y ;;
        Ok (_scores self, self)
    | _, _ => Raise (ValueError "Not yet fitted. Need X and y as inputs.")
    end.

End Methods.

End GMDI.

(** *** The ensemble *)

Module GMDIEnsemble.

Record t (P : Type) : Type := mk {
  n_transformers : nat;
  gmdi_objects : list (GMDI.t P);
  oob : bool;
  scoring_fn : scoring;
  mode : string;
  n_features : option nat;
  _scores : option ndarray;
  is_fitted : bool;
  include_raw : bool;
  drop_features : bool
}.
Arguments mk {P}.
Arguments n_transformers {P}.
Arguments gmdi_objects {P}.
Arguments oob {P}.
Arguments scoring_fn {P}.
Arguments mode {P}.
Arguments n_features {P}.
Arguments _scores {P}.
Arguments is_fitted {P}.
Arguments include_raw {P}.
Arguments drop_features {P}.

(** The members are built by a positional call of [GMDI]: [center] lands
    on its parameter [training], [include_raw] on [center],
    [drop_features] on [include_raw], and [drop_features] keeps its
    default. *)
Definition __init__ {P} (transformers : list Transformer.t)
    (partial_prediction_model : P) (scoring_fn : scoring) (mode : string)
    (oob center include_raw drop_features : bool) : t P :=
  {| n_transformers := length transformers;
     gmdi_objects :=
       map (fun transformer =>
              GMDI.__init__ transformer partial_prediction_model scoring_fn
                mode oob center include_raw drop_features true)
         transformers;
     oob := oob; scoring_fn := scoring_fn; mode := mode;
     n_features := None; _scores := None; is_fitted := false;
     include_raw := include_raw; drop_features := drop_features |}.

Section Methods.

Context {P : Type} `{PartialPredictionModel P}.
Variable np_std : ndarray -> float.
Variable _generate_sample_indices : Z -> nat -> nat -> list nat.
Variable _generate_unsampled_indices : Z -> nat -> nat -> list nat.

(** [scores.append(gmdi_object.get_scores(X, y))] for every member *)
Definition member_scores (members : list (GMDI.t P)) (X y : ndarray)
  : result (list (option ndarray * GMDI.t P)) :=
  map_result
    (fun gmdi_object =>
       GMDI.get_scores np_std _generate_sample_indices
         _generate_unsampled_indices gmdi_object (Some X) (Some y))
    members.

(** [_fit_importance_scores] up to its last statement: the object as the
    writes [self._scores = ...] and [self.is_fitted = True] leave it. *)
Definition _fit_importance_scores_writes (self : t P) (X y : ndarray)
  : result (t P) :=
  n <- shape0 X ;;
  ly <- len y ;;
  if negb (Nat.eqb n ly) then Raise (AssertionError "")
  else
    fitted <- member_scores (gmdi_objects self) X y ;;
    scores <- map_result (require "unsupported operand type(s): 'NoneType'")
                (map fst fitted) ;;
    mean <- nanmean_axis0 scores ;;
    let members := map snd fitted in
    Ok (mk (n_transformers self) members (oob self) (scoring_fn self)
          (mode self) (n_features self) (Some mean) true
          (include_raw self) (drop_features self)).

(** The last statement,
    [self.n_features = self.gmdi_objects[0].n_features]. *)
Definition set_n_features_of_first (self : t P) : result (t P) :=
  match gmdi_objects self with
  | [] => Raise (IndexError "list index out of range")
  | first :: _ =>
      Ok (mk (n_transformers self) (gmdi_objects self) (oob self)
            (scoring_fn self) (mode self) (GMDI.n_features first)
            (_scores self) (is_fitted self) (include_raw self)
            (drop_features self))
  end.

(** When the last statement raises, the object stays as the writes before
    it have left it: [_fit_importance_scores_writes] gives that object. *)
Definition _fit_importance_scores (self : t P) (X y : ndarray)
  : result (t P) :=
  self <- _fit_importance_scores_writes self X y ;;
  set_n_features_of_first self.

Definition get_scores (self : t P) (X y : option ndarray)
  : result (option ndarray * t P) :=
  if is_fitted self then Ok (_scores self, self)
  else
    match X, y with
    | Some X, Some y =>
        self <- _fit_importance_scores self X y ;;
        Ok (_scores self, self)
    | _, _ => Raise (ValueError "Not yet fitted. Need X and y as inputs.")
    end.

End Methods.

End GMDIEnsemble.

End Importance.

(* ===================================================================== *)
(** ** Stand-ins for the library and for the transformers *)

Module ToyImportance.
Import Importance.

Definition F (z : Z) : float := Finite (inject_Z z).

Definition mean (v : list float) : float :=
  Float.div (fsum v) (Float.of_nat (length v)).

Definition centred (v : list float) : list float :=
  map (fun x => Float.sub x (mean v)) v.

(** Ridge regression with an intercept, on no column or on one; the
    penalty is the [alpha] the estimator holds, zero when it holds none. *)
Definition sk_fit (e : Estimator.t) (X y : option ndarray)
  : result Estimator.t :=
  match X, y with
  | Some (A2 m), Some (A1 v) =>
      let fitted coef b :=
        Estimator.mk (Estimator.class_name e) (Estimator.alpha e)
          (Estimator.C e) (Estimator.epsilon e) (Some (A1 coef))
          (Some (A0 b)) in
      match ncols m with
      | 0 => Ok (fitted [] (mean v))
      | 1 =>
          let x := map (hd NaN) m in
          let alpha := match attr_value (Estimator.alpha e) with
                       | Some a => a
                       | None => Float.zero
                       end in
          let slope :=
            Float.div (dot (centred x) (centred v))
              (Float.add (dot (centred x) (centred x)) alpha) in
          Ok (fitted [slope]
                (Float.sub (mean v) (Float.mul slope (mean x))))
      | _ => Raise (ValueError "the stand-in fits one column at most")
      end
  | _, _ => Raise (TypeError "float() argument must be a number, not 'NoneType'")
  end.

(** The inverse of a matrix of one or two rows. *)
Definition np_linalg_inv (a : ndarray) : result ndarray :=
  match a with
  | A2 [[x]] =>
      if Float.eqb x Float.zero then Raise (LinAlgError "Singular matrix")
      else Ok (A2 [[Float.div Float.one x]])
  | A2 [[a; b]; [c; d]] =>
      let det := Float.sub (Float.mul a d) (Float.mul b c) in
      if Float.eqb det Float.zero then Raise (LinAlgError "Singular matrix")
      else Ok (A2 [[Float.div d det; Float.div (Float.neg b) det];
                   [Float.div (Float.neg c) det; Float.div a det]])
  | _ => Raise (LinAlgError "the stand-in inverts two rows at most")
  end.

Definition np_std (a : ndarray) : float := Float.one.
Definition _generate_sample_indices (seed : Z) (n m : nat) : list nat :=
  seq 0 n.
Definition _generate_unsampled_indices (seed : Z) (n m : nat) : list nat :=
  seq 0 n.

(** [Ridge()] and [LinearRegression()], by their attributes. *)
Definition Ridge : Estimator.t :=
  Estimator.mk "Ridge" (Present (Some Float.one)) Absent Absent None None.
Definition LinearRegression : Estimator.t :=
  Estimator.mk "LinearRegression" Absent Absent Absent None None.

(** [mean_squared_error] *)
Definition mean_squared_error (y preds : ndarray) : result ndarray :=
  d <- np_sub y preds ;;
  sq <- np_mul d d ;;
  Ok (A0 (mean (ravel sq))).

(** [RidgeLOOPPM], and the same model around an estimator without a
    regularization parameter, with a grid of two strengths. *)
Definition loo_ppm (e : Estimator.t) : GenericLOOPPM.t :=
  GenericLOOPPM.__init__ e [F 0; F 1]
    (fun a => Ok a)
    (Lambda2 (fun a b => np_sub b a))
    (Lambda2 (fun a b => Ok (A0 Float.one)))
    (Some (fun a => Ok (A0 Float.one)))
    (Lambda2 mean_squared_error) None true.

Definition ppm_instance : PartialPredictionModel GenericLOOPPM.t :=
  GenericLOOPPM.ppm sk_fit np_linalg_inv.

(** A transformer as a tree that splits on some features gives it: the
    block of feature [k] holds column [k] scaled by [scale k], or no
    column at all when the tree does not use the feature. *)
Definition column_transformer (uses : nat -> bool) (scale : nat -> float)
  : Transformer.t :=
  Transformer.mk
    (fun X center =>
       match X with
       | A2 m =>
           Ok (BlockPartitionedData.mk (nrows m)
                 (map (fun k =>
                         if uses k
                         then map (fun r => [Float.mul (scale k) (nth k r NaN)]) m
                         else repeat [] (nrows m))
                    (seq 0 (ncols m))))
       | _ => Raise (ValueError "Expected 2D array")
       end)
    [A1 [Float.one]] 0.

(** Four samples of one feature and a target; a target of three columns. *)
Definition X : ndarray := A2 [[F 1]; [F 2]; [F 3]; [F 5]].
Definition y : ndarray := A1 [F 1; F 3; F 2; F 6].
Definition Y3 : ndarray :=
  A2 [[F 1; F 0; F 2]; [F 3; F 1; F 0]; [F 2; F 1; F 1]; [F 6; F 0; F 3]].

(** [r2_score], as [GMDI_pipeline] defines it. *)
Definition r2_score (y_true y_pred : ndarray) : result ndarray :=
  d <- np_sub y_true y_pred ;;
  sq <- np_mul d d ;;
  numerator <- sum_axis0 sq ;;
  let m := mean (ravel y_true) in
  c <- np_sub y_true (A0 m) ;;
  csq <- np_mul c c ;;
  denominator <- sum_axis0 csq ;;
  q <- np_div numerator denominator ;;
  np_sub (A0 Float.one) q.

(** A partial prediction model of the user's own: it fits nothing and
    predicts the row sums of the columns it is shown. *)
Module BlockSumPPM.

Record t : Type := mk { base : PartialPredictionModelBase.t }.

Definition __init__ : t := mk PartialPredictionModelBase.__init__.

Definition _fit_model (self : t) (train : BlockPartitionedData.t)
    (y_train : ndarray) : result (t * list warning) :=
  Ok (self, []).

Definition _fit_full_predictions (self : t) (test : BlockPartitionedData.t)
    (y_test : option ndarray) : result (ndarray * t) :=
  s <- sum_axis1 (BlockPartitionedData.get_all_data test) ;; Ok (s, self).

Definition _fit_partial_predictions (self : t) (k : nat) (mode : string)
    (test : BlockPartitionedData.t) (y_test : option ndarray)
  : result (partial_prediction * t) :=
  cr <- GenericLOOPPM.reduced mode k test ;;
  s <- sum_axis1 (snd cr) ;;
  Ok (s, ParamList [], self).

Definition ppm : PartialPredictionModel t := {|
  ppm_base := base;
  ppm_set_base := fun b _ => mk b;
  Importance._fit_model := _fit_model;
  Importance._fit_full_predictions := _fit_full_predictions;
  Importance._fit_partial_predictions := _fit_partial_predictions
|}.

End BlockSumPPM.

(** Scoring functions of the user's own: the first prediction, undefined
    when it is zero; and the first prediction over zero. *)
Definition first_prediction (y_true y_pred : ndarray) : result ndarray :=
  match ravel y_pred with
  | Finite q :: _ =>
      if Qeq_bool q 0 then Ok (A0 NaN) else Ok (A0 (Finite (Qred q)))
  | x :: _ => Ok (A0 x)
  | [] => Raise (IndexError "index 0 is out of bounds")
  end.

Definition first_prediction_over_zero (y_true y_pred : ndarray)
  : result ndarray :=
  match ravel y_pred with
  | x :: _ => Ok (A0 (Float.div x Float.zero))
  | [] => Raise (IndexError "index 0 is out of bounds")
  end.

(** An ensemble of three members whose trees scale the feature. *)
Definition ensemble (scoring_fn : scoring) (s1 s2 s3 : Z)
  : GMDIEnsemble.t BlockSumPPM.t :=
  GMDIEnsemble.__init__
    [column_transformer (fun _ => true) (fun _ => F s1);
     column_transformer (fun _ => true) (fun _ => F s2);
     column_transformer (fun _ => true) (fun _ => F s3)]
    BlockSumPPM.__init__ scoring_fn "keep_k" false true true true.

(** Two features, of which the tree uses the first only. *)
Definition X2 : ndarray := A2 [[F 1; F 7]; [F 2; F 7]; [F 3; F 8]; [F 5; F 9]].

End ToyImportance.

Module NpFacts.

(** An array whose rows, if it has rows, all have the same length. *)
Definition rect (a : ndarray) : Prop :=
  match a with
  | A2 m => all_length (ncols m) m = true
  | _ => True
  end.

Lemma all_length_Forall n m :
  all_length n m = true <-> Forall (fun r => length r = n) m.
Proof.
  unfold all_length. induction m as [|r m IH]; simpl.
  - split; [constructor | reflexivity].
  - rewrite andb_true_iff, IH, Nat.eqb_eq. split.
    + intros [H1 H2]. now constructor.
    + intros H. inversion H; subst. now split.
Qed.

Lemma stretch_length {A} (l : list A) : stretch (length l) l = l.
Proof. destruct l as [|x [|y l]]; reflexivity. Qed.

Lemma stretch_singleton {A} (x : A) n : stretch n [x] = repeat x n.
Proof. reflexivity. Qed.

Lemma map2_repeat_r {A B C} (f : A -> B -> C) l s :
  map2 f l (repeat s (length l)) = map (fun x => f x s) l.
Proof. induction l as [|x l IH]; simpl; [reflexivity | now rewrite IH]. Qed.

Lemma map2_length {A B C} (f : A -> B -> C) l1 l2 :
  length l1 = length l2 -> length (map2 f l1 l2) = length l1.
Proof.
  revert l2; induction l1 as [|x l1 IH]; intros [|y l2] H; simpl in *;
    try discriminate; [reflexivity | f_equal; apply IH; lia].
Qed.

Lemma bdim_refl n : bdim n n = Some n.
Proof. unfold bdim. now rewrite Nat.eqb_refl. Qed.

Lemma bdim_1_r n : bdim n 1 = Some n.
Proof.
  unfold bdim. destruct (Nat.eqb n 1) eqn:E; [reflexivity|].
  simpl. reflexivity.
Qed.

Lemma bdim_1_l n : bdim 1 n = Some n.
Proof.
  unfold bdim. destruct (Nat.eqb 1 n) eqn:E.
  - apply Nat.eqb_eq in E. now subst.
  - reflexivity.
Qed.

(** Broadcasting against a scalar maps over the array. *)
Lemma broadcast2_scalar_r f a s :
  rect a -> broadcast2 f a (A0 s) = Ok (map_elems (fun x => f x s) a).
Proof.
  intros Hr. unfold broadcast2. destruct a as [x|v|m]; simpl as2d.
  - reflexivity.
  - change (nrows [v]) with 1. change (nrows [[s]]) with 1.
    change (ncols [v]) with (length v). change (ncols [[s]]) with 1.
    rewrite bdim_refl, bdim_1_r. simpl.
    now rewrite stretch_length, map2_repeat_r.
  - change (nrows [[s]]) with 1. change (ncols [[s]]) with 1.
    rewrite !bdim_1_r. simpl ndim. simpl of2d. unfold nrows.
    rewrite stretch_length, map2_repeat_r.
    simpl map_elems. do 2 f_equal. simpl in Hr.
    apply all_length_Forall in Hr.
    generalize dependent (ncols m). intros n Hr.
    induction Hr as [|r m' Hlen _ IH]; cbn [map]; [reflexivity|].
    rewrite IH. f_equal. rewrite <- Hlen.
    now rewrite stretch_length, stretch_singleton, map2_repeat_r.
Qed.

Lemma vstack_rect arrays a : vstack arrays = Ok a -> rect a.
Proof.
  unfold vstack. destruct (concat (map as2d arrays)) as [|r rows] eqn:E;
    [discriminate|].
  destruct (all_length (length r) (r :: rows)) eqn:Hall; [|discriminate].
  intros [= <-]. exact Hall.
Qed.

Lemma squeeze_rect a : rect a -> rect (squeeze a).
Proof.
  destruct a as [x|v|m]; simpl.
  - trivial.
  - destruct (Nat.eqb (length v) 1); exact (fun _ => I).
  - intros H.
    destruct (Nat.eqb (nrows m) 1); destruct (Nat.eqb (ncols m) 1);
      simpl; trivial.
Qed.

Lemma map2_map_r {A B B' C} (f : A -> B -> C) (g : B' -> B) l1 l2 :
  map2 f l1 (map g l2) = map2 (fun x y => f x (g y)) l1 l2.
Proof.
  revert l2; induction l1 as [|x l1 IH]; intros [|y l2]; simpl;
    try reflexivity. now rewrite IH.
Qed.

(** Broadcasting a vector along the rows of a matrix. *)
Lemma broadcast2_rows f m v :
  rect (A2 m) -> ncols m = length v ->
  broadcast2 f (A2 m) (A1 v) = Ok (A2 (map (fun r => map2 f r v) m)).
Proof.
  intros Hr Hc. unfold broadcast2. simpl as2d.
  change (nrows [v]) with 1. change (ncols [v]) with (length v).
  rewrite bdim_1_r, Hc, bdim_refl. simpl ndim. simpl of2d. unfold nrows.
  rewrite stretch_length, map2_repeat_r.
  do 2 f_equal. simpl in Hr. rewrite Hc in Hr.
  apply all_length_Forall in Hr. clear Hc.
  induction Hr as [|r m' Hlen _ IH]; cbn [map]; [reflexivity|].
  rewrite IH. f_equal. rewrite (stretch_length v).
  rewrite <- Hlen. now rewrite stretch_length.
Qed.

Lemma broadcast2_vectors f u v :
  length u = length v ->
  broadcast2 f (A1 u) (A1 v) = Ok (A1 (map2 f u v)).
Proof.
  intros H. unfold broadcast2. simpl as2d.
  change (nrows [u]) with 1. change (nrows [v]) with 1.
  change (ncols [u]) with (length u). change (ncols [v]) with (length v).
  rewrite bdim_refl, H, bdim_refl. simpl.
  rewrite <- H at 1. now rewrite !stretch_length.
Qed.

Lemma rect_map_rows (g : list float -> list float) m n :
  Forall (fun r => length (g r) = n) m -> m <> [] ->
  rect (A2 (map g m)) /\ ncols (map g m) = n /\ nrows (map g m) = nrows m.
Proof.
  intros H Hne. destruct m as [|r m]; [congruence|].
  assert (Hall : Forall (fun r => length r = n) (map g (r :: m))).
  { clear Hne. induction H as [|r' m' Hr' _ IH]; cbn [map]; constructor;
      assumption. }
  assert (Hn : ncols (map g (r :: m)) = n).
  { inversion H; subst. reflexivity. }
  split; [|split].
  - cbn [rect]. rewrite Hn. now apply all_length_Forall.
  - exact Hn.
  - unfold nrows. apply length_map.
Qed.

Lemma map_result_Forall2 {A B} (f : A -> result B) xs ys :
  map_result f xs = Ok ys -> Forall2 (fun x y => f x = Ok y) xs ys.
Proof.
  revert ys; induction xs as [|x xs IH]; simpl; intros ys H.
  - injection H as <-. constructor.
  - destruct (f x) as [y|] eqn:Ey; simpl in H; [|discriminate].
    destruct (map_result f xs) as [ys'|]; simpl in H; [|discriminate].
    injection H as <-. constructor; [exact Ey | now apply IH].
Qed.

(** [x + 0.0] is [x]. *)
Lemma add_zero_r x : Float.add x Float.zero = x.
Proof.
  destruct x as [[n d]| | |]; try reflexivity.
  unfold Float.add, Float.zero, Qplus. simpl.
  now rewrite Z.mul_1_r, Z.add_0_r, Pos.mul_1_r.
Qed.

End NpFacts.

Module MarginalShrinkageFacts.
Import MarginalShrinkage NpFacts.

(** Case analysis on the first step of a computation known to return. *)
Tactic Notation "bind_case" hyp(H) "as" ident(x) ident(E) :=
  match type of H with
  | Py.bind ?c _ = _ =>
      destruct c as [x|] eqn:E; cbn [Py.bind] in H; [|discriminate H]
  end.

(** A coefficient that is a non-negative number. *)
Definition nonneg_finite (x : float) : Prop :=
  exists q, x = Finite q /\ (0 <= q)%Q.

(** [f] has the sign of [m], or is zero. *)
Definition same_sign_or_zero (f m : float) : Prop :=
  Float.sign f = Float.sign m \/ Float.eqb f Float.zero = true.

Lemma sign_of_product c m :
  nonneg_finite c -> same_sign_or_zero (Float.mul c (Float.sign m)) m.
Proof.
  intros (q & -> & Hq).
  assert (Hz : forall z : Z, Z.sgn z = z ->
            same_sign_or_zero (Float.mul (Finite q) (Finite (inject_Z z)))
              (Finite (inject_Z z))).
  { intros z Hsz. unfold same_sign_or_zero. cbn [Float.mul].
    destruct q as [n d]. unfold Qle in Hq. simpl in Hq.
    destruct (Z.eq_dec n 0%Z) as [->|Hn].
    - right. reflexivity.
    - left. unfold Float.sign, Float.sgn, Float.Qsgn. simpl.
      rewrite Z.sgn_mul, Hsz.
      replace (Z.sgn n) with 1%Z by (symmetry; apply Z.sgn_pos; lia).
      now rewrite Z.mul_1_l. }
  destruct m as [a| | |].
  - specialize (Hz (Z.sgn (Qnum a)) (Z.sgn_sgn _)).
    unfold same_sign_or_zero in *.
    change (Float.sign (Finite a))
      with (Finite (inject_Z (Z.sgn (Qnum a)))).
    destruct Hz as [Hz|Hz]; [left|right; exact Hz].
    rewrite Hz. unfold Float.sign, Float.sgn, Float.Qsgn. simpl.
    now rewrite Z.sgn_sgn.
  - specialize (Hz 1%Z eq_refl). exact Hz.
  - specialize (Hz (-1)%Z eq_refl). exact Hz.
  - left. reflexivity.
Qed.

Section Facts.

Variable scaler_fit : ndarray -> StandardScaler.
Variable sk_solve :
  estimator_kind -> ndarray -> ndarray -> option ndarray ->
  result (ndarray * float).

Local Abbreviation fit := (fit scaler_fit sk_solve).
Local Abbreviation fit_checks_and_center := (fit_checks_and_center scaler_fit).
Local Abbreviation _fit_marginal := (_fit_marginal sk_solve).
Local Abbreviation est_fit := (est_fit sk_solve).

Lemma get_est_set_divide b self name :
  _get_est_from_name (set_marginal_divide_by_d b self) name
  = _get_est_from_name self name.
Proof. reflexivity. Qed.

(** The marginal coefficients before the division by the number of
    features form a 0-, 1- or rectangular 2-dimensional array. *)
Lemma fit_marginal_off_rect self X y w c :
  _fit_marginal (set_marginal_divide_by_d false self) X y w = Ok c ->
  rect c.
Proof.
  unfold MarginalShrinkage._fit_marginal. rewrite get_est_set_divide.
  cbn [marginal_divide_by_d set_marginal_divide_by_d est_marginal_name].
  intros H. bind_case H as est Eest. bind_case H as d Ed.
  bind_case H as c0 Ec0. injection H as <-.
  destruct est as [est|].
  - bind_case Ec0 as cs Ecs. bind_case Ec0 as st Est. injection Ec0 as <-.
    apply squeeze_rect. eapply vstack_rect; eassumption.
  - injection Ec0 as <-. exact I.
Qed.

(** *** What the embedding takes from the library's documentation *)

Record library_contract : Prop := {
  (** a fitted scaler holds one mean and one scale per column *)
  scaler_shape : forall m,
    length (mean_ (scaler_fit (A2 m))) = ncols m
    /\ length (scale_ (scaler_fit (A2 m))) = ncols m;
  (** a fitted estimator holds one coefficient per column *)
  solve_shape : forall k m y w c b,
    sk_solve k (A2 m) y w = Ok (c, b) ->
    exists v, c = A1 v /\ length v = ncols m;
  (** the assertion error of [fit] is not one the library raises *)
  no_fit_assertion : forall k X y w,
    sk_solve k X y w
    <> Raise (AssertionError "must use NNLS for sign constraint");
  (** with [positive=True] its coefficients are non-negative numbers *)
  nnls_nonneg : forall l1 fi al mi X y w c b,
    sk_solve (ElasticNetCV l1 fi true al mi) X y w = Ok (c, b) ->
    Forall nonneg_finite (ravel c)
}.

Lemma check_X_y_shape X y Xy :
  check_X_y X y = Ok Xy ->
  exists m v, Xy = (A2 m, A1 v) /\ m <> [] /\ (0 < ncols m)%nat
              /\ rect (A2 m) /\ nrows m = length v.
Proof.
  unfold check_X_y. destruct X as [x|u|m]; try discriminate.
  destruct (column_or_1d y) as [v|]; try discriminate.
  destruct (Nat.ltb 0 (nrows m)) eqn:Hn; [|discriminate].
  destruct (Nat.ltb 0 (ncols m)) eqn:Hd; [|discriminate].
  cbn [negb orb].
  destruct (all_length (ncols m) m) eqn:Hr; [|discriminate].
  destruct (Nat.eqb (nrows m) (length v)) eqn:Hl; [|discriminate].
  cbn [negb].
  destruct (all_finite (A2 m) && all_finite (A1 v)); [|discriminate].
  cbn [negb]. intros [= <-]. exists m, v.
  apply Nat.ltb_lt in Hn, Hd. apply Nat.eqb_eq in Hl.
  repeat split; try assumption.
  intros ->. simpl in Hn. lia.
Qed.

Lemma Forall_map2_length (f : float -> float -> float) v n (m : matrix) :
  length v = n ->
  Forall (fun r => length r = n) m ->
  Forall (fun r => length (map2 f r v) = n) m.
Proof.
  intros Hv H. induction H as [|r m0 Hlen _ IH]; constructor; [|exact IH].
  rewrite map2_length; congruence.
Qed.

Lemma transform_matrix s m :
  rect (A2 m) -> m <> [] ->
  length (mean_ s) = ncols m -> length (scale_ s) = ncols m ->
  exists m', transform s (A2 m) = Ok (A2 m') /\ rect (A2 m') /\ m' <> []
             /\ ncols m' = ncols m /\ nrows m' = nrows m.
Proof.
  intros Hr Hne Hmean Hscale. unfold transform, np_sub, np_div.
  rewrite broadcast2_rows by (auto; congruence). cbn [Py.bind].
  assert (H1 : Forall (fun r => length (map2 Float.sub r (mean_ s)) = ncols m) m).
  { simpl in Hr. apply all_length_Forall in Hr.
    now apply Forall_map2_length. }
  destruct (rect_map_rows _ _ _ H1 Hne) as (Hr1 & Hc1 & Hn1).
  rewrite broadcast2_rows by (auto; congruence).
  eexists. split; [reflexivity|].
  set (m1 := map (fun r => map2 Float.sub r (mean_ s)) m) in *.
  assert (Hne1 : m1 <> []) by (subst m1; destruct m; [congruence|discriminate]).
  assert (H2 : Forall (fun r => length (map2 Float.div r (scale_ s)) = ncols m) m1).
  { simpl in Hr1. rewrite Hc1 in Hr1. apply all_length_Forall in Hr1.
    now apply Forall_map2_length. }
  destruct (rect_map_rows _ _ _ H2 Hne1) as (Hr2 & Hc2 & Hn2).
  repeat split; try assumption; try congruence.
  destruct m1; [congruence|discriminate].
Qed.

Lemma checks_and_center_shape self X y w c :
  library_contract ->
  fit_checks_and_center self X y w = Ok c ->
  exists m, c_X c = A2 m /\ m <> [] /\ (0 < ncols m)%nat /\ rect (A2 m).
Proof.
  intros HL H. unfold MarginalShrinkage.fit_checks_and_center in H.
  bind_case H as Xy E. apply check_X_y_shape in E.
  destruct E as (m & v & -> & Hne & Hd & Hr & Hn). cbn [fst snd] in H.
  bind_case H as sw Esw.
  destruct (scaler_shape HL m) as [Hmean Hscale].
  destruct (transform_matrix (scaler_fit (A2 m)) m Hr Hne Hmean Hscale)
    as (m' & Ht & Hr' & Hne' & Hc' & Hn').
  rewrite Ht in H. cbn [Py.bind] in H.
  destruct (is_regressor self).
  - bind_case H as y' Ey. injection H as <-. exists m'. cbn [c_X].
    repeat split; try assumption. lia.
  - injection H as <-. exists m'. cbn [c_X].
    repeat split; try assumption. lia.
Qed.

Lemma stack_of_singletons cs :
  Forall (fun c => exists x, c = A1 [x]) cs ->
  exists xs, concat (map as2d cs) = map (fun x => [x]) xs
             /\ length xs = length cs.
Proof.
  induction 1 as [|c cs' (x & ->) _ (xs & IH & Hlen)].
  - exists []. split; reflexivity.
  - exists (x :: xs). simpl. rewrite IH, Hlen. split; reflexivity.
Qed.

Lemma all_length_singletons (xs : list float) :
  all_length 1 (map (fun x => [x]) xs) = true.
Proof. induction xs; simpl; auto. Qed.

(** The stacked, squeezed coefficients of [d] one-column fits: a vector of
    length [d], except for [d = 1], where they are a 0-dimensional array. *)
Lemma squeeze_stack_shape cs stacked :
  cs <> [] ->
  Forall (fun c => exists x, c = A1 [x]) cs ->
  vstack cs = Ok stacked ->
  (exists v, squeeze stacked = A1 v /\ length v = length cs /\ (2 <= length cs)%nat)
  \/ (length cs = 1%nat /\ exists x, squeeze stacked = A0 x).
Proof.
  intros Hne Hcs. destruct (stack_of_singletons _ Hcs) as (xs & Hrows & Hlen).
  unfold vstack. rewrite Hrows.
  destruct xs as [|x xs]; [destruct cs; [congruence|discriminate]|].
  pose proof (all_length_singletons (x :: xs)) as Hal.
  cbn [map length] in *. rewrite Hal.
  intros [= <-]. unfold squeeze, nrows. cbn [length map ncols].
  destruct xs as [|x' xs].
  - right. split; [now rewrite <- Hlen|]. exists x. reflexivity.
  - left. cbn [length Nat.eqb]. eexists. split; [reflexivity|].
    unfold column. rewrite <- Hlen. cbn [length map].
    rewrite !length_map. split; lia.
Qed.

Lemma one_column_fit est col y w c :
  library_contract -> col <> [] ->
  (est' <- est_fit est (reshape_col (A1 col)) y w ;; get_coef est') = Ok c ->
  exists x, c = A1 [x].
Proof.
  intros HL Hne H. bind_case H as est' E.
  unfold MarginalShrinkage.est_fit in E.
  bind_case E as cb E0. injection E as <-. cbn in H. injection H as <-.
  destruct cb as [c b]. unfold reshape_col in E0. cbn [ravel] in E0.
  destruct (solve_shape HL _ _ _ _ _ _ E0) as (v & -> & Hv).
  destruct col as [|x0 col]; [congruence|]. simpl in Hv.
  destruct v as [|x [|x' v]]; try discriminate. now exists x.
Qed.

Lemma fit_marginal_shape self m y w cm :
  library_contract -> m <> [] -> (0 < ncols m)%nat ->
  _fit_marginal self (A2 m) y w = Ok cm ->
  (exists v, cm = A1 v /\ length v = ncols m
             /\ (ncols m = 1%nat ->
                 _get_est_from_name self (est_marginal_name self) = Ok None))
  \/ (ncols m = 1%nat /\ exists x, cm = A0 x).
Proof.
  intros HL Hne Hd H. unfold MarginalShrinkage._fit_marginal in H.
  bind_case H as est Eest. cbn [shape1 Py.bind] in H. bind_case H as a0 E0.
  assert (Hshape : (exists v, a0 = A1 v /\ length v = ncols m
                      /\ (ncols m = 1%nat -> Ok est = Ok None))
                   \/ (ncols m = 1%nat /\ exists x, a0 = A0 x)).
  { destruct est as [est|].
    - bind_case E0 as a E1. bind_case E0 as st Est. injection E0 as <-.
      apply map_result_Forall2 in E1.
      assert (Hlen : length a = ncols m).
      { apply Forall2_length in E1. now rewrite length_seq in E1. }
      assert (Hcs : Forall (fun c => exists x, c = A1 [x]) a).
      { clear -E1 HL Hne. induction E1 as [|i c idxs cs Hi _ IH];
          constructor; [|exact IH].
        unfold get_col in Hi. destruct (Nat.ltb i (ncols m));
          cbn [Py.bind] in Hi; [|discriminate].
        eapply one_column_fit; [exact HL | | exact Hi].
        destruct m; [congruence|discriminate]. }
      assert (Hne' : a <> []) by (intros ->; simpl in Hlen; lia).
      destruct (squeeze_stack_shape _ _ Hne' Hcs Est)
        as [(v & -> & Hv & H2)|(H1 & x & ->)].
      + left. exists v. split; [reflexivity|]. split; [congruence|]. lia.
      + right. split; [congruence|]. now exists x.
    - injection E0 as <-. left. eexists. split; [reflexivity|].
      split; [apply repeat_length | reflexivity]. }
  destruct (marginal_divide_by_d self); [|injection H as <-; exact Hshape].
  unfold np_div in H.
  destruct Hshape as [(v & -> & Hv & Hnone)|(H1 & x & ->)];
    rewrite broadcast2_scalar_r in H by exact I; injection H as <-.
  - left. eexists. split; [reflexivity|]. now rewrite length_map.
  - right. split; [exact H1|]. eexists. reflexivity.
Qed.

Lemma Forall2_sign_of_product u v :
  Forall nonneg_finite u -> length u = length v ->
  Forall2 same_sign_or_zero (map2 Float.mul u (map Float.sign v)) v.
Proof.
  intros Hu. revert v. induction Hu as [|c u Hc _ IH]; intros [|m v] Hlen;
    try discriminate; simpl; constructor.
  - now apply sign_of_product.
  - apply IH. simpl in Hlen. lia.
Qed.

(** The sign-constrained branch of [fit], from the centred data on: the
    features are flipped, and whenever the elastic net returns on them,
    the coefficients it finds are flipped back. *)
Lemma sign_branch self m ys sw cm l1 fi al mi :
  library_contract -> m <> [] -> (0 < ncols m)%nat -> rect (A2 m) ->
  ((exists v, cm = A1 v /\ length v = ncols m
              /\ (ncols m = 1%nat ->
                  _get_est_from_name self (est_marginal_name self) = Ok None))
   \/ (ncols m = 1%nat /\ exists x, cm = A0 x)) ->
  exists X',
    np_mul (A2 m) (np_sign cm) = Ok X'
    /\ forall est,
         est_fit (unfitted (ElasticNetCV l1 fi true al mi)) X' ys (Some sw)
         = Ok est ->
         exists coef,
           (c <- get_coef est ;; np_mul c (np_sign cm)) = Ok coef
           /\ Forall2 same_sign_or_zero (ravel coef) (ravel cm).
Proof.
  intros HL Hne Hd Hr Hcm. unfold np_mul.
  assert (Hrows : forall (g : list float -> list float),
             (forall r, length (g r) = length r) ->
             ncols (map g m) = ncols m).
  { intros g Hg. destruct m as [|r m']; [congruence|]. simpl. apply Hg. }
  destruct Hcm as [(v & -> & Hv & _)|(H1 & x & ->)].
  - cbn [np_sign map_elems].
    rewrite broadcast2_rows by (auto; now rewrite length_map).
    set (m' := map (fun r => map2 Float.mul r (map Float.sign v)) m).
    eexists. split; [reflexivity|]. intros est Hest.
    unfold MarginalShrinkage.est_fit in Hest. cbn [kind unfitted] in Hest.
    destruct (sk_solve (ElasticNetCV l1 fi true al mi) (A2 m') ys (Some sw))
      as [[c b]|] eqn:Hs; cbn [Py.bind] in Hest; [|discriminate].
    injection Hest as <-.
    destruct (solve_shape HL _ _ _ _ _ _ Hs) as (u & -> & Hu).
    pose proof (nnls_nonneg HL _ _ _ _ _ _ _ _ _ Hs) as Hpos.
    cbn [ravel] in Hpos.
    assert (Hlen : length u = length v).
    { rewrite Hu. subst m'. destruct m as [|r m0]; [congruence|].
      simpl in *. simpl in Hr. apply andb_true_iff in Hr as [Hr0 _].
      apply Nat.eqb_eq in Hr0. rewrite map2_length;
        rewrite ?length_map; congruence. }
    cbn [get_coef coef_ Py.bind fst].
    rewrite broadcast2_vectors by now rewrite length_map.
    eexists. split; [reflexivity|]. cbn [ravel].
    now apply Forall2_sign_of_product.
  - cbn [np_sign map_elems].
    rewrite broadcast2_scalar_r by exact Hr. cbn [map_elems].
    set (m' := map (map (fun x0 => Float.mul x0 (Float.sign x))) m).
    eexists. split; [reflexivity|]. intros est Hest.
    unfold MarginalShrinkage.est_fit in Hest. cbn [kind unfitted] in Hest.
    destruct (sk_solve (ElasticNetCV l1 fi true al mi) (A2 m') ys (Some sw))
      as [[c b]|] eqn:Hs; cbn [Py.bind] in Hest; [|discriminate].
    injection Hest as <-.
    destruct (solve_shape HL _ _ _ _ _ _ Hs) as (u & -> & Hu).
    pose proof (nnls_nonneg HL _ _ _ _ _ _ _ _ _ Hs) as Hpos.
    cbn [ravel] in Hpos.
    assert (Hlen : length u = 1%nat).
    { rewrite Hu. subst m'. rewrite Hrows; [exact H1|].
      intros r. apply length_map. }
    destruct u as [|c0 [|c1 u]]; try discriminate.
    cbn [get_coef coef_ Py.bind fst].
    rewrite broadcast2_scalar_r by exact I.
    eexists. split; [reflexivity|]. cbn [ravel map_elems map].
    constructor; [|constructor]. apply sign_of_product.
    now inversion Hpos.
Qed.

(** C10. For every model, every feature matrix [X] with [d] columns,
    every target and weights: the marginal coefficients computed with
    [marginal_divide_by_d=True] are those computed with the flag off,
    each divided by [d]; and the two runs raise the same exception when
    one of them raises. *)
Theorem marginal_divide_by_d_scales
    (self : MarginalShrinkageLinearModel) (X : matrix) (y w : ndarray) :
  match _fit_marginal (set_marginal_divide_by_d false self) (A2 X) y w with
  | Ok c =>
      _fit_marginal (set_marginal_divide_by_d true self) (A2 X) y w
      = Ok (map_elems (fun x => Float.div x (Float.of_nat (ncols X))) c)
  | Raise e =>
      _fit_marginal (set_marginal_divide_by_d true self) (A2 X) y w
      = Raise e
  end.
Proof.
  destruct (_fit_marginal (set_marginal_divide_by_d false self) (A2 X) y w)
    as [c|e] eqn:Hoff.
  - pose proof (fit_marginal_off_rect _ _ _ _ _ Hoff) as Hrect.
    revert Hoff. unfold MarginalShrinkage._fit_marginal.
    rewrite !get_est_set_divide.
    cbn [marginal_divide_by_d set_marginal_divide_by_d est_marginal_name shape1 Py.bind].
    destruct (_get_est_from_name self (est_marginal_name self))
      as [est|e]; cbn [Py.bind]; [|intros [=]].
    match goal with |- Py.bind ?core _ = _ -> _ =>
      destruct core as [c'|e'] end; cbn [Py.bind]; [|intros [=]].
    intros [= ->]. unfold np_div. now apply broadcast2_scalar_r.
  - revert Hoff. unfold MarginalShrinkage._fit_marginal.
    rewrite !get_est_set_divide.
    cbn [marginal_divide_by_d set_marginal_divide_by_d est_marginal_name shape1 Py.bind].
    destruct (_get_est_from_name self (est_marginal_name self))
      as [est|e0]; cbn [Py.bind]; [|intros [= ->]; reflexivity].
    match goal with |- Py.bind ?core _ = _ -> _ =>
      destruct core as [c'|e'] end; cbn [Py.bind];
      [intros [=] | intros [= ->]; reflexivity].
Qed.

(** C7 (amended). With [marginal_sign_constraint=True], on data that pass
    the checks, with a marginal fit that returns and a main estimator name
    that [_get_est_from_name] knows: [fit] raises its assertion error
    exactly when [est_main_name] is not "NNLS"; with "NNLS" the features
    are flipped and the elastic net is fitted on them, [fit] raises what
    that fit raises and returns when it returns, and then every final
    coefficient has the sign of its marginal coefficient or is zero. *)
Theorem sign_constraint_fit
    (self : MarginalShrinkageLinearModel) (X y : ndarray)
    (w : option ndarray) (c : centered) (cm : ndarray)
    (em : option estimator) :
  library_contract ->
  marginal_sign_constraint self = true ->
  fit_checks_and_center self X y w = Ok c ->
  _fit_marginal self (c_X c) (c_y c) (c_sample_weight c) = Ok cm ->
  _get_est_from_name self (est_main_name self) = Ok em ->
  (fit self X y w = Raise (AssertionError "must use NNLS for sign constraint")
   <-> est_main_name self <> Some "NNLS")
  /\ (est_main_name self = Some "NNLS" ->
      exists nnls X',
        em = Some nnls
        /\ np_mul (c_X c) (np_sign cm) = Ok X'
        /\ (forall e,
              fit self X y w = Raise e
              <-> est_fit nnls X' (c_y c) (Some (c_sample_weight c))
                  = Raise e)
        /\ (forall self',
              fit self X y w = Ok self' ->
              exists est coef,
                coef_marginal_ self' = Some cm
                /\ est_main_ self' = Some est
                /\ coef_ est = Some coef
                /\ Forall2 same_sign_or_zero (ravel coef) (ravel cm))).
Proof.
  intros HL Hsign Hc Hcm Hem.
  unfold MarginalShrinkage.fit. rewrite Hc. cbn [Py.bind].
  rewrite Hcm. cbn [Py.bind]. rewrite Hem. cbn [Py.bind]. rewrite Hsign.
  destruct (est_main_name self) as [name|] eqn:Hname.
  2:{ cbn [negb]. split.
      - split; [intros _; discriminate | intros _; reflexivity].
      - discriminate. }
  destruct (String.eqb name "NNLS") eqn:Hnnls; cbn [negb].
  2:{ apply String.eqb_neq in Hnnls. split.
      - split; [intros _; congruence | intros _; reflexivity].
      - congruence. }
  apply String.eqb_eq in Hnnls. subst name.
  cbn in Hem. injection Hem as <-.
  destruct (checks_and_center_shape _ _ _ _ _ HL Hc)
    as (m & HX & Hne & Hd & Hr).
  rewrite HX in Hcm |- *.
  pose proof (fit_marginal_shape _ _ _ _ _ HL Hne Hd Hcm) as Hshape.
  destruct (sign_branch self m (c_y c) (c_sample_weight c) cm
              (Finite (1 # 10000000000)) false (alphas self) 10000%Z
              HL Hne Hd Hr Hshape) as (X' & HX' & Hrest).
  rewrite HX'. cbn [Py.bind].
  destruct (est_fit (unfitted
                       (ElasticNetCV (Finite (1 # 10000000000)) false true
                          (alphas self) 10000%Z))
              X' (c_y c) (Some (c_sample_weight c))) as [est|e0] eqn:Hest;
    cbn [Py.bind].
  - destruct (Hrest est eq_refl) as (coef & Hcoef & Hs).
    destruct (get_coef est) as [c0|] eqn:Hc0; cbn [Py.bind] in Hcoef |- *;
      [|discriminate].
    rewrite Hcoef. cbn [Py.bind]. split.
    + split; [intros [=] | congruence].
    + intros _. eexists _, X'. split; [reflexivity|].
      split; [reflexivity|]. split.
      * intros e. rewrite Hest. split; intros [=].
      * intros self' [= <-]. eexists _, coef.
        cbn [coef_marginal_ est_main_ set_fitted set_coef coef_].
        repeat split. exact Hs.
  - split.
    + split; [|congruence]. intros [= ->]. exfalso.
      revert Hest. unfold MarginalShrinkage.est_fit. cbn [kind unfitted].
      destruct (sk_solve _ X' (c_y c) (Some (c_sample_weight c)))
        as [cb|e1] eqn:Hs; cbn [Py.bind]; [discriminate|].
      intros [= ->]. exact (no_fit_assertion HL _ _ _ _ Hs).
    + intros _. eexists _, X'. split; [reflexivity|].
      split; [reflexivity|]. split.
      * intros e. rewrite Hest. split; intros [= ->]; reflexivity.
      * discriminate.
Qed.

(** *** The standard path *)

(** On the standard path [fit] is the residual correction: the main
    estimator is fitted on [y - X @ coef_marginal_], and [coef_marginal_] is
    added to what it finds. *)
Lemma fit_standard_path self X y w c cm est :
  marginal_sign_constraint self = false ->
  fit_checks_and_center self X y w = Ok c ->
  _fit_marginal self (c_X c) (c_y c) (c_sample_weight c) = Ok cm ->
  _get_est_from_name self (est_main_name self) = Ok (Some est) ->
  fit self X y w
  = (preds_marginal <- matmul (c_X c) cm ;;
     residuals <- np_sub (c_y c) preds_marginal ;;
     est' <- est_fit est (c_X c) residuals (Some (c_sample_weight c)) ;;
     coef <- get_coef est' ;;
     final <- np_add coef cm ;;
     Ok (set_fitted self (c_scalar_X c) (c_scalar_y c) cm
           (set_coef est' final))).
Proof.
  intros Hsign Hc Hcm Hem. unfold MarginalShrinkage.fit.
  rewrite Hc. cbn [Py.bind]. rewrite Hcm. cbn [Py.bind].
  rewrite Hem. cbn [Py.bind]. rewrite Hsign. reflexivity.
Qed.

(** C3 (defect). On the standard path the claimed coefficient vector is
    not produced for every [X]: with a single feature and a marginal
    estimator, the squeezed marginal coefficient is 0-dimensional and the
    product [X @ coef_marginal_] is refused, so [fit] raises.  (Lemma
    [fit_standard_path] is the residual identity where [fit] runs on.) *)
Theorem fit_standard_path_single_feature
    (self : MarginalShrinkageLinearModel) (X y : ndarray)
    (w : option ndarray) (c : centered) (cm : ndarray)
    (e est : estimator) :
  library_contract ->
  marginal_sign_constraint self = false ->
  fit_checks_and_center self X y w = Ok c ->
  shape1 (c_X c) = Ok 1%nat ->
  _get_est_from_name self (est_marginal_name self) = Ok (Some e) ->
  _fit_marginal self (c_X c) (c_y c) (c_sample_weight c) = Ok cm ->
  _get_est_from_name self (est_main_name self) = Ok (Some est) ->
  fit self X y w
  = Raise (ValueError "matmul: Input operand does not have enough dimensions").
Proof.
  intros HL Hsign Hc Hd He Hcm Hem.
  rewrite (fit_standard_path _ _ _ _ _ _ _ Hsign Hc Hcm Hem).
  destruct (checks_and_center_shape _ _ _ _ _ HL Hc)
    as (m & HX & Hne & Hpos & Hr).
  rewrite HX in *. cbn [shape1] in Hd. injection Hd as Hd.
  destruct (fit_marginal_shape _ _ _ _ _ HL Hne Hpos Hcm)
    as [(v & -> & Hv & Hnone)|(_ & x & ->)].
  - rewrite (Hnone Hd) in He. discriminate.
  - reflexivity.
Qed.

(** *** No main estimator *)

Lemma map_elems_add_zero a :
  map_elems (fun x => Float.add x Float.zero) a = a.
Proof.
  destruct a as [x|v|m]; cbn [map_elems]; f_equal.
  - apply add_zero_r.
  - induction v as [|x v IH]; cbn [map]; [reflexivity|].
    now rewrite add_zero_r, IH.
  - induction m as [|r m IH]; cbn [map]; [reflexivity|]. rewrite IH. f_equal.
    induction r as [|x r IHr]; cbn [map]; [reflexivity|].
    now rewrite add_zero_r, IHr.
Qed.

Lemma matmul_vector_rect Xs v p : matmul Xs (A1 v) = Ok p -> rect p.
Proof.
  destruct Xs as [x|u|m]; cbn [matmul]; try discriminate.
  - destruct (Nat.eqb (length u) (length v)); [|discriminate].
    intros [= <-]. exact I.
  - destruct (Nat.eqb (ncols m) (length v)); [|discriminate].
    intros [= <-]. exact I.
Qed.

(** With [est_main_name] absent, [fit] keeps the marginal coefficients as
    the coefficients of the final model, and, for a coefficient vector,
    [predict] is the inverse y-scaling of [scaled X' @ coef_marginal_]:
    the dummy ridge contributes nothing. *)
Lemma fit_main_absent self X y w c cm X5 y5 est sy :
  marginal_sign_constraint self = false ->
  fit_checks_and_center self X y w = Ok c ->
  c_scalar_y c = Some sy ->
  _fit_marginal self (c_X c) (c_y c) (c_sample_weight c) = Ok cm ->
  _get_est_from_name self (est_main_name self) = Ok None ->
  head_rows 5 (c_X c) = Ok X5 ->
  head_rows 5 (c_y c) = Ok y5 ->
  est_fit (unfitted (RidgeCV false None)) X5 y5 None = Ok est ->
  exists self',
    fit self X y w = Ok self'
    /\ coef_marginal_ self' = Some cm
    /\ (exists e, est_main_ self' = Some e /\ coef_ e = Some cm)
    /\ forall X',
         ndim cm = 1%nat ->
         predict self' X'
         = (Xs <- transform (c_scalar_X c) X' ;;
            p <- matmul Xs cm ;;
            out <- inverse_transform sy (reshape_col p) ;;
            Ok (squeeze out)).
Proof.
  intros Hsign Hc Hsy Hcm Hem H5 Hy5 Hest.
  eexists. split.
  { unfold MarginalShrinkage.fit. rewrite Hc. cbn [Py.bind].
    rewrite Hcm. cbn [Py.bind]. rewrite Hem. cbn [Py.bind].
    rewrite Hsign, H5. cbn [Py.bind]. rewrite Hy5. cbn [Py.bind].
    rewrite Hest. reflexivity. }
  cbn [coef_marginal_ est_main_ set_fitted]. split; [reflexivity|].
  split; [eexists; split; reflexivity|].
  intros X' Hdim. unfold predict.
  cbn [scalar_X_ scalar_y_ est_main_ set_fitted]. rewrite Hsy.
  destruct (transform (c_scalar_X c) X') as [Xs|]; cbn [Py.bind];
    [|reflexivity].
  unfold est_predict. cbn [coef_ intercept_ set_coef].
  unfold MarginalShrinkage.est_fit in Hest.
  destruct (sk_solve (kind (unfitted (RidgeCV false None))) X5 y5 None)
    as [cb|]; cbn [Py.bind] in Hest; [|discriminate].
  injection Hest as <-. cbn [intercept_ kind unfitted fit_intercept_of].
  rewrite Hdim. cbn [Nat.eqb].
  destruct (matmul Xs cm) as [p|] eqn:Hp; cbn [Py.bind]; [|reflexivity].
  destruct cm as [x|v|m]; try discriminate.
  unfold np_add. rewrite broadcast2_scalar_r
    by (eapply matmul_vector_rect; exact Hp).
  cbn [Py.bind]. now rewrite map_elems_add_zero.
Qed.

(** C8 (defect). With [est_main_name] absent [fit] returns, but [predict]
    does not equal the marginal prediction on every input: with a single
    feature and a marginal estimator, the coefficient that [fit] stores is
    0-dimensional, and [predict] raises on every input the scaler accepts.
    (Lemma [fit_main_absent] is the statement for a coefficient vector.) *)
Theorem predict_main_absent_single_feature
    (self : MarginalShrinkageLinearModel) (X y : ndarray)
    (w : option ndarray) (c : centered) (cm : ndarray) (e : estimator)
    (X5 y5 : ndarray) (est : estimator) (sy : StandardScaler) :
  library_contract ->
  marginal_sign_constraint self = false ->
  fit_checks_and_center self X y w = Ok c ->
  c_scalar_y c = Some sy ->
  shape1 (c_X c) = Ok 1%nat ->
  _get_est_from_name self (est_marginal_name self) = Ok (Some e) ->
  _fit_marginal self (c_X c) (c_y c) (c_sample_weight c) = Ok cm ->
  _get_est_from_name self (est_main_name self) = Ok None ->
  head_rows 5 (c_X c) = Ok X5 ->
  head_rows 5 (c_y c) = Ok y5 ->
  est_fit (unfitted (RidgeCV false None)) X5 y5 None = Ok est ->
  exists self',
    fit self X y w = Ok self'
    /\ forall X' Xs,
         transform (c_scalar_X c) X' = Ok Xs ->
         predict self' X'
         = Raise (ValueError
                    "matmul: Input operand does not have enough dimensions").
Proof.
  intros HL Hsign Hc Hsy Hd He Hcm Hem H5 Hy5 Hest.
  destruct (fit_main_absent _ _ _ _ _ _ _ _ _ _ Hsign Hc Hsy Hcm Hem H5 Hy5 Hest)
    as (self' & Hfit & _ & _ & _).
  exists self'. split; [exact Hfit|]. intros X' Xs HXs.
  revert Hfit. unfold MarginalShrinkage.fit. rewrite Hc. cbn [Py.bind].
  rewrite Hcm. cbn [Py.bind]. rewrite Hem. cbn [Py.bind].
  rewrite Hsign, H5. cbn [Py.bind]. rewrite Hy5. cbn [Py.bind].
  rewrite Hest. cbn [Py.bind]. intros [= <-].
  destruct (checks_and_center_shape _ _ _ _ _ HL Hc)
    as (m & HX & Hne & Hpos & Hr).
  rewrite HX in *. cbn [shape1] in Hd. injection Hd as Hd.
  destruct (fit_marginal_shape _ _ _ _ _ HL Hne Hpos Hcm)
    as [(v & -> & Hv & Hnone)|(_ & x & ->)].
  { rewrite (Hnone Hd) in He. discriminate. }
  unfold predict. cbn [scalar_X_ scalar_y_ est_main_ set_fitted].
  rewrite HXs. cbn [Py.bind]. unfold est_predict.
  cbn [coef_ intercept_ set_coef].
  unfold MarginalShrinkage.est_fit in Hest.
  destruct (sk_solve (kind (unfitted (RidgeCV false None))) X5 y5 None)
    as [cb|]; cbn [Py.bind] in Hest; [|discriminate].
  injection Hest as <-. cbn [intercept_ ndim Nat.eqb T].
  destruct Xs; reflexivity.
Qed.

End Facts.

(** *** The stand-in library meets the contract *)

Lemma nonneg_part_nonneg x : nonneg_finite (Toy.nonneg_part x).
Proof.
  destruct x as [q| | |]; cbn [Toy.nonneg_part];
    try (exists 0%Q; split; [reflexivity | apply Qle_refl]).
  destruct (Qle_bool 0 q) eqn:Hq.
  - exists q. split; [reflexivity | now apply Qle_bool_iff].
  - exists 0%Q. split; [reflexivity | apply Qle_refl].
Qed.

Lemma toy_contract :
  library_contract Toy.centring_scaler Toy.columnwise_solve.
Proof.
  constructor.
  - intros m. unfold Toy.centring_scaler. cbn [mean_ scale_ as2d].
    now rewrite length_map, length_seq, repeat_length.
  - intros k m y w c b. unfold Toy.columnwise_solve.
    destruct (Nat.ltb (nrows m) (Toy.n_splits k)); [discriminate|].
    intros [= <- _].
    eexists. split; [reflexivity|].
    destruct (Toy.is_positive k);
      now rewrite ?length_map, length_seq.
  - intros k X y w. unfold Toy.columnwise_solve.
    destruct X as [x|v|m]; try discriminate.
    destruct (Nat.ltb (nrows m) (Toy.n_splits k)); discriminate.
  - intros l1 fi al mi X y w c b. destruct X as [x|v|m]; try discriminate.
    unfold Toy.columnwise_solve.
    destruct (Nat.ltb (nrows m) (Toy.n_splits _)); [discriminate|].
    intros [= <- _]. cbn [Toy.is_positive ravel].
    induction (seq 0 (ncols m)) as [|j js IH]; cbn [map]; constructor;
      [apply nonneg_part_nonneg | exact IH].
Qed.

(** *** Runs on data *)

Definition run_fit (self : MarginalShrinkageLinearModel) (X y : ndarray)
  : result MarginalShrinkageLinearModel :=
  fit Toy.centring_scaler Toy.columnwise_solve self X y None.

(** Two features: the standard path returns, and so does the prediction of
    the model without a main estimator. *)
Example standard_path_two_features :
  is_ok (run_fit (Toy.regressor (Some "ridge") (Some "ridge") true false)
           Toy.X2 Toy.y2) = true.
Proof. vm_compute. reflexivity. Qed.

Example main_absent_two_features :
  is_ok (self <- run_fit (Toy.regressor (Some "ridge") None true false)
                   Toy.X2 Toy.y2 ;;
         predict self Toy.X2) = true.
Proof. vm_compute. reflexivity. Qed.

Lemma fit_standard_path_single_feature_witness :
  run_fit (Toy.regressor (Some "ridge") (Some "ridge") true false)
    Toy.X1 Toy.y1
  = Raise (ValueError "matmul: Input operand does not have enough dimensions").
Proof.
  unfold run_fit.
  eapply (fit_standard_path_single_feature
            Toy.centring_scaler Toy.columnwise_solve).
  - exact toy_contract.
  - reflexivity.
  - lazy. reflexivity.
  - reflexivity.
  - reflexivity.
  - lazy. reflexivity.
  - reflexivity.
Defined.

Lemma predict_main_absent_single_feature_witness :
  exists self',
    run_fit (Toy.regressor (Some "ridge") None true false) Toy.X1 Toy.y1
    = Ok self'
    /\ predict self' Toy.X1
       = Raise (ValueError
                  "matmul: Input operand does not have enough dimensions").
Proof.
  unfold run_fit.
  edestruct (predict_main_absent_single_feature
               Toy.centring_scaler Toy.columnwise_solve
               (Toy.regressor (Some "ridge") None true false)
               Toy.X1 Toy.y1 None) as (self' & Hfit & Hpredict).
  - exact toy_contract.
  - reflexivity.
  - lazy. reflexivity.
  - reflexivity.
  - reflexivity.
  - reflexivity.
  - lazy. reflexivity.
  - reflexivity.
  - reflexivity.
  - reflexivity.
  - reflexivity.
  - exists self'. split; [exact Hfit|].
    eapply Hpredict. lazy. reflexivity.
Defined.

(** C7 (counterexample). With the sign constraint and a main estimator name
    that [_get_est_from_name] does not know, the name is not "NNLS" and yet
    [fit] raises no assertion error: the lookup fails first. *)
Lemma sign_constraint_unknown_name :
  ~ ((exists msg,
        run_fit (Toy.regressor (Some "ridge") (Some "lasso") true true)
          Toy.X2 Toy.y2
        = Raise (AssertionError msg))
     <-> est_main_name (Toy.regressor (Some "ridge") (Some "lasso") true true)
         <> Some "NNLS").
Proof.
  intros [_ H].
  destruct H as (msg & Hmsg); [discriminate|].
  vm_compute in Hmsg. discriminate Hmsg.
Qed.

(** On four samples the five folds of the elastic net are refused, and
    [fit] raises that error; on six samples [fit] returns. *)
Lemma sign_constraint_fit_witness :
  run_fit (Toy.regressor (Some "ridge") (Some "NNLS") true true)
    Toy.X2 Toy.y2
  = Raise (ValueError "Cannot have number of splits n_splits=5 greater than the number of samples")
  /\ exists self' est coef cm,
       run_fit (Toy.regressor (Some "ridge") (Some "NNLS") true true)
         Toy.X3 Toy.y3
       = Ok self'
       /\ coef_marginal_ self' = Some cm
       /\ est_main_ self' = Some est
       /\ coef_ est = Some coef
       /\ Forall2 same_sign_or_zero (ravel coef) (ravel cm).
Proof.
  unfold run_fit. split.
  - destruct (fit_checks_and_center Toy.centring_scaler
                (Toy.regressor (Some "ridge") (Some "NNLS") true true)
                Toy.X2 Toy.y2 None) as [c|] eqn:Hc;
      [|exfalso; vm_compute in Hc; discriminate Hc].
    destruct (_fit_marginal Toy.columnwise_solve
                (Toy.regressor (Some "ridge") (Some "NNLS") true true)
                (c_X c) (c_y c) (c_sample_weight c)) as [cm|] eqn:Hcm;
      [|exfalso; revert Hcm; vm_compute in Hc; injection Hc as <-;
        vm_compute; discriminate].
    destruct (sign_constraint_fit
                Toy.centring_scaler Toy.columnwise_solve
                (Toy.regressor (Some "ridge") (Some "NNLS") true true)
                Toy.X2 Toy.y2 None c cm _
                toy_contract eq_refl Hc Hcm eq_refl) as [_ H].
    destruct (H eq_refl) as (nnls & X' & Hnnls & HX' & Hraise & _).
    injection Hnnls as <-.
    apply Hraise. revert HX'. clear -Hc Hcm.
    vm_compute in Hc. injection Hc as <-.
    vm_compute in Hcm. injection Hcm as <-.
    vm_compute. intros [= <-]. reflexivity.
  - destruct (fit_checks_and_center Toy.centring_scaler
                (Toy.regressor (Some "ridge") (Some "NNLS") true true)
                Toy.X3 Toy.y3 None) as [c|] eqn:Hc;
      [|exfalso; vm_compute in Hc; discriminate Hc].
    destruct (_fit_marginal Toy.columnwise_solve
                (Toy.regressor (Some "ridge") (Some "NNLS") true true)
                (c_X c) (c_y c) (c_sample_weight c)) as [cm|] eqn:Hcm;
      [|exfalso; revert Hcm; vm_compute in Hc; injection Hc as <-;
        vm_compute; discriminate].
    destruct (sign_constraint_fit
                Toy.centring_scaler Toy.columnwise_solve
                (Toy.regressor (Some "ridge") (Some "NNLS") true true)
                Toy.X3 Toy.y3 None c cm _
                toy_contract eq_refl Hc Hcm eq_refl) as [_ H].
    destruct (H eq_refl) as (nnls & X' & _ & _ & _ & Hsigns).
    destruct (fit Toy.centring_scaler Toy.columnwise_solve
                (Toy.regressor (Some "ridge") (Some "NNLS") true true)
                Toy.X3 Toy.y3 None) as [self'|] eqn:Hfit;
      [|exfalso; vm_compute in Hfit; discriminate Hfit].
    destruct (Hsigns self' eq_refl) as (est & coef & H1 & H2 & H3 & H4).
    exists self', est, coef, cm.
    split; [reflexivity|]. split; [exact H1|]. split; [exact H2|].
    split; [exact H3 | exact H4].
Defined.

End MarginalShrinkageFacts.

Module GlmAlooCalculatorFacts.
Import Importance NpFacts.
Import GlmAlooCalculator.

(** One call of [get_aloo_fitted_parameters], by its arguments. *)
Record call : Type := mk_call {
  call_X : option ndarray;
  call_y : option ndarray;
  call_alpha : option float;
  call_cache : bool
}.

Section Facts.

Variable sk_fit :
  Estimator.t -> option ndarray -> option ndarray -> result Estimator.t.
Variable np_linalg_inv : ndarray -> result ndarray.

Local Abbreviation get_aloo_fitted_parameters :=
  (get_aloo_fitted_parameters sk_fit np_linalg_inv).
Local Abbreviation aloo_parameters := (aloo_parameters sk_fit np_linalg_inv).

(** A sequence of calls on one calculator: the matrices they return, and
    the calculator they leave. *)
Fixpoint run_calls (self : t) (calls : list call)
  : result (list ndarray * t) :=
  match calls with
  | [] => Ok ([], self)
  | c :: calls' =>
      r <- get_aloo_fitted_parameters self (call_X c) (call_y c)
             (call_alpha c) (call_cache c) ;;
      rest <- run_calls (snd (fst r)) calls' ;;
      Ok (fst (fst r) :: fst rest, snd rest)
  end.

Lemma cached_call self p X y alpha cache :
  loo_fitted_parameters self = Some p ->
  get_aloo_fitted_parameters self X y alpha cache = Ok (p, self, []).
Proof.
  intros Hp. unfold GlmAlooCalculator.get_aloo_fitted_parameters.
  now rewrite Hp.
Qed.

Lemma cached_calls self p calls :
  loo_fitted_parameters self = Some p ->
  run_calls self calls = Ok (repeat p (length calls), self).
Proof.
  intros Hp. induction calls as [|c calls IH]; cbn [run_calls]; [reflexivity|].
  rewrite (cached_call _ _ _ _ _ _ Hp). cbn [Py.bind fst snd].
  rewrite IH. reflexivity.
Qed.

(** C6. A calculator that holds a cached matrix returns it, and stays as it
    is, whatever the arguments of the call.  A calculator that holds none
    recomputes the matrix from the arguments of the call; with [cache=True]
    a call that returns stores the matrix it returns, after which every
    sequence of calls returns that matrix; with [cache=False] the
    calculator still holds none. *)
Theorem aloo_cache_is_one_shot
    (self : t) (X y : option ndarray) (alpha : option float) (cache : bool) :
  match loo_fitted_parameters self with
  | Some p => get_aloo_fitted_parameters self X y alpha cache = Ok (p, self, [])
  | None =>
      get_aloo_fitted_parameters self X y alpha cache
      = (sa <- set_regularization self alpha ;;
         pe <- aloo_parameters (fst sa) X y (snd sa) ;;
         Ok (fst pe,
             (if cache
              then set_estimator (snd pe)
                     (set_loo_fitted_parameters (fst pe) (fst sa))
              else fst sa),
             []))
      /\ forall p self' ws,
           get_aloo_fitted_parameters self X y alpha cache = Ok (p, self', ws) ->
           if cache
           then loo_fitted_parameters self' = Some p
                /\ forall calls,
                     run_calls self' calls = Ok (repeat p (length calls), self')
           else loo_fitted_parameters self' = None
  end.
Proof.
  destruct (loo_fitted_parameters self) as [p|] eqn:Hp.
  - now apply cached_call.
  - unfold GlmAlooCalculator.get_aloo_fitted_parameters. rewrite Hp.
    assert (Hreg : forall sa, set_regularization self alpha = Ok sa ->
                     loo_fitted_parameters (fst sa) = None).
    { unfold set_regularization. intros sa.
      destruct (hasattr (Estimator.alpha (estimator self))).
      - intros [= <-]. exact Hp.
      - destruct (hasattr (Estimator.C (estimator self))).
        + destruct alpha; cbn; [|discriminate]. intros [= <-]. exact Hp.
        + intros [= <-]. exact Hp. }
    split.
    + destruct (set_regularization self alpha) as [sa|]; cbn [Py.bind];
        [|reflexivity].
      destruct (aloo_parameters (fst sa) X y (snd sa)); cbn [Py.bind];
        [|reflexivity].
      destruct cache; reflexivity.
    + intros p self' ws.
      destruct (set_regularization self alpha) as [sa|] eqn:Hsa;
        cbn [Py.bind]; [|discriminate].
      destruct (aloo_parameters (fst sa) X y (snd sa)) as [pe|];
        cbn [Py.bind]; [|discriminate].
      destruct cache; intros [= <- <- <-].
      * split; [reflexivity|]. intros calls. now apply cached_calls.
      * now apply Hreg.
Qed.

(** For an estimator with neither an [alpha] nor a [C] attribute, a call
    that recomputes treats the regularization strength as zero: it returns
    what the computation returns at strength zero, whatever [alpha] was
    passed, and it issues no warning. *)
Lemma aloo_without_regularization_parameter
    (self : t) (X y : option ndarray) (alpha : option float) (cache : bool) :
  hasattr (Estimator.alpha (estimator self)) = false ->
  hasattr (Estimator.C (estimator self)) = false ->
  loo_fitted_parameters self = None ->
  get_aloo_fitted_parameters self X y alpha cache
  = (pe <- aloo_parameters self X y (Some Float.zero) ;;
     Ok (fst pe,
         (if cache
          then set_estimator (snd pe) (set_loo_fitted_parameters (fst pe) self)
          else self),
         []))
  /\ get_aloo_fitted_parameters self X y alpha cache
     = get_aloo_fitted_parameters self X y (Some Float.zero) cache
  /\ forall p self' ws,
       get_aloo_fitted_parameters self X y alpha cache = Ok (p, self', ws) ->
       ws = [].
Proof.
  intros Ha Hc Hp.
  assert (Hcall : forall a,
            get_aloo_fitted_parameters self X y a cache
            = (pe <- aloo_parameters self X y (Some Float.zero) ;;
               Ok (fst pe,
                   (if cache
                    then set_estimator (snd pe)
                           (set_loo_fitted_parameters (fst pe) self)
                    else self),
                   []))).
  { intros a. unfold GlmAlooCalculator.get_aloo_fitted_parameters.
    rewrite Hp. unfold set_regularization. rewrite Ha, Hc.
    cbn [Py.bind fst snd].
    destruct (aloo_parameters self X y (Some Float.zero)); cbn [Py.bind];
      [|reflexivity].
    destruct cache; reflexivity. }
  split; [apply Hcall|]. split; [now rewrite !Hcall|].
  intros p self' ws. rewrite Hcall.
  destruct (aloo_parameters self X y (Some Float.zero)); cbn [Py.bind];
    [|discriminate].
  now intros [= _ _ <-].
Qed.

(** No call of the calculator issues a warning. *)
Lemma get_aloo_fitted_parameters_silent self X y alpha cache p self' ws :
  get_aloo_fitted_parameters self X y alpha cache = Ok (p, self', ws) ->
  ws = [].
Proof.
  unfold GlmAlooCalculator.get_aloo_fitted_parameters.
  destruct (loo_fitted_parameters self); [now intros [= _ _ <-]|].
  destruct (set_regularization self alpha) as [sa|]; cbn [Py.bind];
    [|discriminate].
  destruct (aloo_parameters (fst sa) X y (snd sa)); cbn [Py.bind];
    [|discriminate].
  destruct cache; now intros [= _ _ <-].
Qed.

Lemma get_aloocv_alpha_silent self X y a self' ws :
  get_aloocv_alpha sk_fit np_linalg_inv self X y = Ok (a, self', ws) ->
  ws = [].
Proof.
  unfold get_aloocv_alpha.
  assert (Hloop : forall grid st st',
            snd st = [] ->
            for_each grid (cv_score sk_fit np_linalg_inv X y) st = Ok st' ->
            snd st' = []).
  { induction grid as [|g grid IH]; intros st st' Hst; cbn [for_each].
    - now intros [= <-].
    - destruct (cv_score sk_fit np_linalg_inv X y g st) as [st1|] eqn:H1;
        cbn [Py.bind]; [|discriminate].
      apply IH. revert H1. unfold cv_score.
      destruct st as [[s scores] ws0]. cbn [snd] in Hst. subst ws0.
      destruct (get_aloo_fitted_parameters s (Some X) (Some y) (Some g) false)
        as [[[p s1] ws1]|] eqn:Hget; cbn [Py.bind]; [|discriminate].
      apply get_aloo_fitted_parameters_silent in Hget. subst ws1.
      repeat match goal with
             | |- Py.bind ?c _ = _ -> _ =>
                 destruct c; cbn [Py.bind]; [|discriminate]
             end.
      match goal with
      | |- match ?a with _ => _ end = _ -> _ => destruct a
      end; try discriminate.
      now intros [= <-]. }
  destruct (for_each (alpha_grid self) (cv_score sk_fit np_linalg_inv X y)
              (self, [], [])) as [[[s scores] ws0]|] eqn:Hfor;
    cbn [Py.bind]; [|discriminate].
  apply Hloop in Hfor; [|reflexivity]. cbn [snd] in Hfor. subst ws0.
  destruct (argmin scores); cbn [Py.bind]; [|discriminate].
  now intros [= _ _ <-].
Qed.

End Facts.
End GlmAlooCalculatorFacts.

Module GenericLOOPPMFacts.
Import Importance NpFacts.
Import GenericLOOPPM.

Section Facts.

Variable sk_fit :
  Estimator.t -> option ndarray -> option ndarray -> result Estimator.t.
Variable np_linalg_inv : ndarray -> result ndarray.

Local Abbreviation _fit_partial_predictions :=
  (_fit_partial_predictions sk_fit np_linalg_inv).
Local Abbreviation _fit_model := (_fit_model sk_fit np_linalg_inv).
Local Abbreviation get_aloo_fitted_parameters :=
  (GlmAlooCalculator.get_aloo_fitted_parameters sk_fit np_linalg_inv).

(** The intercept-only prediction of the null model. *)
Definition intercept_prediction (self : t) (y_test : ndarray)
  : result (partial_prediction * t) :=
  ci <- extract_coef_and_intercept
          (GlmAlooCalculator.estimator (aloo_calculator self)) ;;
  p <- GlmAlooCalculator.score_to_pred (aloo_calculator self) (snd ci) ;;
  n <- len y_test ;;
  Ok (np_repeat_each p n, ParamList [snd ci], self).

(** The prediction from the leave-one-out coefficients of the kept columns
    and of the intercept. *)
Definition loo_prediction (self : t) (col_indices : list Z)
    (reduced_data1 : ndarray) : result (partial_prediction * t) :=
  r <- get_aloo_fitted_parameters (aloo_calculator self) None None None
         false ;;
  reduced_parameters <-
    take_cols (T (fst (fst r))) (app col_indices [(-1)%Z]) ;;
  prod <- np_mul reduced_parameters reduced_data1 ;;
  s <- sum_axis1 prod ;;
  preds <- GlmAlooCalculator.score_to_pred (snd (fst r)) s ;;
  Ok (preds, ParamArray reduced_parameters,
      set_aloo_calculator (snd (fst r)) self).

Lemma np_repeat_scalar x n : np_repeat_each (A0 x) n = A1 (repeat x n).
Proof. unfold np_repeat_each. cbn. now rewrite app_nil_r. Qed.

Lemma reduced_keep_k k test idx rd :
  reduced "keep_k" k test = Ok (idx, rd) ->
  exists b, BlockPartitionedData.block_lookup test k = Ok b
            /\ rd = A2 b
            /\ length idx = BlockPartitionedData.block_width test b.
Proof.
  unfold reduced. cbn [String.eqb Ascii.eqb Bool.eqb andb].
  unfold BlockPartitionedData.get_block_indices, BlockPartitionedData.get_block.
  destruct (BlockPartitionedData.block_lookup test k) as [b|]; cbn [Py.bind];
    [|discriminate].
  intros [= <- <-]. exists b. repeat split.
  now rewrite length_map, length_seq.
Qed.

(** C2 (amended). With [fixed_intercept], the partial prediction for
    feature [k] is the intercept-only prediction exactly when the block
    selected by [mode] has no column, so that the index list extended by
    the intercept index has length one: the learned intercept's linked
    value, repeated [len(y_test)] times, with the intercept as the
    one-element parameter list.  For a block with one column or more it is
    computed from the leave-one-out coefficient matrix restricted to the
    columns of the block and the intercept column.  In mode "keep_k" the
    length of the index list is the number of columns of block [k]. *)
Theorem fit_partial_predictions_by_width
    (self : t) (k : nat) (mode : string) (test : BlockPartitionedData.t)
    (y_test : ndarray) (idx : list Z) (rd : ndarray) :
  fixed_intercept self = true ->
  reduced mode k test = Ok (idx, rd) ->
  _fit_partial_predictions self k mode test (Some y_test)
  = (reduced_data1 <-
       hstack rd (ones (BlockPartitionedData.n_samples test) 1) ;;
     if Nat.eqb (length idx) 0
     then intercept_prediction self y_test
     else loo_prediction self idx reduced_data1)
  /\ (mode = "keep_k" ->
      exists b, BlockPartitionedData.block_lookup test k = Ok b
                /\ length idx = BlockPartitionedData.block_width test b)
  /\ (forall x n, np_repeat_each (A0 x) n = A1 (repeat x n)).
Proof.
  intros Hfixed Hred. split; [|split].
  - unfold GenericLOOPPM._fit_partial_predictions. rewrite Hred.
    cbn [Py.bind fst snd]. rewrite Hfixed. cbn [andb].
    destruct (hstack rd (ones (BlockPartitionedData.n_samples test) 1))
      as [rd1|]; cbn [Py.bind]; [|reflexivity].
    rewrite length_app. cbn [length].
    replace (Nat.eqb (length idx + 1) 1) with (Nat.eqb (length idx) 0)
      by (destruct (length idx) as [|[|n]]; reflexivity).
    destruct (Nat.eqb (length idx) 0) eqn:Hwidth; [reflexivity|].
    destruct idx as [|i idx]; [discriminate Hwidth|].
    unfold loo_prediction, index_cols.
    destruct (get_aloo_fitted_parameters (aloo_calculator self) None None
                None false) as [[[fp calc] ws]|]; reflexivity.
  - intros ->. destruct (reduced_keep_k _ _ _ _ Hred) as (b & Hb & _ & Hlen).
    now exists b.
  - apply np_repeat_scalar.
Qed.

(** [_fit_model] warns exactly when the estimator has neither attribute. *)
Lemma fit_model_warnings self train y_train self' ws :
  _fit_model self train y_train = Ok (self', ws) ->
  ws = if hasattr (Estimator.alpha (estimator self))
          || hasattr (Estimator.C (estimator self))
       then []
       else ["Estimator has no regularization parameter."].
Proof.
  unfold GenericLOOPPM._fit_model.
  destruct (GlmAlooCalculator.get_aloocv_alpha sk_fit np_linalg_inv
              (aloo_calculator self)
              (BlockPartitionedData.get_all_data train) y_train)
    as [[[a calc] ws0]|] eqn:Hcv; cbn [Py.bind]; [|discriminate].
  apply GlmAlooCalculatorFacts.get_aloocv_alpha_silent in Hcv. subst ws0.
  cbn [estimator set_alpha_ set_aloo_calculator].
  destruct (hasattr (Estimator.alpha (estimator self)));
    [now intros [= _ <-]|].
  destruct (hasattr (Estimator.C (estimator self))); now intros [= _ <-].
Qed.

(** C9 (amended). For an estimator with neither an [alpha] nor a [C]
    attribute, a call of [get_aloo_fitted_parameters] that recomputes
    treats the regularization strength as zero in the curvature term,
    whatever [alpha] it is passed, and issues no warning; the warning that
    the estimator has no regularization parameter is issued by
    [_fit_model] of the partial prediction model, once the calculator has
    chosen its strength. *)
Theorem no_regularization_parameter
    (self : t) (train : BlockPartitionedData.t) (y_train : ndarray)
    (X y : option ndarray) (alpha : option float) (cache : bool) :
  hasattr (Estimator.alpha (estimator self)) = false ->
  hasattr (Estimator.C (estimator self)) = false ->
  hasattr (Estimator.alpha
             (GlmAlooCalculator.estimator (aloo_calculator self))) = false ->
  hasattr (Estimator.C
             (GlmAlooCalculator.estimator (aloo_calculator self))) = false ->
  GlmAlooCalculator.loo_fitted_parameters (aloo_calculator self) = None ->
  get_aloo_fitted_parameters (aloo_calculator self) X y alpha cache
  = (pe <- GlmAlooCalculator.aloo_parameters sk_fit np_linalg_inv
             (aloo_calculator self) X y (Some Float.zero) ;;
     Ok (fst pe,
         (if cache
          then GlmAlooCalculator.set_estimator (snd pe)
                 (GlmAlooCalculator.set_loo_fitted_parameters (fst pe)
                    (aloo_calculator self))
          else aloo_calculator self),
         []))
  /\ (forall p calc ws,
        get_aloo_fitted_parameters (aloo_calculator self) X y alpha cache
        = Ok (p, calc, ws) ->
        ws = [])
  /\ (forall self' ws,
        _fit_model self train y_train = Ok (self', ws) ->
        ws = ["Estimator has no regularization parameter."]).
Proof.
  intros Ha Hc Hca Hcc Hp.
  destruct (GlmAlooCalculatorFacts.aloo_without_regularization_parameter
              sk_fit np_linalg_inv (aloo_calculator self) X y alpha cache
              Hca Hcc Hp) as (Heq & _ & Hsilent).
  split; [exact Heq|]. split; [exact Hsilent|].
  intros self' ws Hfit. apply fit_model_warnings in Hfit.
  now rewrite Ha, Hc in Hfit.
Qed.

End Facts.
End GenericLOOPPMFacts.

Module GMDIFacts.
Import Importance NpFacts.
Import GMDI.
Local Open Scope list_scope.

Lemma nan_scores_fill k r :
  fold_left (fun scores i => <[i := NaN]> scores) (seq k r)
    (repeat NaN k ++ repeat Float.zero r)
  = repeat NaN (k + r).
Proof.
  revert k. induction r as [|r IH]; intros k.
  - cbn. now rewrite app_nil_r, Nat.add_0_r.
  - cbn [seq fold_left repeat].
    rewrite insert_app_r_alt by (rewrite repeat_length; lia).
    rewrite repeat_length, Nat.sub_diag. cbn [insert list_insert].
    replace (repeat NaN k ++ NaN :: repeat Float.zero r)
      with (repeat NaN (S k) ++ repeat Float.zero r).
    + rewrite IH. f_equal. lia.
    + change (repeat NaN (S k)) with (NaN :: repeat NaN k).
      rewrite (repeat_cons k NaN). now rewrite <- app_assoc.
Qed.

(** The loop that overwrites the zeros leaves not-a-number everywhere. *)
Lemma nan_scores_all d : nan_scores d = repeat NaN d.
Proof. unfold nan_scores. exact (nan_scores_fill 0 d). Qed.

Section Facts.

Context {P : Type} `{PartialPredictionModel P}.
Variable np_std : ndarray -> float.
Variable _generate_sample_indices : Z -> nat -> nat -> list nat.
Variable _generate_unsampled_indices : Z -> nat -> nat -> list nat.

Local Abbreviation blocked_train_test :=
  (blocked_train_test np_std _generate_sample_indices
     _generate_unsampled_indices).
Local Abbreviation _fit_importance_scores :=
  (_fit_importance_scores np_std _generate_sample_indices
     _generate_unsampled_indices).
Local Abbreviation get_scores :=
  (get_scores np_std _generate_sample_indices _generate_unsampled_indices).

(** C5. Whenever the first part of [_fit_importance_scores] yields a
    training representation without columns, the fit returns: the score of
    every feature of [X] is not-a-number, and the object is fitted; so
    [get_scores] on an unfitted object returns that vector. *)
Theorem empty_representation_scores
    (self : t P) (X : matrix) (y : ndarray) (self1 : t P) (sp : split) :
  blocked_train_test self (A2 X) y = Ok (self1, sp) ->
  shape1 (BlockPartitionedData.get_all_data (train_blocked_data sp)) = Ok 0%nat ->
  exists self',
    _fit_importance_scores self (A2 X) y = Ok self'
    /\ _scores self' = Some (A1 (repeat NaN (ncols X)))
    /\ is_fitted self' = true
    /\ (is_fitted self = false ->
        get_scores self (Some (A2 X)) (Some y)
        = Ok (Some (A1 (repeat NaN (ncols X))), self')).
Proof.
  intros Hsplit Hwidth.
  eexists. split.
  { unfold GMDI._fit_importance_scores. rewrite Hsplit. cbn [Py.bind fst snd].
    rewrite Hwidth. cbn [Py.bind Nat.eqb shape1]. reflexivity. }
  cbn [_scores is_fitted set_is_fitted set_scores].
  rewrite nan_scores_all. split; [reflexivity|]. split; [reflexivity|].
  intros Hunfit. unfold GMDI.get_scores. rewrite Hunfit.
  unfold GMDI._fit_importance_scores. rewrite Hsplit. cbn [Py.bind fst snd].
  rewrite Hwidth. cbn [Py.bind Nat.eqb shape1 _scores set_is_fitted set_scores].
  now rewrite nan_scores_all.
Qed.

(** [_fit_one_target] returns a tuple of three values. *)
Lemma fit_one_target_tuple self train yt test ys multitarget r :
  _fit_one_target self train yt test ys multitarget = Ok r ->
  exists a b c, fst r = [a; b; c].
Proof.
  unfold _fit_one_target.
  destruct (fit (partial_prediction_model self) train yt test (Some ys)
              (mode self)) as [fitted|]; cbn [Py.bind]; [|discriminate].
  destruct (n_features self); cbn [require Py.bind]; [|discriminate].
  match goal with
  | |- Py.bind ?c _ = _ -> _ => destruct c; cbn [Py.bind]; [|discriminate]
  end.
  intros [= <-]. cbn [fst]. eauto.
Qed.

(** The loop over the columns of a two-dimensional target never gets past
    its first turn. *)
Lemma fit_targets_raises self sp (Y : matrix) :
  is_ok (fit_targets self sp (A2 Y)) = false
  /\ forall yj_train yj_test r,
       get_col (y_train sp) 0 = Ok yj_train ->
       get_col (y_test sp) 0 = Ok yj_test ->
       _fit_one_target self (train_blocked_data sp) yj_train
         (test_blocked_data sp) yj_test true = Ok r ->
       fit_targets self sp (A2 Y)
       = Raise (ValueError "too many values to unpack (expected 2)").
Proof.
  unfold fit_targets. cbn [ndim seq for_each].
  split.
  - destruct (get_col (y_train sp) 0) as [yt|]; cbn [Py.bind]; [|reflexivity].
    destruct (get_col (y_test sp) 0) as [ys|]; cbn [Py.bind]; [|reflexivity].
    destruct (_fit_one_target self (train_blocked_data sp) yt
                (test_blocked_data sp) ys true) as [r|] eqn:Hr;
      cbn [Py.bind]; [|reflexivity].
    destruct (fit_one_target_tuple _ _ _ _ _ _ _ Hr) as (a & b & c & ->).
    reflexivity.
  - intros yt ys r -> ->. cbn [Py.bind]. intros Hr. rewrite Hr.
    cbn [Py.bind].
    destruct (fit_one_target_tuple _ _ _ _ _ _ _ Hr) as (a & b & c & ->).
    reflexivity.
Qed.

(** C1 (defect). For a target of two dimensions the fit does not run one
    model per column: the loop is over [range(y.ndim)], that is over
    columns 0 and 1 whatever the number of columns, and its first turn
    raises, as the three values [_fit_one_target] returns are unpacked
    into two names.  No such fit returns. *)
Theorem multitarget_fit_raises
    (self : t P) (X : ndarray) (Y : matrix) (self1 : t P) (sp : split) :
  blocked_train_test self X (A2 Y) = Ok (self1, sp) ->
  shape1 (BlockPartitionedData.get_all_data (train_blocked_data sp))
  <> Ok 0%nat ->
  is_ok (_fit_importance_scores self X (A2 Y)) = false
  /\ seq 0 (ndim (A2 Y)) = [0; 1]%nat
  /\ forall yj_train yj_test r,
       get_col (y_train sp) 0 = Ok yj_train ->
       get_col (y_test sp) 0 = Ok yj_test ->
       _fit_one_target self1 (train_blocked_data sp) yj_train
         (test_blocked_data sp) yj_test true = Ok r ->
       _fit_importance_scores self X (A2 Y)
       = Raise (ValueError "too many values to unpack (expected 2)").
Proof.
  intros Hsplit Hwidth.
  assert (Hbody : _fit_importance_scores self X (A2 Y)
                  = (lists <- fit_targets self1 sp (A2 Y) ;;
                     @Raise (t P) (UnboundLocalError "partial_params"))
                  \/ exists e, _fit_importance_scores self X (A2 Y) = Raise e).
  { unfold GMDI._fit_importance_scores. rewrite Hsplit.
    cbn [Py.bind fst snd].
    destruct (shape1 (BlockPartitionedData.get_all_data
                        (train_blocked_data sp))) as [w|] eqn:Hw;
      cbn [Py.bind]; [|right; eauto].
    destruct w as [|w]; [congruence|]. cbn [Nat.eqb ndim].
    destruct (fit_targets self1 sp (A2 Y)) as [lists|] eqn:Hl;
      cbn [Py.bind]; [|right; eauto].
    destruct (fit_targets_raises self1 sp Y) as [Hno _].
    rewrite Hl in Hno. discriminate. }
  destruct (fit_targets_raises self1 sp Y) as [Hno Hunpack].
  split; [|split; [reflexivity|]].
  - destruct Hbody as [-> | (e & ->)]; [|reflexivity].
    destruct (fit_targets self1 sp (A2 Y)); [discriminate|reflexivity].
  - intros yt ys r Ht Hs Hr.
    unfold GMDI._fit_importance_scores. rewrite Hsplit.
    cbn [Py.bind fst snd].
    destruct (shape1 (BlockPartitionedData.get_all_data
                        (train_blocked_data sp))) as [w|] eqn:Hw;
      cbn [Py.bind]; [|discriminate].
    destruct w as [|w]; [congruence|]. cbn [Nat.eqb ndim].
    now rewrite (Hunpack yt ys r Ht Hs Hr).
Qed.

End Facts.
End GMDIFacts.

Module GMDIEnsembleFacts.
Import Importance NpFacts.
Import GMDIEnsemble.
Local Open Scope list_scope.

Definition not_nan (x : float) : bool := negb (isnan x).

(** The mean of the entries that are not not-a-number, as the
    specification words it. *)
Definition mean_ignoring_nan (v : list float) : float :=
  Float.div (fsum (List.filter not_nan v))
    (Float.of_nat (length (List.filter not_nan v))).

Lemma fsum_nan_to_zero v acc :
  fold_left Float.add (map nan_to_zero v) acc
  = fold_left Float.add (List.filter not_nan v) acc.
Proof.
  revert acc. induction v as [|x v IH]; intros acc; [reflexivity|].
  cbn [map List.filter fold_left]. destruct (isnan x) eqn:E.
  - replace (nan_to_zero x) with (Finite 0)
      by (unfold nan_to_zero; now rewrite E).
    replace (not_nan x) with false by (unfold not_nan; now rewrite E).
    replace (Float.add acc (Finite 0)) with acc
      by (symmetry; apply add_zero_r).
    apply IH.
  - replace (nan_to_zero x) with x by (unfold nan_to_zero; now rewrite E).
    replace (not_nan x) with true by (unfold not_nan; now rewrite E).
    apply IH.
Qed.

(** NumPy's computation is the mean of the specification. *)
Lemma nanmean1_spec v : nanmean1 v = mean_ignoring_nan v.
Proof.
  unfold nanmean1, mean_ignoring_nan, fsum, count_not_nan.
  now rewrite fsum_nan_to_zero.
Qed.

Lemma filter_all_nan v :
  Forall (fun x => isnan x = true) v -> List.filter not_nan v = [].
Proof.
  induction 1 as [|x v Hx _ IH]; [reflexivity|].
  cbn [List.filter]. unfold not_nan at 1. now rewrite Hx.
Qed.

Lemma nanmean1_all_nan v :
  Forall (fun x => isnan x = true) v -> nanmean1 v = NaN.
Proof.
  intros Hv. rewrite nanmean1_spec. unfold mean_ignoring_nan.
  now rewrite (filter_all_nan _ Hv).
Qed.

Lemma fsum_finite v q :
  Forall (fun x => isfinite x = true) v ->
  exists q', fold_left Float.add v (Finite q) = Finite q'.
Proof.
  intros Hv. revert q. induction Hv as [|x v Hx _ IH]; intros q.
  - now exists q.
  - destruct x as [a| | |]; try discriminate. cbn [fold_left Float.add].
    apply IH.
Qed.

Lemma of_nat_succ_div q n :
  exists q', Float.div (Finite q) (Float.of_nat (S n)) = Finite q'.
Proof.
  unfold Float.of_nat, Float.div.
  assert (Hz : Qeq_bool (inject_Z (Z.of_nat (S n))) 0 = false).
  { unfold Qeq_bool, inject_Z. cbn [Qnum Qden].
    apply Z.eqb_neq. lia. }
  rewrite Hz. eauto.
Qed.

(** With finite scores beside the not-a-number ones, the mean is
    not-a-number only when every entry is. *)
Lemma nanmean1_nan_only_if_all v :
  Forall (fun x => isnan x = true \/ isfinite x = true) v ->
  isnan (nanmean1 v) = true ->
  Forall (fun x => isnan x = true) v.
Proof.
  intros Hv. rewrite nanmean1_spec. unfold mean_ignoring_nan.
  assert (Hfin : Forall (fun x => isfinite x = true) (List.filter not_nan v)).
  { induction Hv as [|x v Hx _ IH]; [constructor|].
    cbn [List.filter]. unfold not_nan at 1.
    destruct (isnan x) eqn:Hn; cbn [negb]; [exact IH|].
    constructor; [|exact IH]. destruct Hx; congruence. }
  destruct (List.filter not_nan v) as [|x l] eqn:Hf.
  - intros _. clear Hfin Hv.
    induction v as [|x v IH]; constructor.
    + cbn [List.filter] in Hf. unfold not_nan at 1 in Hf.
      destruct (isnan x); [reflexivity|discriminate].
    + apply IH. cbn [List.filter] in Hf. unfold not_nan at 1 in Hf.
      destruct (isnan x); [exact Hf|discriminate].
  - destruct (fsum_finite (x :: l) 0 Hfin) as (q & Hq).
    unfold fsum, Float.zero. rewrite Hq. cbn [length].
    destruct (of_nat_succ_div q (length l)) as (q' & ->). discriminate.
Qed.

Lemma require_all what rows :
  map_result (require what) (map (fun r => Some (A1 r)) rows)
  = Ok (map A1 rows).
Proof.
  induction rows as [|r rows IH]; [reflexivity|].
  cbn [map map_result require Py.bind]. now rewrite IH.
Qed.

Lemma concat_rows rows : concat (map as2d (map A1 rows)) = rows.
Proof.
  induction rows as [|r rows IH]; [reflexivity|].
  cbn [map concat as2d]. now rewrite IH.
Qed.

Lemma nanmean_axis0_rows rows d :
  rows <> [] -> Forall (fun r => length r = d) rows ->
  nanmean_axis0 (map A1 rows)
  = Ok (A1 (map (fun k => nanmean1 (map (fun r => nth k r NaN) rows))
              (seq 0 d))).
Proof.
  intros Hne Hlen. unfold nanmean_axis0.
  destruct rows as [|r rows]; [congruence|].
  cbn [map]. unfold vstack.
  change (A1 r :: map A1 rows) with (map A1 (r :: rows)).
  rewrite concat_rows.
  assert (Hr : length r = d) by now inversion Hlen.
  rewrite Hr. apply all_length_Forall in Hlen. rewrite Hlen.
  cbn [Py.bind]. unfold transpose. cbn [ncols]. rewrite Hr.
  now rewrite map_map.
Qed.

Section Facts.

Context {P : Type} `{PartialPredictionModel P}.
Variable np_std : ndarray -> float.
Variable _generate_sample_indices : Z -> nat -> nat -> list nat.
Variable _generate_unsampled_indices : Z -> nat -> nat -> list nat.

Local Abbreviation member_scores :=
  (member_scores np_std _generate_sample_indices _generate_unsampled_indices).
Local Abbreviation get_scores :=
  (get_scores np_std _generate_sample_indices _generate_unsampled_indices).

(** C4 (amended). When every member returns a score vector of one length,
    [get_scores] of an unfitted ensemble returns, feature by feature, the
    mean over the members of the scores that are not not-a-number.  Scores
    2.0, not-a-number and 4.0 give 3.0.  The ensemble score is
    not-a-number when every member's score is; and, for a feature whose
    member scores are all finite or not-a-number, only then. *)
Theorem ensemble_scores_nanmean
    (self : t P) (X y : ndarray) (n : nat)
    (fitted : list (option ndarray * GMDI.t P))
    (rows : list (list float)) (d : nat) :
  is_fitted self = false ->
  shape0 X = Ok n -> len y = Ok n ->
  member_scores (gmdi_objects self) X y = Ok fitted ->
  map fst fitted = map (fun r => Some (A1 r)) rows ->
  rows <> [] ->
  Forall (fun r => length r = d) rows ->
  exists v self',
    get_scores self (Some X) (Some y) = Ok (Some (A1 v), self')
    /\ length v = d
    /\ forall k, (k < d)%nat ->
         let col := map (fun r => nth k r NaN) rows in
         nth k v NaN = mean_ignoring_nan col
         /\ (Forall (fun x => isnan x = true) col -> nth k v NaN = NaN)
         /\ (Forall (fun x => isnan x = true \/ isfinite x = true) col ->
             isnan (nth k v NaN) = true ->
             Forall (fun x => isnan x = true) col)
         /\ (col = [Finite 2; NaN; Finite 4] ->
             Float.eqb (nth k v NaN) (Finite 3) = true).
Proof.
  intros Hunfit HX Hy Hmembers Hrows Hne Hlen.
  assert (Hfitted : map snd fitted <> []).
  { destruct fitted; [|discriminate]. destruct rows; [congruence|discriminate]. }
  exists (map (fun k => nanmean1 (map (fun r => nth k r NaN) rows)) (seq 0 d)).
  destruct (map snd fitted) as [|first members] eqn:Hm; [congruence|].
  eexists. split.
  { unfold GMDIEnsemble.get_scores. rewrite Hunfit.
    unfold GMDIEnsemble._fit_importance_scores,
      GMDIEnsemble._fit_importance_scores_writes.
    rewrite HX, Hy. cbn [Py.bind]. rewrite Nat.eqb_refl. cbn [negb].
    rewrite Hmembers. cbn [Py.bind]. rewrite Hrows, require_all.
    cbn [Py.bind]. rewrite (nanmean_axis0_rows _ _ Hne Hlen).
    cbn [Py.bind]. unfold GMDIEnsemble.set_n_features_of_first.
    cbn [gmdi_objects]. rewrite Hm. cbn [Py.bind _scores]. reflexivity. }
  split; [now rewrite length_map, length_seq|].
  intros k Hk col.
  assert (Hnth : nth k (map (fun k => nanmean1 (map (fun r => nth k r NaN) rows))
                          (seq 0 d)) NaN = nanmean1 col).
  { rewrite (nth_indep _ NaN (nanmean1 (map (fun r => nth 0 r NaN) rows)))
      by now rewrite length_map, length_seq.
    rewrite (map_nth (fun k => nanmean1 (map (fun r => nth k r NaN) rows))).
    now rewrite seq_nth. }
  rewrite Hnth. split; [apply nanmean1_spec|].
  split; [apply nanmean1_all_nan|].
  split; [apply nanmean1_nan_only_if_all|].
  intros ->. reflexivity.
Qed.

End Facts.
End GMDIEnsembleFacts.

Module ImportanceRuns.
Import Importance ToyImportance.
Import GlmAlooCalculatorFacts GenericLOOPPMFacts GMDIFacts GMDIEnsembleFacts.
Local Open Scope list_scope.

Definition get_aloo_fitted_parameters :=
  GlmAlooCalculator.get_aloo_fitted_parameters sk_fit np_linalg_inv.

Definition calculator (e : Estimator.t) : GlmAlooCalculator.t :=
  GenericLOOPPM.aloo_calculator (loo_ppm e).

(** The approximate leave-one-out coefficients of least squares are the
    coefficients of the four refits without one sample. *)
Definition refit_without (i : nat) : result ndarray :=
  e <- sk_fit LinearRegression
         (Some (A2 (BlockPartitionedData.remove_nth i (as2d X))))
         (Some (A1 (BlockPartitionedData.remove_nth i (ravel y)))) ;;
  extract_augmented_coef e.

Definition np_equal (a b : ndarray) : bool :=
  Nat.eqb (ndim a) (ndim b)
  && Nat.eqb (length (ravel a)) (length (ravel b))
  && forallb (fun p => Float.eqb (fst p) (snd p)) (combine (ravel a) (ravel b)).

Example aloo_is_exact_for_least_squares :
  (r <- get_aloo_fitted_parameters (calculator LinearRegression)
          (Some X) (Some y) (Some (F 0)) false ;;
   refits <- map_result refit_without [0; 1; 2; 3]%nat ;;
   stacked <- vstack refits ;;
   Ok (np_equal (T (fst (fst r))) stacked))
  = Ok true.
Proof. vm_compute. reflexivity. Qed.

(** C9 (counterexample). [LinearRegression] has neither an [alpha] nor a
    [C] attribute, and the call of [get_aloo_fitted_parameters] returns
    without a warning. *)
Lemma linear_regression_call_is_silent :
  hasattr (Estimator.alpha LinearRegression) = false
  /\ hasattr (Estimator.C LinearRegression) = false
  /\ exists p calc,
       get_aloo_fitted_parameters (calculator LinearRegression)
         (Some X) (Some y) (Some (F 1)) false
       = Ok (p, calc, []).
Proof.
  split; [reflexivity|]. split; [reflexivity|].
  eexists _, _. vm_compute. reflexivity.
Qed.

Lemma no_regularization_parameter_witness :
  (forall p calc ws,
     get_aloo_fitted_parameters (calculator LinearRegression)
       (Some X) (Some y) (Some (F 5)) true = Ok (p, calc, ws) ->
     ws = [])
  /\ (forall self' ws,
        GenericLOOPPM._fit_model sk_fit np_linalg_inv
          (loo_ppm LinearRegression) (BlockPartitionedData.mk 4 [as2d X]) y
        = Ok (self', ws) ->
        ws = ["Estimator has no regularization parameter."])
  /\ is_ok (GenericLOOPPM._fit_model sk_fit np_linalg_inv
              (loo_ppm LinearRegression)
              (BlockPartitionedData.mk 4 [as2d X]) y) = true.
Proof.
  destruct (no_regularization_parameter sk_fit np_linalg_inv
              (loo_ppm LinearRegression)
              (BlockPartitionedData.mk 4 [as2d X]) y
              (Some X) (Some y) (Some (F 5)) true
              eq_refl eq_refl eq_refl eq_refl eq_refl)
    as (_ & Hsilent & Hwarn).
  split; [exact Hsilent|]. split; [exact Hwarn|].
  vm_compute. reflexivity.
Defined.

(** A caching call, and two calls after it with other arguments. *)
Lemma aloo_cache_is_one_shot_witness :
  exists p calc,
    get_aloo_fitted_parameters (calculator Ridge)
      (Some X) (Some y) (Some (F 1)) true
    = Ok (p, calc, [])
    /\ run_calls sk_fit np_linalg_inv calc
         [mk_call None None None false;
          mk_call (Some X2) (Some y) (Some (F 7)) true]
       = Ok ([p; p], calc).
Proof.
  unfold get_aloo_fitted_parameters.
  destruct (GlmAlooCalculator.get_aloo_fitted_parameters sk_fit np_linalg_inv
              (calculator Ridge) (Some X) (Some y) (Some (F 1)) true)
    as [[[p calc] ws]|] eqn:Hcall;
    [|exfalso; vm_compute in Hcall; discriminate Hcall].
  pose proof (get_aloo_fitted_parameters_silent _ _ _ _ _ _ _ _ _ _ Hcall)
    as ->.
  exists p, calc. split; [reflexivity|].
  pose proof (aloo_cache_is_one_shot sk_fit np_linalg_inv (calculator Ridge)
                (Some X) (Some y) (Some (F 1)) true) as Hone.
  change (GlmAlooCalculator.loo_fitted_parameters (calculator Ridge))
    with (@None ndarray) in Hone.
  cbv beta iota in Hone. destruct Hone as [_ Hstored].
  destruct (Hstored p calc [] Hcall) as [_ Hcalls]. exact (Hcalls _).
Defined.

(** The model fitted on two blocks, the first of one column and the second
    of none. *)
Definition blocks : BlockPartitionedData.t :=
  BlockPartitionedData.mk 4 [as2d X; repeat [] 4].

Definition fitted_ppm : GenericLOOPPM.t :=
  Eval vm_compute in
    match fit (H := ppm_instance) (loo_ppm Ridge) blocks y blocks (Some y)
            "keep_k" with
    | Ok (ppm, _) => ppm
    | Raise _ => loo_ppm Ridge
    end.

Definition partial_predictions (k : nat) : result partial_prediction :=
  r <- GenericLOOPPM._fit_partial_predictions sk_fit np_linalg_inv fitted_ppm
         k "keep_k" blocks (Some y) ;;
  Ok (fst r).

(** C2 (counterexample). Block 0 has exactly one column, and its partial
    prediction is not the repeated intercept with the intercept as its
    parameter list: the parameters are an array. *)
Lemma one_column_block_is_not_intercept_only :
  GenericLOOPPM.fixed_intercept fitted_ppm = true
  /\ BlockPartitionedData.get_block_indices blocks 0 = Ok [0%Z]
  /\ ~ exists intercept p n,
        partial_predictions 0
        = Ok (GenericLOOPPM.np_repeat_each p n, ParamList [intercept]).
Proof.
  split; [reflexivity|]. split; [reflexivity|].
  intros (intercept & p & n & Hrun).
  vm_compute in Hrun. discriminate Hrun.
Qed.

Lemma fit_partial_predictions_by_width_witness :
  (exists preds params,
     partial_predictions 0 = Ok (preds, ParamArray params))
  /\ (exists x intercept,
        partial_predictions 1 = Ok (A1 (repeat x 4), ParamList [intercept])).
Proof.
  unfold partial_predictions. split.
  - destruct (fit_partial_predictions_by_width sk_fit np_linalg_inv
                fitted_ppm 0 "keep_k" blocks y [0%Z] X eq_refl eq_refl)
      as (-> & _ & _).
    eexists _, _. vm_compute. reflexivity.
  - destruct (fit_partial_predictions_by_width sk_fit np_linalg_inv
                fitted_ppm 1 "keep_k" blocks y [] (A2 (repeat [] 4))
                eq_refl eq_refl)
      as (-> & _ & _).
    eexists _, _. vm_compute. reflexivity.
Defined.

(** *** Runs of the scorer and of the ensemble *)

Definition gmdi_fit :=
  GMDI._fit_importance_scores (H := ppm_instance) np_std
    _generate_sample_indices _generate_unsampled_indices.

Definition gmdi (uses : nat -> bool) : GMDI.t GenericLOOPPM.t :=
  GMDI.__init__ (column_transformer uses (fun _ => F 1)) (loo_ppm Ridge)
    (ScoringFn r2_score) "keep_k" false false true false true.

(** A target of one column is scored. *)
Example single_target_is_scored :
  is_ok (gmdi_fit (gmdi (fun _ => true)) X y) = true.
Proof. vm_compute. reflexivity. Qed.

(** What the first part of the fit yields on the three-column target, and
    the first column of the target. *)
Definition split_Y3 : GMDI.t GenericLOOPPM.t * GMDI.split :=
  Eval vm_compute in
    match GMDI.blocked_train_test np_std _generate_sample_indices
            _generate_unsampled_indices (gmdi (fun _ => true)) X Y3 with
    | Ok ss => ss
    | Raise _ =>
        (gmdi (fun _ => true),
         GMDI.mk_split (BlockPartitionedData.mk 0 [])
           (BlockPartitionedData.mk 0 []) Y3 Y3)
    end.

Definition first_column : ndarray := A1 [F 1; F 3; F 2; F 6].

Lemma multitarget_fit_raises_witness :
  shape1 Y3 = Ok 3%nat
  /\ gmdi_fit (gmdi (fun _ => true)) X Y3
     = Raise (ValueError "too many values to unpack (expected 2)").
Proof.
  split; [reflexivity|]. unfold gmdi_fit.
  destruct (multitarget_fit_raises (H := ppm_instance) np_std
              _generate_sample_indices _generate_unsampled_indices
              (gmdi (fun _ => true)) X (as2d Y3) (fst split_Y3)
              (snd split_Y3))
    as (_ & _ & Hunpack).
  - vm_compute. reflexivity.
  - vm_compute. discriminate.
  - destruct (GMDI._fit_one_target (H := ppm_instance) (fst split_Y3)
                (GMDI.train_blocked_data (snd split_Y3)) first_column
                (GMDI.test_blocked_data (snd split_Y3)) first_column true)
      as [r|] eqn:Hr; [|exfalso; vm_compute in Hr; discriminate Hr].
    apply (Hunpack first_column first_column r);
      [vm_compute; reflexivity | vm_compute; reflexivity | exact Hr].
Defined.

Lemma empty_representation_scores_witness :
  exists self',
    GMDI.get_scores (H := ppm_instance) np_std _generate_sample_indices
      _generate_unsampled_indices (gmdi (fun _ => false))
      (Some X2) (Some y)
    = Ok (Some (A1 [NaN; NaN]), self')
    /\ GMDI.is_fitted self' = true.
Proof.
  edestruct (empty_representation_scores (H := ppm_instance) np_std
               _generate_sample_indices _generate_unsampled_indices
               (gmdi (fun _ => false)) (as2d X2) y)
    as (self' & _ & _ & Hfitted & Hscores).
  - vm_compute. reflexivity.
  - reflexivity.
  - exists self'. split; [exact (Hscores eq_refl) | exact Hfitted].
Defined.

Definition ensemble_scores (e : GMDIEnsemble.t BlockSumPPM.t)
  : result (option ndarray) :=
  r <- GMDIEnsemble.get_scores (H := BlockSumPPM.ppm) np_std
         _generate_sample_indices _generate_unsampled_indices e
         (Some X) (Some y) ;;
  Ok (fst r).

Definition members_scores (e : GMDIEnsemble.t BlockSumPPM.t)
  : result (list (option ndarray)) :=
  r <- GMDIEnsemble.member_scores (H := BlockSumPPM.ppm) np_std
         _generate_sample_indices _generate_unsampled_indices
         (GMDIEnsemble.gmdi_objects e) X y ;;
  Ok (map fst r).

(** C4 (counterexample). Three members fitted on the same data score the
    feature plus infinity, not-a-number and minus infinity: the ensemble
    score is not-a-number although two member scores are not. *)
Lemma opposite_infinities_average_to_nan :
  members_scores (ensemble (ScoringFn first_prediction_over_zero) 1 0 (-1))
  = Ok [Some (A1 [PInf]); Some (A1 [NaN]); Some (A1 [NInf])]
  /\ ensemble_scores (ensemble (ScoringFn first_prediction_over_zero) 1 0 (-1))
     = Ok (Some (A1 [NaN]))
  /\ ~ Forall (fun x => isnan x = true) [PInf; NaN; NInf].
Proof.
  split; [vm_compute; reflexivity|]. split; [vm_compute; reflexivity|].
  intros Hall. inversion Hall. discriminate.
Qed.

Lemma ensemble_scores_nanmean_witness :
  members_scores (ensemble (ScoringFn first_prediction) 2 0 4)
  = Ok [Some (A1 [Finite 2]); Some (A1 [NaN]); Some (A1 [Finite 4])]
  /\ exists v,
       ensemble_scores (ensemble (ScoringFn first_prediction) 2 0 4)
       = Ok (Some (A1 v))
       /\ Float.eqb (nth 0 v NaN) (Finite 3) = true.
Proof.
  split; [vm_compute; reflexivity|]. unfold ensemble_scores.
  edestruct (ensemble_scores_nanmean (H := BlockSumPPM.ppm) np_std
               _generate_sample_indices _generate_unsampled_indices
               (ensemble (ScoringFn first_prediction) 2 0 4) X y 4)
    with (rows := [[Finite 2]; [NaN]; [Finite 4]]) (d := 1%nat)
    as (v & self' & Hget & _ & Hcols).
  - reflexivity.
  - reflexivity.
  - reflexivity.
  - vm_compute. reflexivity.
  - vm_compute. reflexivity.
  - discriminate.
  - repeat constructor.
  - exists v. rewrite Hget. split; [reflexivity|].
    destruct (Hcols 0%nat (Nat.lt_0_1)) as (_ & _ & _ & Hthree).
    exact (Hthree eq_refl).
Defined.

End ImportanceRuns.

(* ===================================================================== *)
(** ** The marginal-shrinkage model: names, flags and shapes *)

Module MarginalShrinkageBehaviour.
Import MarginalShrinkage NpFacts MarginalShrinkageFacts.
Local Open Scope list_scope.

(** The estimator names of the dictionary in [_get_est_from_name], [None]
    apart. *)
Definition est_names : list string := ["ridge"; "ols"; "NNLS"; "None"].

Lemma get_est_unknown self name :
  ~ In name est_names ->
  _get_est_from_name self (Some name) = Raise (KeyError name).
Proof.
  intros Hn. unfold _get_est_from_name.
  destruct (String.eqb name "ridge") eqn:H1;
    [apply String.eqb_eq in H1; subst; exfalso; apply Hn; simpl; tauto|].
  destruct (String.eqb name "ols") eqn:H2;
    [apply String.eqb_eq in H2; subst; exfalso; apply Hn; simpl; tauto|].
  destruct (String.eqb name "NNLS") eqn:H3;
    [apply String.eqb_eq in H3; subst; exfalso; apply Hn; simpl; tauto|].
  destruct (String.eqb name "None") eqn:H4;
    [apply String.eqb_eq in H4; subst; exfalso; apply Hn; simpl; tauto|].
  reflexivity.
Qed.

Lemma get_est_known self name :
  In name est_names -> is_ok (_get_est_from_name self (Some name)) = true.
Proof.
  intros [<-|[<-|[<-|[<-|[]]]]]; reflexivity.
Qed.

Section Facts.

Variable scaler_fit : ndarray -> StandardScaler.
Variable sk_solve :
  estimator_kind -> ndarray -> ndarray -> option ndarray ->
  result (ndarray * float).

Local Abbreviation fit := (fit scaler_fit sk_solve).
Local Abbreviation fit_checks_and_center := (fit_checks_and_center scaler_fit).
Local Abbreviation _fit_marginal := (_fit_marginal sk_solve).
Local Abbreviation est_fit := (est_fit sk_solve).
Local Abbreviation library_contract := (library_contract scaler_fit sk_solve).

(** X1. The lookup of an estimator name returns exactly for the keys of the
    dictionary, and raises [KeyError] with the name otherwise; on data that
    pass the checks, [fit] with an [est_marginal_name] outside the
    dictionary raises that [KeyError], whatever the other parameters of
    the model. *)
Theorem fit_unknown_marginal_name
    (self : MarginalShrinkageLinearModel) (X y : ndarray)
    (w : option ndarray) (c : centered) (name : string) :
  fit_checks_and_center self X y w = Ok c ->
  est_marginal_name self = Some name ->
  ~ In name est_names ->
  fit self X y w = Raise (KeyError name)
  /\ (forall n, is_ok (_get_est_from_name self n) = true
                <-> n = None \/ exists s, n = Some s /\ In s est_names).
Proof.
  intros Hc Hname Hn. split.
  - unfold MarginalShrinkage.fit. rewrite Hc. cbn [Py.bind].
    unfold MarginalShrinkage._fit_marginal. rewrite Hname.
    rewrite (get_est_unknown _ _ Hn). reflexivity.
  - intros [s|]; split.
    + intros Hok. right. exists s. split; [reflexivity|].
      destruct (in_dec string_dec s est_names) as [Hin|Hout]; [exact Hin|].
      rewrite (get_est_unknown _ _ Hout) in Hok. discriminate.
    + intros [Hnone|(s' & [= <-] & Hin)]; [discriminate|].
      now apply get_est_known.
    + intros _. now left.
    + intros _. reflexivity.
Qed.

(** *** The sign constraint and the division by the number of features *)

Lemma sign_div_nat x d :
  Float.sign (Float.div x (Float.of_nat (S d))) = Float.sign x.
Proof.
  unfold Float.of_nat.
  destruct x as [a| | |]; cbn -[Z.of_nat]; try reflexivity.
  - unfold Float.sign, Float.sgn, Float.Qsgn. f_equal. f_equal.
    unfold Qdiv, Qinv, Qmult. cbn. now rewrite Z.mul_1_r.
Qed.

Lemma fit_checks_set_divide b self X y w :
  fit_checks_and_center (set_marginal_divide_by_d b self) X y w
  = fit_checks_and_center self X y w.
Proof. reflexivity. Qed.

(** With the flag on, [_fit_marginal] is the run with the flag off,
    followed by the division. *)
Lemma fit_marginal_then_divide self X y w :
  _fit_marginal (set_marginal_divide_by_d true self) X y w
  = (c <- _fit_marginal (set_marginal_divide_by_d false self) X y w ;;
     d <- shape1 X ;;
     np_div c (A0 (Float.of_nat d))).
Proof.
  unfold MarginalShrinkage._fit_marginal. rewrite !get_est_set_divide.
  cbn [marginal_divide_by_d set_marginal_divide_by_d est_marginal_name].
  destruct (_get_est_from_name self (est_marginal_name self)) as [est|];
    cbn [Py.bind]; [|reflexivity].
  destruct (shape1 X) as [d|] eqn:Hd; cbn [Py.bind]; [|reflexivity].
  match goal with |- Py.bind ?core _ = _ =>
    destruct core as [c'|e'] end; cbn [Py.bind]; reflexivity.
Qed.

(** The signs of the marginal coefficients do not change with the
    division. *)
Lemma marginal_signs_divided self m y w c :
  _fit_marginal (set_marginal_divide_by_d false self) (A2 m) y w = Ok c ->
  np_sign (map_elems (fun x => Float.div x (Float.of_nat (ncols m))) c)
  = np_sign c.
Proof.
  intros Hc. destruct (ncols m) as [|d] eqn:Hd.
  - revert Hc. unfold MarginalShrinkage._fit_marginal.
    rewrite get_est_set_divide.
    cbn [marginal_divide_by_d set_marginal_divide_by_d est_marginal_name
         shape1 Py.bind].
    rewrite Hd.
    destruct (_get_est_from_name self (est_marginal_name self)) as [[est|]|];
      cbn [Py.bind seq map_result vstack map concat]; try discriminate.
    intros [= <-]. reflexivity.
  - unfold np_sign.
    destruct c as [x|v|rows]; cbn [map_elems]; f_equal.
    + apply sign_div_nat.
    + rewrite map_map. apply map_ext. intros x. apply sign_div_nat.
    + rewrite map_map. apply map_ext. intros r. rewrite map_map.
      apply map_ext. intros x. apply sign_div_nat.
Qed.

(** X2. With [marginal_sign_constraint=True] the flag [marginal_divide_by_d]
    has no effect on the main estimator: the fit with the flag on returns
    exactly when the fit with the flag off does, the two fitted main
    estimators, coefficients included, are the same, and when the fits
    raise they raise the same exception. *)
Theorem sign_constraint_ignores_divide_by_d
    (self : MarginalShrinkageLinearModel) (X y : ndarray)
    (w : option ndarray) :
  marginal_sign_constraint self = true ->
  match fit (set_marginal_divide_by_d true self) X y w,
        fit (set_marginal_divide_by_d false self) X y w with
  | Ok m1, Ok m0 => est_main_ m1 = est_main_ m0
  | Raise e1, Raise e0 => e1 = e0
  | _, _ => False
  end.
Proof.
  intros Hsign. unfold MarginalShrinkage.fit.
  rewrite !fit_checks_set_divide.
  destruct (fit_checks_and_center self X y w) as [c|]; cbn [Py.bind];
    [|reflexivity].
  rewrite fit_marginal_then_divide.
  destruct (_fit_marginal (set_marginal_divide_by_d false self) (c_X c)
              (c_y c) (c_sample_weight c)) as [cm0|] eqn:Hcm0;
    cbn [Py.bind]; [|reflexivity].
  pose proof (fit_marginal_off_rect _ _ _ _ _ _ Hcm0) as Hrect.
  destruct (c_X c) as [x|v|m] eqn:HX.
  1,2: exfalso; revert Hcm0; unfold MarginalShrinkage._fit_marginal;
    destruct (_get_est_from_name _ _); cbn [Py.bind shape1]; discriminate.
  cbn [shape1 Py.bind].
  unfold np_div at 1. rewrite broadcast2_scalar_r by exact Hrect.
  cbn [Py.bind]. rewrite !get_est_set_divide.
  cbn [marginal_sign_constraint est_main_name set_marginal_divide_by_d].
  rewrite Hsign.
  destruct (_get_est_from_name self (est_main_name self)) as [em|];
    cbn [Py.bind]; [|reflexivity].
  destruct (negb match est_main_name self with
                 | Some name => String.eqb name "NNLS"
                 | None => false
                 end); [reflexivity|].
  rewrite (marginal_signs_divided _ _ _ _ _ Hcm0).
  destruct (np_mul (A2 m) (np_sign cm0)) as [X'|]; cbn [Py.bind];
    [|reflexivity].
  destruct em as [est|]; [|reflexivity].
  destruct (est_fit est X' (c_y c) (Some (c_sample_weight c))) as [est'|];
    cbn [Py.bind]; [|reflexivity].
  destruct (get_coef est') as [c0|]; cbn [Py.bind]; [|reflexivity].
  destruct (np_mul c0 (np_sign cm0)) as [c1|]; cbn [Py.bind];
    reflexivity.
Qed.

(** *** No marginal estimator *)

Definition is_zero (x : float) : Prop := Float.eqb x Float.zero = true.

Lemma sign_zero_is_zero x : Float.sign x = Float.zero -> is_zero x.
Proof.
  destruct x as [[n d]| | |]; try discriminate.
  unfold Float.sign, Float.sgn, Float.Qsgn, Float.zero, is_zero. cbn.
  intros [= Hs]. destruct n; try discriminate. reflexivity.
Qed.

Lemma sign_zero_div_nat d :
  Float.sign (Float.div Float.zero (Float.of_nat (S d))) = Float.zero.
Proof. now rewrite sign_div_nat. Qed.

(** Without a marginal estimator the marginal coefficients are a vector of
    one zero per feature, with the flag [marginal_divide_by_d] or without
    it. *)
Lemma fit_marginal_absent self m y w cm :
  _get_est_from_name self (est_marginal_name self) = Ok None ->
  _fit_marginal self (A2 m) y w = Ok cm ->
  exists v, cm = A1 v /\ length v = ncols m
            /\ Forall is_zero v
            /\ Forall (fun x => Float.sign x = Float.zero) v.
Proof.
  intros Hnone. unfold MarginalShrinkage._fit_marginal. rewrite Hnone.
  cbn [Py.bind shape1]. unfold zeros.
  destruct (marginal_divide_by_d self).
  - unfold np_div. rewrite broadcast2_scalar_r by exact I.
    intros [= <-]. cbn [map_elems]. eexists. split; [reflexivity|].
    rewrite length_map, repeat_length. split; [reflexivity|].
    destruct (ncols m) as [|d]; [split; constructor|].
    assert (Hs : Forall (fun x => Float.sign x = Float.zero)
                   (map (fun x => Float.div x (Float.of_nat (S d)))
                      (repeat Float.zero (S d)))).
    { apply Forall_map. apply List.Forall_forall. intros x Hx.
      apply repeat_spec in Hx. subst x. apply sign_zero_div_nat. }
    split; [|exact Hs].
    eapply List.Forall_impl; [|exact Hs]. intros x. apply sign_zero_is_zero.
  - intros [= <-]. eexists. split; [reflexivity|].
    rewrite repeat_length. split; [reflexivity|].
    split; apply List.Forall_forall; intros x Hx; apply repeat_spec in Hx;
      subst x; reflexivity.
Qed.

Lemma same_sign_as_zero f m :
  Float.sign m = Float.zero -> same_sign_or_zero f m -> is_zero f.
Proof.
  intros Hm [Hs|Hz]; [|exact Hz].
  apply sign_zero_is_zero. congruence.
Qed.

(** X3. With [marginal_sign_constraint=True] and no marginal estimator
    ([est_marginal_name] is [None] or "None"), every coefficient of a
    model that [fit] returns is zero: the signs of the zero marginal
    coefficients are zero, and they multiply the features and the
    coefficients. *)
Theorem sign_constraint_without_marginal
    (self : MarginalShrinkageLinearModel) (X y : ndarray)
    (w : option ndarray) (self' : MarginalShrinkageLinearModel) :
  library_contract ->
  marginal_sign_constraint self = true ->
  _get_est_from_name self (est_marginal_name self) = Ok None ->
  fit self X y w = Ok self' ->
  exists est coef,
    est_main_ self' = Some est
    /\ coef_ est = Some coef
    /\ Forall is_zero (ravel coef).
Proof.
  intros HL Hsign Hnone Hfit. unfold MarginalShrinkage.fit in Hfit.
  bind_case Hfit as c Hc. bind_case Hfit as cm Hcm. bind_case Hfit as em Hem.
  rewrite Hsign in Hfit.
  destruct (est_main_name self) as [name|] eqn:Hname; [|discriminate].
  destruct (String.eqb name "NNLS") eqn:Hnnls; cbn [negb] in Hfit;
    [|discriminate].
  apply String.eqb_eq in Hnnls. subst name. cbn in Hem. injection Hem as <-.
  destruct (checks_and_center_shape _ _ _ _ _ _ _ HL Hc)
    as (m & HX & Hne & Hd & Hr).
  rewrite HX in Hcm, Hfit.
  destruct (fit_marginal_absent _ _ _ _ _ Hnone Hcm)
    as (v & -> & Hv & _ & Hzero).
  pose proof (fit_marginal_shape _ _ _ _ _ _ _ HL Hne Hd Hcm) as Hshape.
  destruct (sign_branch _ _ self m (c_y c) (c_sample_weight c) (A1 v)
              (Finite (1 # 10000000000)) false (alphas self) 10000%Z
              HL Hne Hd Hr Hshape) as (X' & HX' & Hrest).
  rewrite HX' in Hfit. cbn [Py.bind] in Hfit.
  bind_case Hfit as est Hest.
  destruct (Hrest est eq_refl) as (coef & Hcoef & Hs).
  destruct (get_coef est) as [c0|] eqn:Hc0; cbn [Py.bind] in Hcoef, Hfit;
    [|discriminate].
  rewrite Hcoef in Hfit. cbn [Py.bind] in Hfit. injection Hfit as <-.
  cbn [est_main_ set_fitted set_coef coef_].
  exists (set_coef est coef), coef.
  split; [reflexivity|]. split; [reflexivity|].
  cbn [ravel] in Hs. clear -Hs Hzero.
  revert Hzero. induction Hs as [|f m0 fs ms Hfm _ IH]; intros Hz;
    constructor.
  - inversion Hz; subst. eapply same_sign_as_zero; eassumption.
  - apply IH. now inversion Hz.
Qed.

(** X4. Without a marginal estimator [_fit_marginal] always returns, for a
    single feature as for several: a vector of one zero per feature, with
    which the product [X @ coef_marginal_] of the standard path is
    defined. *)
Theorem no_marginal_estimator_vector
    (self : MarginalShrinkageLinearModel) (X y : ndarray)
    (w : option ndarray) (c : centered) :
  library_contract ->
  fit_checks_and_center self X y w = Ok c ->
  _get_est_from_name self (est_marginal_name self) = Ok None ->
  exists v d,
    _fit_marginal self (c_X c) (c_y c) (c_sample_weight c) = Ok (A1 v)
    /\ shape1 (c_X c) = Ok d
    /\ length v = d
    /\ Forall is_zero v
    /\ is_ok (matmul (c_X c) (A1 v)) = true.
Proof.
  intros HL Hc Hnone.
  destruct (checks_and_center_shape _ _ _ _ _ _ _ HL Hc)
    as (m & HX & Hne & Hd & Hr).
  rewrite HX.
  destruct (_fit_marginal self (A2 m) (c_y c) (c_sample_weight c))
    as [cm|e] eqn:Hcm.
  - destruct (fit_marginal_absent _ _ _ _ _ Hnone Hcm)
      as (v & -> & Hv & Hzero & _).
    exists v, (ncols m). repeat split; try assumption.
    cbn [matmul]. rewrite Hv, Nat.eqb_refl. reflexivity.
  - exfalso. revert Hcm. unfold MarginalShrinkage._fit_marginal.
    rewrite Hnone. cbn [Py.bind shape1].
    destruct (marginal_divide_by_d self); [|discriminate].
    unfold np_div, zeros. rewrite broadcast2_scalar_r by exact I.
    discriminate.
Qed.

(** *** The shape of a prediction *)

Lemma broadcast2_ndim f a b r :
  broadcast2 f a b = Ok r -> ndim r = Nat.max (ndim a) (ndim b).
Proof.
  unfold broadcast2.
  destruct (bdim _ _); [|discriminate]. destruct (bdim _ _); [|discriminate].
  intros [= <-]. destruct a, b; reflexivity.
Qed.

(** A matrix broadcast against a scalar or a vector keeps its rows. *)
Lemma broadcast2_matrix_rows f m b r :
  ndim b <> 2%nat ->
  broadcast2 f (A2 m) b = Ok r ->
  exists M, r = A2 M /\ nrows M = nrows m.
Proof.
  intros Hb. unfold broadcast2. cbn [as2d].
  assert (Hrow : exists vb, as2d b = [vb]).
  { destruct b as [x|v|m']; [now exists [x] | now exists v |].
    exfalso. now apply Hb. }
  destruct Hrow as (vb & ->). change (nrows [vb]) with 1%nat.
  rewrite bdim_1_r. destruct (bdim _ _) as [cdim|]; [|discriminate].
  intros [= <-]. cbn [ndim].
  replace (Nat.max 2 (ndim b)) with 2%nat
    by (destruct b; [reflexivity | reflexivity | exfalso; now apply Hb]).
  cbn [of2d]. eexists. split; [reflexivity|]. unfold nrows.
  rewrite stretch_length, map2_repeat_r.
  apply length_map.
Qed.

(** The y-scaler of a fitted model holds one mean and one scale. *)
Lemma checks_scaler_y self X y w c sy :
  library_contract ->
  fit_checks_and_center self X y w = Ok c ->
  c_scalar_y c = Some sy ->
  length (scale_ sy) = 1%nat /\ length (mean_ sy) = 1%nat.
Proof.
  intros HL H Hsy. unfold MarginalShrinkage.fit_checks_and_center in H.
  bind_case H as Xy E. apply check_X_y_shape in E.
  destruct E as (m & v & -> & Hne & Hd & Hr & Hn). cbn [fst snd] in H.
  bind_case H as sw Esw. bind_case H as X1 EX.
  destruct (is_regressor self).
  - bind_case H as y' Ey. injection H as <-. cbn [c_scalar_y] in Hsy.
    injection Hsy as <-. unfold reshape_col. cbn [ravel].
    destruct (scaler_shape _ _ HL (map (fun x => [x]) v)) as [Hm Hs].
    assert (Hc1 : ncols (map (fun x : float => [x]) v) = 1%nat).
    { destruct v as [|x v]; [|reflexivity].
      destruct m; [congruence|discriminate]. }
    split; congruence.
  - injection H as <-. discriminate.
Qed.

(** What [fit] leaves in the model: a main estimator whose coefficients
    are a vector or 0-dimensional, and an intercept. *)
Lemma fitted_model_shape self X y w self' :
  library_contract ->
  fit self X y w = Ok self' ->
  (exists c, fit_checks_and_center self X y w = Ok c
             /\ scalar_X_ self' = Some (c_scalar_X c)
             /\ scalar_y_ self' = c_scalar_y c)
  /\ exists est coef b,
       est_main_ self' = Some est /\ coef_ est = Some coef
       /\ intercept_ est = Some b /\ (ndim coef <= 1)%nat.
Proof.
  intros HL Hfit. unfold MarginalShrinkage.fit in Hfit.
  bind_case Hfit as c Hc. bind_case Hfit as cm Hcm. bind_case Hfit as em Hem.
  destruct (checks_and_center_shape _ _ _ _ _ _ _ HL Hc)
    as (m & HX & Hne & Hd & Hr).
  rewrite HX in Hcm, Hfit.
  assert (Hcmdim : (ndim cm <= 1)%nat).
  { destruct (fit_marginal_shape _ _ _ _ _ _ _ HL Hne Hd Hcm)
      as [(v & -> & _)|(_ & x & ->)]; cbn; lia. }
  assert (Hsolve : forall est Xm ys ws est' c0,
            est_fit est (A2 Xm) ys ws = Ok est' ->
            get_coef est' = Ok c0 ->
            ndim c0 = 1%nat /\ exists b, intercept_ est' = Some b).
  { intros est Xm ys ws est' c0 Hest Hc0.
    unfold MarginalShrinkage.est_fit in Hest. bind_case Hest as cb Hs.
    injection Hest as <-. cbn in Hc0. injection Hc0 as <-.
    destruct cb as [c1 b1].
    destruct (solve_shape _ _ HL _ _ _ _ _ _ Hs) as (u & -> & _).
    split; [reflexivity|]. eexists. reflexivity. }
  split.
  { exists c. split; [reflexivity|].
    destruct (marginal_sign_constraint self).
    - destruct (negb _); [discriminate|].
      bind_case Hfit as X' HX'. destruct em as [est|]; [|discriminate].
      bind_case Hfit as est' Hest. bind_case Hfit as c0 Hc0.
      bind_case Hfit as c1 Hc1. injection Hfit as <-. split; reflexivity.
    - destruct em as [est|].
      + bind_case Hfit as pm Hpm. bind_case Hfit as res Hres.
        bind_case Hfit as est' Hest. bind_case Hfit as c0 Hc0.
        bind_case Hfit as c1 Hc1. injection Hfit as <-. split; reflexivity.
      + bind_case Hfit as X5 HX5. bind_case Hfit as y5 Hy5.
        bind_case Hfit as est' Hest. injection Hfit as <-.
        split; reflexivity. }
  destruct (marginal_sign_constraint self).
  - destruct (negb _); [discriminate|].
    bind_case Hfit as X' HX'. destruct em as [est|]; [|discriminate].
    bind_case Hfit as est' Hest. bind_case Hfit as c0 Hc0.
    bind_case Hfit as c1 Hc1. injection Hfit as <-.
    unfold np_mul in HX'.
    assert (Hsdim : ndim (np_sign cm) <> 2%nat)
      by (destruct cm; cbn in *; lia).
    destruct (broadcast2_matrix_rows _ _ _ _ Hsdim HX') as (M & -> & _).
    destruct (Hsolve _ _ _ _ _ _ Hest Hc0) as (Hd0 & b & Hb).
    exists (set_coef est' c1), c1, b.
    cbn [est_main_ set_fitted set_coef coef_ intercept_].
    repeat split; try assumption.
    apply broadcast2_ndim in Hc1. rewrite Hc1, Hd0.
    destruct cm; cbn in *; lia.
  - destruct em as [est|].
    + bind_case Hfit as pm Hpm. bind_case Hfit as res Hres.
      bind_case Hfit as est' Hest. bind_case Hfit as c0 Hc0.
      bind_case Hfit as c1 Hc1. injection Hfit as <-.
      destruct (Hsolve _ _ _ _ _ _ Hest Hc0) as (Hd0 & b & Hb).
      exists (set_coef est' c1), c1, b.
      cbn [est_main_ set_fitted set_coef coef_ intercept_].
      repeat split; try assumption.
      apply broadcast2_ndim in Hc1. rewrite Hc1, Hd0.
      destruct cm; cbn in *; lia.
    + bind_case Hfit as X5 HX5. bind_case Hfit as y5 Hy5.
      bind_case Hfit as est' Hest. injection Hfit as <-.
      unfold MarginalShrinkage.est_fit in Hest. bind_case Hest as cb Hs.
      injection Hest as <-.
      eexists _, cm, _. cbn [est_main_ set_fitted set_coef coef_ intercept_].
      repeat split. exact Hcmdim.
Qed.

(** X5. A fitted model predicts one value per row, and squeezes the result:
    for a single row the prediction is a 0-dimensional array, not a vector
    of length one; for two rows or more it is a vector of that length. *)
Theorem predict_output_shape
    (self : MarginalShrinkageLinearModel) (X y : ndarray)
    (w : option ndarray) (self' : MarginalShrinkageLinearModel)
    (rows : matrix) (p : ndarray) :
  library_contract ->
  fit self X y w = Ok self' ->
  predict self' (A2 rows) = Ok p ->
  (nrows rows = 1%nat -> ndim p = 0%nat)
  /\ ((2 <= nrows rows)%nat ->
      exists v, p = A1 v /\ length v = nrows rows).
Proof.
  intros HL Hfit Hp.
  destruct (fitted_model_shape _ _ _ _ _ HL Hfit)
    as ((c & Hc & Hsx & Hsy) & est & coef & b & Hest & Hcoef & Hb & Hdim).
  unfold predict in Hp. rewrite Hsx, Hest in Hp.
  bind_case Hp as Xs HXs.
  unfold transform in HXs. bind_case HXs as X0 HX0.
  unfold np_sub in HX0. unfold np_div in HXs.
  assert (Hvdim : forall v, ndim (A1 v) <> 2%nat) by discriminate.
  destruct (broadcast2_matrix_rows _ _ _ _ (Hvdim _) HX0) as (M0 & -> & Hn0).
  destruct (broadcast2_matrix_rows _ _ _ _ (Hvdim _) HXs) as (M & -> & Hn).
  bind_case Hp as pred Hpred.
  destruct (scalar_y_ self') as [sy|]; [|discriminate].
  symmetry in Hsy.
  destruct (checks_scaler_y _ _ _ _ _ _ HL Hc Hsy) as [Hscale Hmean].
  bind_case Hp as out Hout. injection Hp as <-.
  (* the linear prediction is a vector of one entry per row *)
  assert (Hvec : exists u, pred = A1 u /\ length u = nrows rows).
  { unfold est_predict in Hpred. rewrite Hcoef, Hb in Hpred.
    destruct coef as [x|v|m2]; cbn [ndim] in Hdim; [| |lia].
    - cbn in Hpred. discriminate.
    - cbn [ndim Nat.eqb matmul] in Hpred.
      destruct (Nat.eqb (ncols M) (length v)); cbn [Py.bind] in Hpred;
        [|discriminate].
      unfold np_add in Hpred. rewrite broadcast2_scalar_r in Hpred by exact I.
      injection Hpred as <-. cbn [map_elems]. eexists. split; [reflexivity|].
      rewrite !length_map. unfold nrows in *. congruence. }
  destruct Hvec as (u & -> & Hu).
  unfold inverse_transform, reshape_col in Hout. cbn [ravel] in Hout.
  destruct (scale_ sy) as [|s [|s' ss]]; try discriminate.
  destruct (mean_ sy) as [|mu [|mu' mus]]; try discriminate.
  destruct u as [|x0 u]; [cbn in Hu; split; intros; lia|].
  unfold np_mul in Hout.
  rewrite broadcast2_rows in Hout;
    [|exact (all_length_singletons (x0 :: u)) |reflexivity].
  cbn [Py.bind] in Hout. rewrite map_map in Hout. cbn [map2] in Hout.
  unfold np_add in Hout.
  rewrite broadcast2_rows in Hout;
    [|cbn; clear; induction u; cbn; auto |reflexivity].
  injection Hout as <-. rewrite map_map. cbn [map2].
  unfold squeeze, nrows, ncols. cbn [map length]. rewrite !length_map.
  cbn [length] in Hu. unfold nrows in Hu. rewrite <- Hu.
  destruct u as [|x1 u]; cbn [length Nat.eqb].
  - split; [reflexivity | lia].
  - split; [discriminate|]. intros _. eexists. split; [reflexivity|].
    unfold column. cbn [map length]. now rewrite !length_map.
Qed.

End Facts.

(** *** Runs on data *)

Lemma fit_unknown_marginal_name_witness :
  run_fit (Toy.regressor (Some "lasso") (Some "ridge") true false)
    Toy.X2 Toy.y2
  = Raise (KeyError "lasso").
Proof.
  unfold run_fit.
  eapply (fit_unknown_marginal_name Toy.centring_scaler Toy.columnwise_solve).
  - lazy. reflexivity.
  - reflexivity.
  - intros [H|[H|[H|[H|[]]]]]; discriminate H.
Defined.

Lemma sign_constraint_ignores_divide_by_d_witness :
  exists m1 m0,
    run_fit (Toy.regressor (Some "ridge") (Some "NNLS") true true)
      Toy.X3 Toy.y3 = Ok m1
    /\ run_fit (Toy.regressor (Some "ridge") (Some "NNLS") false true)
         Toy.X3 Toy.y3 = Ok m0
    /\ est_main_ m1 = est_main_ m0.
Proof.
  pose proof (sign_constraint_ignores_divide_by_d
                Toy.centring_scaler Toy.columnwise_solve
                (Toy.regressor (Some "ridge") (Some "NNLS") true true)
                Toy.X3 Toy.y3 None eq_refl) as H.
  unfold run_fit.
  change (Toy.regressor (Some "ridge") (Some "NNLS") true true)
    with (set_marginal_divide_by_d true
            (Toy.regressor (Some "ridge") (Some "NNLS") true true)) at 1.
  change (Toy.regressor (Some "ridge") (Some "NNLS") false true)
    with (set_marginal_divide_by_d false
            (Toy.regressor (Some "ridge") (Some "NNLS") true true)).
  destruct (fit Toy.centring_scaler Toy.columnwise_solve
              (set_marginal_divide_by_d true _) Toy.X3 Toy.y3 None)
    as [m1|] eqn:H1; [|exfalso; vm_compute in H1; discriminate H1].
  destruct (fit Toy.centring_scaler Toy.columnwise_solve
              (set_marginal_divide_by_d false _) Toy.X3 Toy.y3 None)
    as [m0|]; [|contradiction].
  exists m1, m0. repeat split. exact H.
Defined.

Lemma sign_constraint_without_marginal_witness :
  exists self' est coef,
    run_fit (Toy.regressor None (Some "NNLS") true true) Toy.X3 Toy.y3
    = Ok self'
    /\ est_main_ self' = Some est
    /\ coef_ est = Some coef
    /\ Forall is_zero (ravel coef).
Proof.
  unfold run_fit.
  destruct (fit Toy.centring_scaler Toy.columnwise_solve
              (Toy.regressor None (Some "NNLS") true true) Toy.X3 Toy.y3 None)
    as [self'|] eqn:Hfit; [|exfalso; vm_compute in Hfit; discriminate Hfit].
  destruct (sign_constraint_without_marginal
              Toy.centring_scaler Toy.columnwise_solve
              (Toy.regressor None (Some "NNLS") true true)
              Toy.X3 Toy.y3 None self'
              toy_contract eq_refl eq_refl Hfit) as (est & coef & H1 & H2 & H3).
  exists self', est, coef. repeat split; assumption.
Defined.

(** One feature and no marginal estimator. *)
Lemma no_marginal_estimator_vector_witness :
  exists c v,
    fit_checks_and_center Toy.centring_scaler
      (Toy.regressor None (Some "ridge") true false) Toy.X1 Toy.y1 None
    = Ok c
    /\ _fit_marginal Toy.columnwise_solve
         (Toy.regressor None (Some "ridge") true false)
         (c_X c) (c_y c) (c_sample_weight c) = Ok (A1 v)
    /\ length v = 1%nat
    /\ is_ok (matmul (c_X c) (A1 v)) = true.
Proof.
  destruct (fit_checks_and_center Toy.centring_scaler
              (Toy.regressor None (Some "ridge") true false)
              Toy.X1 Toy.y1 None)
    as [c|] eqn:Hc; [|exfalso; vm_compute in Hc; discriminate Hc].
  destruct (no_marginal_estimator_vector
              Toy.centring_scaler Toy.columnwise_solve
              (Toy.regressor None (Some "ridge") true false)
              Toy.X1 Toy.y1 None c
              toy_contract Hc eq_refl) as (v & d & H1 & H2 & H3 & _ & H5).
  exists c, v. repeat split; try assumption.
  rewrite H3. revert Hc H2. clear.
  intros Hc. vm_compute in Hc. injection Hc as <-. now intros [= <-].
Defined.

Lemma predict_output_shape_witness :
  exists self' p,
    run_fit (Toy.regressor (Some "ridge") (Some "ridge") true false)
      Toy.X2 Toy.y2 = Ok self'
    /\ predict self' (A2 [[Toy.F 1; Toy.F 1]]) = Ok p
    /\ ndim p = 0%nat.
Proof.
  unfold run_fit.
  destruct (fit Toy.centring_scaler Toy.columnwise_solve
              (Toy.regressor (Some "ridge") (Some "ridge") true false)
              Toy.X2 Toy.y2 None)
    as [self'|] eqn:Hfit; [|exfalso; vm_compute in Hfit; discriminate Hfit].
  destruct (predict self' (A2 [[Toy.F 1; Toy.F 1]])) as [p|] eqn:Hp.
  - destruct (predict_output_shape
                Toy.centring_scaler Toy.columnwise_solve _ _ _ _ _ _ _
                toy_contract Hfit Hp) as [H1 _].
    exists self', p. split; [reflexivity|].
    split; [exact Hp | exact (H1 eq_refl)].
  - exfalso. revert Hfit Hp. clear. intros Hfit.
    vm_compute in Hfit. injection Hfit as <-. intros Hp.
    vm_compute in Hp. discriminate Hp.
Defined.

End MarginalShrinkageBehaviour.

(* ===================================================================== *)
(** ** The leave-one-out calculator: trimming and the choice of alpha *)

Module GlmAlooCalculatorBehaviour.
Import Importance NpFacts GlmAlooCalculatorFacts.
Import GlmAlooCalculator.
Local Open Scope list_scope.

(** *** Trimming *)

Lemma ltb_finite a b : Float.ltb (Finite a) (Finite b) = true <-> (a < b)%Q.
Proof.
  cbn [Float.ltb]. rewrite negb_true_iff.
  destruct (Qle_bool b a) eqn:E.
  - apply Qle_bool_iff in E. split; [discriminate|]. intros H.
    exfalso. revert H. apply Qle_not_lt. exact E.
  - split; [|reflexivity]. intros _. apply Qnot_le_lt. intros H.
    apply Qle_bool_iff in H. congruence.
Qed.

Lemma ltb_finite_false a b :
  Float.ltb (Finite a) (Finite b) = false <-> (b <= a)%Q.
Proof.
  cbn [Float.ltb]. rewrite negb_false_iff. apply Qle_bool_iff.
Qed.

(** What [np.clip] does to one entry, for limits [t] and [1 - t] with
    [0 < t < 0.5]: not-a-number stays, and every other entry lands between
    the limits, unchanged when it was there. *)
Definition trimmed (t x x' : float) : Prop :=
  if isnan x then x' = NaN
  else isnan x' = false
       /\ Float.ltb x' t = false
       /\ Float.ltb (Float.sub Float.one t) x' = false
       /\ (Float.ltb x t = false ->
           Float.ltb (Float.sub Float.one t) x = false -> x' = x).

Lemma clip_trimmed t x :
  Float.ltb Float.zero t = true -> Float.ltb t (Finite (1 # 2)) = true ->
  trimmed t x (Float.clip t (Float.sub Float.one t) x).
Proof.
  intros H0 H1. destruct t as [q| | |]; try discriminate.
  apply ltb_finite in H0, H1.
  assert (Hq : (q <= 1 + - q)%Q) by lra.
  unfold trimmed, Float.clip, Float.sub, Float.neg, Float.add, Float.one.
  destruct x as [a| | |]; cbn [isnan].
  - unfold Float.maximum. cbn [isnan].
    destruct (Float.ltb (Finite a) (Finite q)) eqn:Ea.
    + unfold Float.minimum. cbn [isnan].
      assert (E : Float.ltb (Finite (1 + - q)) (Finite q) = false)
        by now apply ltb_finite_false.
      rewrite E. repeat split; [apply ltb_finite_false; lra | exact E |].
      discriminate.
    + unfold Float.minimum. cbn [isnan].
      destruct (Float.ltb (Finite (1 + - q)) (Finite a)) eqn:Eb.
      * repeat split; [now apply ltb_finite_false
                      | apply ltb_finite_false; lra |].
        discriminate.
      * repeat split; assumption.
  - cbn. repeat split; try (apply ltb_finite_false; lra). discriminate.
  - assert (E : Float.ltb (Finite (1 + - q)) (Finite q) = false)
      by now apply ltb_finite_false.
    unfold Float.maximum, Float.minimum. cbn [isnan].
    change (Float.ltb NInf (Finite q)) with true. cbv iota.
    rewrite E. cbn [isnan]. split; [reflexivity|].
    split; [apply ltb_finite_false; lra|]. split; [exact E|].
    intros Hc. discriminate Hc.
  - reflexivity.
Qed.

Lemma ravel_map_elems f a : ravel (map_elems f a) = map f (ravel a).
Proof.
  destruct a as [x|v|m]; cbn [map_elems ravel map]; try reflexivity.
  induction m as [|r m IH]; cbn [map concat]; [reflexivity|].
  now rewrite IH, map_app.
Qed.

(** X7. [_trim_values], of which the calculator and the partial prediction
    models each hold a copy: with a limit [t] the call returns exactly when
    [0 < t < 0.5], and raises the assertion error otherwise; the array it
    returns has the shape of its argument, with every entry trimmed to
    [[t, 1 - t]]. *)
Theorem trim_values_range
    (self : t) (values : ndarray) (limit : float) :
  trim self = Some limit ->
  match _trim_values self values with
  | Ok v =>
      Float.ltb Float.zero limit = true
      /\ Float.ltb limit (Finite (1 # 2)) = true
      /\ ndim v = ndim values
      /\ Forall2 (trimmed limit) (ravel values) (ravel v)
  | Raise e =>
      e = AssertionError "Limit must be between 0 and 0.5"
      /\ (Float.ltb Float.zero limit && Float.ltb limit (Finite (1 # 2))
          = false)
  end.
Proof.
  intros Ht. unfold _trim_values. rewrite Ht.
  destruct (Float.ltb Float.zero limit) eqn:H0; cbn [andb];
    [|split; reflexivity].
  destruct (Float.ltb limit (Finite (1 # 2))) eqn:H1; [|split; reflexivity].
  split; [reflexivity|]. split; [reflexivity|]. split.
  - destruct values; reflexivity.
  - unfold np_clip. rewrite ravel_map_elems.
    induction (ravel values) as [|x l IH]; cbn [map]; constructor;
      [now apply clip_trimmed | exact IH].
Qed.

Section Facts.

Variable sk_fit :
  Estimator.t -> option ndarray -> option ndarray -> result Estimator.t.
Variable np_linalg_inv : ndarray -> result ndarray.

Local Abbreviation get_aloo_fitted_parameters :=
  (get_aloo_fitted_parameters sk_fit np_linalg_inv).
Local Abbreviation cv_score := (cv_score sk_fit np_linalg_inv).
Local Abbreviation get_aloocv_alpha := (get_aloocv_alpha sk_fit np_linalg_inv).

(** A caching call that returns leaves the matrix it returns in the
    cache. *)
Lemma aloo_cache_filled self X y alpha p self' ws :
  get_aloo_fitted_parameters self X y alpha true = Ok (p, self', ws) ->
  loo_fitted_parameters self' = Some p.
Proof.
  unfold GlmAlooCalculator.get_aloo_fitted_parameters.
  destruct (loo_fitted_parameters self) eqn:Hp.
  - intros [= <- <- _]. exact Hp.
  - destruct (set_regularization self alpha) as [sa|]; cbn [Py.bind];
      [|discriminate].
    destruct (aloo_parameters sk_fit np_linalg_inv (fst sa) X y (snd sa));
      cbn [Py.bind]; [|discriminate].
    intros [= <- <- _]. reflexivity.
Qed.

(** *** The choice of alpha *)

(** What a call without [cache] leaves of the calculator: everything but
    the regularization parameter of its estimator. *)
Definition untouched (self self' : t) : Prop :=
  alpha_grid self' = alpha_grid self
  /\ loo_fitted_parameters self' = loo_fitted_parameters self
  /\ Estimator.coef_ (estimator self') = Estimator.coef_ (estimator self)
  /\ Estimator.intercept_ (estimator self')
     = Estimator.intercept_ (estimator self).

Lemma untouched_refl self : untouched self self.
Proof. repeat split. Qed.

Lemma untouched_trans s1 s2 s3 :
  untouched s1 s2 -> untouched s2 s3 -> untouched s1 s3.
Proof.
  intros (A1 & B1 & C1 & D1) (A2 & B2 & C2 & D2).
  repeat split; congruence.
Qed.

Lemma uncached_call_untouched self X y alpha p self' ws :
  get_aloo_fitted_parameters self X y alpha false = Ok (p, self', ws) ->
  untouched self self'.
Proof.
  unfold GlmAlooCalculator.get_aloo_fitted_parameters.
  destruct (loo_fitted_parameters self) eqn:Hp.
  - intros [= _ <- _]. apply untouched_refl.
  - destruct (set_regularization self alpha) as [sa|] eqn:Hsa;
      cbn [Py.bind]; [|discriminate].
    destruct (aloo_parameters sk_fit np_linalg_inv (fst sa) X y (snd sa));
      cbn [Py.bind]; [|discriminate].
    intros [= _ <- _]. revert Hsa. unfold set_regularization.
    destruct (hasattr (Estimator.alpha (estimator self))).
    + intros [= <-]. repeat split.
    + destruct (hasattr (Estimator.C (estimator self))).
      * destruct alpha; cbn; [|discriminate]. intros [= <-]. repeat split.
      * intros [= <-]. repeat split.
Qed.

Lemma cv_score_untouched X y alpha self cs ws self' cs' ws' :
  cv_score X y alpha (self, cs, ws) = Ok (self', cs', ws') ->
  untouched self self' /\ length cs' = S (length cs).
Proof.
  unfold GlmAlooCalculator.cv_score.
  destruct (get_aloo_fitted_parameters self (Some X) (Some y) (Some alpha)
              false) as [[[p s1] ws1]|] eqn:Hget; cbn [Py.bind];
    [|discriminate].
  apply uncached_call_untouched in Hget.
  repeat match goal with
         | |- Py.bind ?c _ = _ -> _ =>
             destruct c; cbn [Py.bind]; [|discriminate]
         end.
  match goal with
  | |- match ?a with _ => _ end = _ -> _ => destruct a
  end; try discriminate.
  intros [= <- <- _]. split; [exact Hget|].
  rewrite length_app. cbn [length]. lia.
Qed.

Lemma cv_loop_untouched X y grid self cs ws self' cs' ws' :
  for_each grid (cv_score X y) (self, cs, ws) = Ok (self', cs', ws') ->
  untouched self self' /\ length cs' = (length cs + length grid)%nat.
Proof.
  revert self cs ws. induction grid as [|a grid IH]; intros self cs ws;
    cbn [for_each].
  - intros [= <- <- _]. split; [apply untouched_refl | cbn; lia].
  - destruct (cv_score X y a (self, cs, ws)) as [[[s1 cs1] ws1]|] eqn:H1;
      cbn [Py.bind]; [|discriminate].
    intros Hrest. apply cv_score_untouched in H1. destruct H1 as [U1 L1].
    apply IH in Hrest. destruct Hrest as [U2 L2].
    split; [eapply untouched_trans; eassumption|].
    cbn [length]. lia.
Qed.

Lemma argmin_from_bound best ibest i v :
  (ibest < i)%nat -> (argmin_from best ibest i v < i + length v)%nat.
Proof.
  revert best ibest i. induction v as [|x v IH]; intros best ibest i Hlt;
    cbn [argmin_from length].
  - lia.
  - destruct (negb (isnan best) && (isnan x || Float.ltb x best)).
    + specialize (IH x i (S i)). lia.
    + specialize (IH best ibest (S i)). lia.
Qed.

Lemma argmin_bound v i : argmin v = Ok i -> (i < length v)%nat.
Proof.
  destruct v as [|x v]; [discriminate|]. intros [= <-].
  pose proof (argmin_from_bound x 0 1 v). cbn [length]. lia.
Qed.

Lemma aloocv_alpha_returns self X y a self' ws :
  get_aloocv_alpha self X y = Ok (a, self', ws) ->
  In a (alpha_grid self) /\ alpha_ self' = Some a /\ untouched self self'.
Proof.
  unfold GlmAlooCalculator.get_aloocv_alpha.
  destruct (for_each (alpha_grid self) (cv_score X y) (self, [], []))
    as [[[s cs] ws0]|] eqn:Hloop; cbn [Py.bind]; [|discriminate].
  destruct (cv_loop_untouched _ _ _ _ _ _ _ _ _ Hloop) as [U L].
  cbn [length] in L.
  destruct (argmin cs) as [i|] eqn:Hi; cbn [Py.bind]; [|discriminate].
  intros [= <- <- _]. apply argmin_bound in Hi.
  destruct U as (Hg & Hc & He). split; [|split].
  - rewrite Hg. apply nth_In. lia.
  - reflexivity.
  - repeat split; try assumption; apply He.
Qed.

(** X8. [get_aloocv_alpha] returns a strength of the grid and stores it as
    [alpha_]; it does not fill the cache of leave-one-out coefficients and
    leaves the estimator of the calculator unfitted if it was; on an empty
    grid it raises the [ValueError] of [np.argmin]. *)
Theorem aloocv_alpha_is_from_grid
    (self : t) (X y : ndarray) :
  match get_aloocv_alpha self X y with
  | Ok (a, self', ws) =>
      In a (alpha_grid self)
      /\ alpha_ self' = Some a
      /\ untouched self self'
  | Raise e =>
      alpha_grid self = [] ->
      e = ValueError "attempt to get argmin of an empty sequence"
  end.
Proof.
  destruct (get_aloocv_alpha self X y) as [[[a self'] ws]|e] eqn:Hrun.
  - now apply aloocv_alpha_returns in Hrun.
  - intros Hempty. revert Hrun.
    unfold GlmAlooCalculator.get_aloocv_alpha. rewrite Hempty.
    cbn [for_each Py.bind argmin]. now intros [= <-].
Qed.

(** The score of one turn of the loop when the cache is filled. *)
Definition cached_score (X y : ndarray) (self : t) (p : ndarray)
  : result float :=
  n <- shape0 X ;;
  X1 <- hstack X (ones n 1) ;;
  prod <- np_mul (T p) X1 ;;
  s <- sum_axis1 prod ;;
  preds <- score_to_pred self s ;;
  score <- call_loss self (hyperparameter_scorer self) y preds ;;
  match score with
  | A0 x => Ok x
  | _ => Raise (ValueError "setting an array element with a sequence")
  end.

Lemma cv_score_cached X y self p a cs ws :
  loo_fitted_parameters self = Some p ->
  cv_score X y a (self, cs, ws)
  = (x <- cached_score X y self p ;; Ok (self, cs ++ [x], ws ++ [])).
Proof.
  intros Hp. unfold GlmAlooCalculator.cv_score, cached_score.
  rewrite (cached_call _ _ _ _ _ _ _ _ Hp). cbn [Py.bind].
  repeat match goal with
         | |- Py.bind ?c _ = _ =>
             destruct c; cbn [Py.bind]; [|reflexivity]
         end.
  match goal with
  | |- match ?a with _ => _ end = _ => destruct a
  end; reflexivity.
Qed.

Lemma cv_loop_constant X y self x :
  (forall a cs ws,
     cv_score X y a (self, cs, ws) = Ok (self, cs ++ [x], ws ++ [])) ->
  forall grid cs ws,
    for_each grid (cv_score X y) (self, cs, ws)
    = Ok (self, cs ++ repeat x (length grid), ws).
Proof.
  intros Hall. induction grid as [|a grid IH]; intros cs ws;
    cbn [for_each length repeat].
  - now rewrite app_nil_r.
  - rewrite Hall. cbn [Py.bind]. rewrite IH, <- app_assoc, app_nil_r.
    reflexivity.
Qed.

Lemma argmin_from_constant x n i : argmin_from x 0 i (repeat x n) = 0%nat.
Proof.
  revert i. induction n as [|n IH]; intros i; cbn [repeat argmin_from];
    [reflexivity|].
  assert (E : negb (isnan x) && (isnan x || Float.ltb x x) = false).
  { destruct x as [q| | |]; cbn; try reflexivity.
    rewrite andb_false_r || idtac.
    assert (Qle_bool q q = true) by (apply Qle_bool_iff; apply Qle_refl).
    now rewrite H. }
  rewrite E. apply IH.
Qed.

(** X9. With a filled cache, as a model that is fitted a second time has it,
    every turn of the loop scores the cached coefficients, whatever the
    strength and the data: the scores are all the same, and the strength
    chosen is the first of the grid. *)
Theorem aloocv_alpha_on_filled_cache
    (self : t) (X y : ndarray) (p : ndarray)
    (a : float) (self' : t) (ws : list warning) :
  loo_fitted_parameters self = Some p ->
  get_aloocv_alpha self X y = Ok (a, self', ws) ->
  (exists rest, alpha_grid self = a :: rest)
  /\ self' = set_alpha_ a self.
Proof.
  intros Hp. unfold GlmAlooCalculator.get_aloocv_alpha.
  destruct (alpha_grid self) as [|a0 grid] eqn:Hgrid;
    [cbn; discriminate|].
  cbn [for_each].
  rewrite (cv_score_cached _ _ _ _ _ _ _ Hp).
  destruct (cached_score X y self p) as [x|] eqn:Hx; cbn [Py.bind];
    [|discriminate].
  assert (Hall : forall a1 cs ws,
            cv_score X y a1 (self, cs, ws) = Ok (self, cs ++ [x], ws ++ [])).
  { intros a1 cs ws1. rewrite (cv_score_cached _ _ _ _ _ _ _ Hp), Hx.
    reflexivity. }
  rewrite (cv_loop_constant _ _ _ _ Hall). cbn [Py.bind app argmin].
  rewrite argmin_from_constant. cbn [Py.bind]. rewrite Hgrid. cbn [nth].
  intros [= <- <- _]. split; [now exists grid | reflexivity].
Qed.

End Facts.

End GlmAlooCalculatorBehaviour.

(* ===================================================================== *)
(** ** The leave-one-out partial prediction models *)

Module GenericLOOPPMBehaviour.
Import Importance NpFacts GlmAlooCalculatorFacts GlmAlooCalculatorBehaviour.
Import GenericLOOPPM.
Local Open Scope list_scope.

Section Facts.

Variable sk_fit :
  Estimator.t -> option ndarray -> option ndarray -> result Estimator.t.
Variable np_linalg_inv : ndarray -> result ndarray.

Local Abbreviation loo_fit :=
  (@fit GenericLOOPPM.t (GenericLOOPPM.ppm sk_fit np_linalg_inv)).
Local Abbreviation partial_preds_of :=
  (fun self : GenericLOOPPM.t =>
     PartialPredictionModelBase._partial_preds (base self)).

(** *** What [fit] refuses *)

Lemma reduced_invalid_mode mode k test :
  mode <> "keep_k" -> mode <> "keep_rest" ->
  reduced mode k test = Raise (ValueError "Invalid mode").
Proof.
  intros H1 H2. unfold reduced.
  apply String.eqb_neq in H1, H2. now rewrite H1, H2.
Qed.

(** X10. A leave-one-out model cannot be fitted without [y_test], which [fit]
    of the base class takes as optional, nor, on data of one block or
    more, with a mode other than "keep_k" and "keep_rest": once
    [_fit_model] (and the full predictions) have returned, the call raises
    the [ValueError] of the model. *)
Theorem loo_fit_needs_target_and_mode
    (self : GenericLOOPPM.t) (train test : BlockPartitionedData.t)
    (y_train : ndarray) (mode : string) :
  match loo_fit self train y_train test None mode with
  | Ok _ => False
  | Raise e =>
      is_ok (GenericLOOPPM._fit_model sk_fit np_linalg_inv
               (set_n_blocks (H := GenericLOOPPM.ppm sk_fit np_linalg_inv)
                  (BlockPartitionedData.n_blocks train) self)
               train y_train) = true ->
      e = ValueError "Need to supply y_test for LOO"
  end
  /\ forall y_test,
       mode <> "keep_k" -> mode <> "keep_rest" ->
       (0 < BlockPartitionedData.n_blocks train)%nat ->
       match loo_fit self train y_train test (Some y_test) mode with
       | Ok _ => False
       | Raise e =>
           forall self1 ws fp,
             GenericLOOPPM._fit_model sk_fit np_linalg_inv
               (set_n_blocks (H := GenericLOOPPM.ppm sk_fit np_linalg_inv)
                  (BlockPartitionedData.n_blocks train) self)
               train y_train = Ok (self1, ws) ->
             GenericLOOPPM._fit_full_predictions sk_fit np_linalg_inv
               self1 test (Some y_test) = Ok fp ->
             e = ValueError "Invalid mode"
       end.
Proof.
  split.
  - unfold fit. cbn [Importance._fit_model Importance._fit_full_predictions
                     GenericLOOPPM.ppm].
    destruct (GenericLOOPPM._fit_model sk_fit np_linalg_inv _ train y_train)
      as [sw|]; cbn [Py.bind is_ok]; [|discriminate].
    intros _. reflexivity.
  - intros y_test H1 H2 Hn. unfold fit.
    cbn [Importance._fit_model Importance._fit_full_predictions
         Importance._fit_partial_predictions GenericLOOPPM.ppm].
    destruct (GenericLOOPPM._fit_model sk_fit np_linalg_inv _ train y_train)
      as [[s1 ws1]|]; cbn [Py.bind fst snd]; [|intros ? ? ? [=]].
    destruct (GenericLOOPPM._fit_full_predictions sk_fit np_linalg_inv s1
                test (Some y_test)) as [fp1|] eqn:Hfp; cbn [Py.bind];
      [|intros ? ? ? [= <- _]; rewrite Hfp; intros [=]].
    destruct (BlockPartitionedData.n_blocks train) as [|n]; [lia|].
    cbn [seq for_each]. unfold GenericLOOPPM._fit_partial_predictions at 1.
    rewrite (reduced_invalid_mode _ _ _ H1 H2). cbn [Py.bind].
    intros self1 ws fp _ _. reflexivity.
Qed.

(** *** The cache across the steps of [fit] *)

(** X11. Once [_fit_full_predictions] has returned, the leave-one-out
    coefficients are cached in the calculator, and the partial predictions
    are computed without the estimator being fitted again and without a
    matrix being inverted: they are the same whatever the fitting and the
    inversion routines do. *)
Theorem partial_predictions_use_cache
    (self : GenericLOOPPM.t) (test : BlockPartitionedData.t)
    (y_test : option ndarray) (preds : ndarray) (self' : GenericLOOPPM.t) :
  GenericLOOPPM._fit_full_predictions sk_fit np_linalg_inv self test y_test
  = Ok (preds, self') ->
  (exists p,
     GlmAlooCalculator.loo_fitted_parameters (aloo_calculator self') = Some p)
  /\ forall sk_fit' np_linalg_inv' k mode test' y_test',
       GenericLOOPPM._fit_partial_predictions sk_fit' np_linalg_inv' self' k
         mode test' y_test'
       = GenericLOOPPM._fit_partial_predictions sk_fit np_linalg_inv self' k
           mode test' y_test'.
Proof.
  unfold GenericLOOPPM._fit_full_predictions.
  destruct y_test as [yt|]; [|discriminate].
  destruct (hstack _ _) as [X1|]; cbn [Py.bind]; [|discriminate].
  destruct (GlmAlooCalculator.get_aloo_fitted_parameters sk_fit np_linalg_inv
              (aloo_calculator self) _ _ _ true) as [[[fp calc] ws]|] eqn:Hget;
    cbn [Py.bind]; [|discriminate].
  assert (Hcache : GlmAlooCalculator.loo_fitted_parameters calc = Some fp).
  { pose proof (aloo_cache_filled sk_fit np_linalg_inv _ _ _ _ _ _ _ Hget).
    assumption. }
  destruct (np_mul _ _); cbn [Py.bind]; [|discriminate].
  destruct (sum_axis1 _); cbn [Py.bind]; [|discriminate].
  destruct (GlmAlooCalculator.score_to_pred _ _); cbn [Py.bind];
    [|discriminate].
  intros [= _ <-]. cbn [aloo_calculator set_aloo_calculator].
  split; [now exists fp|].
  intros sk_fit' inv' k mode test' y_test'.
  unfold GenericLOOPPM._fit_partial_predictions.
  cbn [aloo_calculator set_aloo_calculator fixed_intercept].
  rewrite !(cached_call _ _ _ _ _ _ _ _ Hcache). reflexivity.
Qed.

(** *** The estimator of the model *)

Lemma fit_model_estimator self train y self' ws :
  GenericLOOPPM._fit_model sk_fit np_linalg_inv self train y = Ok (self', ws) ->
  exists a,
    alpha_ self' = Some a
    /\ In a (GlmAlooCalculator.alpha_grid (aloo_calculator self))
    /\ Estimator.coef_ (estimator self') = Estimator.coef_ (estimator self)
    /\ Estimator.intercept_ (estimator self')
       = Estimator.intercept_ (estimator self)
    /\ (hasattr (Estimator.alpha (estimator self)) = true ->
        Estimator.alpha (estimator self') = Present (Some a))
    /\ (hasattr (Estimator.alpha (estimator self)) = false ->
        hasattr (Estimator.C (estimator self)) = true ->
        Estimator.C (estimator self')
        = Present (Some (Float.div Float.one a))).
Proof.
  unfold GenericLOOPPM._fit_model.
  destruct (GlmAlooCalculator.get_aloocv_alpha _ _ _ _ _)
    as [[[a calc] ws0]|] eqn:Hcv; cbn [Py.bind]; [|discriminate].
  apply aloocv_alpha_returns in Hcv. destruct Hcv as (Hin & _ & _).
  cbn [estimator set_alpha_ set_aloo_calculator].
  destruct (hasattr (Estimator.alpha (estimator self))) eqn:Ha.
  - intros [= <- _]. exists a.
    cbn [alpha_ estimator set_estimator set_alpha_ set_aloo_calculator
         Estimator.coef_ Estimator.intercept_ Estimator.alpha
         Estimator.set_alpha].
    repeat split; try assumption; try reflexivity. discriminate.
  - destruct (hasattr (Estimator.C (estimator self))) eqn:Hc;
      intros [= <- _]; exists a;
      cbn [alpha_ estimator set_estimator set_alpha_ set_aloo_calculator
           Estimator.coef_ Estimator.intercept_ Estimator.C
           Estimator.set_C];
      repeat split; try assumption; try reflexivity; discriminate.
Qed.

Lemma partial_loop_estimator mode test y ks :
  forall self self',
    for_each ks
      (fun k self =>
         pp <- GenericLOOPPM._fit_partial_predictions sk_fit np_linalg_inv
                 self k mode test y ;;
         Ok (set_partial_pred (H := GenericLOOPPM.ppm sk_fit np_linalg_inv)
               k (fst pp) (snd pp)))
      self = Ok self' ->
    estimator self' = estimator self /\ alpha_ self' = alpha_ self.
Proof.
  induction ks as [|k0 ks IH]; intros self self'; cbn [for_each].
  - intros [= <-]. split; reflexivity.
  - destruct (GenericLOOPPM._fit_partial_predictions sk_fit np_linalg_inv
                self k0 mode test y) as [[pp s1]|] eqn:Hpp; cbn [Py.bind];
      [|discriminate].
    cbn [fst snd]. intros Hrest. apply IH in Hrest.
    destruct Hrest as [He Ha].
    unfold set_partial_pred in He, Ha.
    cbn [ppm_base ppm_set_base GenericLOOPPM.ppm set_base estimator alpha_]
      in He, Ha.
    assert (Hs1 : estimator s1 = estimator self /\ alpha_ s1 = alpha_ self).
    { revert Hpp. unfold GenericLOOPPM._fit_partial_predictions.
      destruct y as [yt|]; [|discriminate].
      destruct (reduced _ _ _); cbn [Py.bind]; [|discriminate].
      destruct (hstack _ _); cbn [Py.bind]; [|discriminate].
      destruct (fixed_intercept self && _).
      - destruct (extract_coef_and_intercept _); cbn [Py.bind];
          [|discriminate].
        destruct (GlmAlooCalculator.score_to_pred _ _); cbn [Py.bind];
          [|discriminate].
        destruct (len yt); cbn [Py.bind]; [|discriminate].
        intros [= _ <-]. split; reflexivity.
      - destruct (GlmAlooCalculator.get_aloo_fitted_parameters _ _ _ _ _ _ _)
          as [[[fp calc] ws]|]; cbn [Py.bind]; [|discriminate].
        destruct (index_cols _ _ _); cbn [Py.bind]; [|discriminate].
        destruct (np_mul _ _); cbn [Py.bind]; [|discriminate].
        destruct (sum_axis1 _); cbn [Py.bind]; [|discriminate].
        destruct (GlmAlooCalculator.score_to_pred _ _); cbn [Py.bind];
          [|discriminate].
        intros [= _ <-]. split; reflexivity. }
    destruct Hs1 as [He1 Ha1]. split; congruence.
Qed.

(** X12. [fit] chooses the regularization strength from the grid and hands it
    to the estimator of the model ([alpha], or [C] as its inverse), but it
    never fits that estimator: the estimator that is fitted is the copy
    the calculator holds, and the coefficients and the intercept of the
    model's own estimator are after [fit] what they were before. *)
Theorem fit_leaves_own_estimator_unfitted
    (self : GenericLOOPPM.t) (train test : BlockPartitionedData.t)
    (y_train : ndarray) (y_test : option ndarray) (mode : string)
    (self' : GenericLOOPPM.t) (ws : list warning) :
  loo_fit self train y_train test y_test mode = Ok (self', ws) ->
  exists a,
    alpha_ self' = Some a
    /\ In a (GlmAlooCalculator.alpha_grid (aloo_calculator self))
    /\ Estimator.coef_ (estimator self') = Estimator.coef_ (estimator self)
    /\ Estimator.intercept_ (estimator self')
       = Estimator.intercept_ (estimator self)
    /\ (hasattr (Estimator.alpha (estimator self)) = true ->
        Estimator.alpha (estimator self') = Present (Some a))
    /\ (hasattr (Estimator.alpha (estimator self)) = false ->
        hasattr (Estimator.C (estimator self)) = true ->
        Estimator.C (estimator self')
        = Present (Some (Float.div Float.one a))).
Proof.
  unfold fit.
  cbn [Importance._fit_model Importance._fit_full_predictions
       Importance._fit_partial_predictions GenericLOOPPM.ppm].
  destruct (GenericLOOPPM._fit_model sk_fit np_linalg_inv _ train y_train)
    as [[s1 ws1]|] eqn:H1; cbn [Py.bind fst snd]; [|discriminate].
  destruct (GenericLOOPPM._fit_full_predictions sk_fit np_linalg_inv s1
              test y_test) as [[fp s2]|] eqn:H2; cbn [Py.bind fst snd];
    [|discriminate].
  match goal with
  | |- Py.bind ?loop _ = _ -> _ => destruct loop as [s3|] eqn:H3
  end; cbn [Py.bind]; [|discriminate].
  intros [= <- _].
  apply fit_model_estimator in H1.
  destruct H1 as (a & Halpha & Hin & Hcoef & Hint & Ha & Hc).
  apply partial_loop_estimator in H3. destruct H3 as [He3 Ha3].
  assert (Hs2 : estimator s2 = estimator s1 /\ alpha_ s2 = alpha_ s1).
  { revert H2. unfold GenericLOOPPM._fit_full_predictions.
    destruct y_test as [yt|]; [|discriminate].
    destruct (hstack _ _); cbn [Py.bind]; [|discriminate].
    destruct (GlmAlooCalculator.get_aloo_fitted_parameters _ _ _ _ _ _ _)
      as [[[fp0 calc] ws0]|]; cbn [Py.bind]; [|discriminate].
    destruct (np_mul _ _); cbn [Py.bind]; [|discriminate].
    destruct (sum_axis1 _); cbn [Py.bind]; [|discriminate].
    destruct (GlmAlooCalculator.score_to_pred _ _); cbn [Py.bind];
      [|discriminate].
    intros [= _ <-]. split; reflexivity. }
  destruct Hs2 as [He2 Ha2].
  unfold set_full_preds, set_n_blocks, set_is_fitted in *.
  cbn [ppm_base ppm_set_base GenericLOOPPM.ppm set_base estimator alpha_
       aloo_calculator] in *.
  exists a. rewrite He3, He2, Ha3, Ha2.
  repeat split; assumption.
Qed.

(** *** The dictionary of partial predictions *)

Lemma fit_model_base self train y self' ws :
  GenericLOOPPM._fit_model sk_fit np_linalg_inv self train y = Ok (self', ws) ->
  base self' = base self.
Proof.
  unfold GenericLOOPPM._fit_model.
  destruct (GlmAlooCalculator.get_aloocv_alpha _ _ _ _ _) as [[[a calc] ws0]|];
    cbn [Py.bind]; [|discriminate].
  cbn [estimator set_alpha_ set_aloo_calculator].
  destruct (hasattr _); [intros [= <- _]; reflexivity|].
  destruct (hasattr _); intros [= <- _]; reflexivity.
Qed.

Lemma full_predictions_base self test y p self' :
  GenericLOOPPM._fit_full_predictions sk_fit np_linalg_inv self test y
  = Ok (p, self') ->
  base self' = base self.
Proof.
  unfold GenericLOOPPM._fit_full_predictions.
  destruct y as [yt|]; [|discriminate].
  destruct (hstack _ _); cbn [Py.bind]; [|discriminate].
  destruct (GlmAlooCalculator.get_aloo_fitted_parameters _ _ _ _ _ _ _)
    as [[[fp calc] ws]|]; cbn [Py.bind]; [|discriminate].
  destruct (np_mul _ _); cbn [Py.bind]; [|discriminate].
  destruct (sum_axis1 _); cbn [Py.bind]; [|discriminate].
  destruct (GlmAlooCalculator.score_to_pred _ _); cbn [Py.bind];
    [|discriminate].
  intros [= _ <-]. reflexivity.
Qed.

Lemma partial_predictions_base self k mode test y pp self' :
  GenericLOOPPM._fit_partial_predictions sk_fit np_linalg_inv self k mode
    test y = Ok (pp, self') ->
  base self' = base self.
Proof.
  unfold GenericLOOPPM._fit_partial_predictions.
  destruct y as [yt|]; [|discriminate].
  destruct (reduced _ _ _); cbn [Py.bind]; [|discriminate].
  destruct (hstack _ _); cbn [Py.bind]; [|discriminate].
  destruct (fixed_intercept self && _).
  - destruct (extract_coef_and_intercept _); cbn [Py.bind]; [|discriminate].
    destruct (GlmAlooCalculator.score_to_pred _ _); cbn [Py.bind];
      [|discriminate].
    destruct (len yt); cbn [Py.bind]; [|discriminate].
    intros [= _ <-]. reflexivity.
  - destruct (GlmAlooCalculator.get_aloo_fitted_parameters _ _ _ _ _ _ _)
      as [[[fp calc] ws]|]; cbn [Py.bind]; [|discriminate].
    destruct (index_cols _ _ _); cbn [Py.bind]; [|discriminate].
    destruct (np_mul _ _); cbn [Py.bind]; [|discriminate].
    destruct (sum_axis1 _); cbn [Py.bind]; [|discriminate].
    destruct (GlmAlooCalculator.score_to_pred _ _); cbn [Py.bind];
      [|discriminate].
    intros [= _ <-]. reflexivity.
Qed.

(** The loop of [fit] over the blocks: it writes the entries of the keys
    it visits and leaves every other entry of the dictionary as it was. *)
Lemma partial_loop mode test y ks :
  forall self self',
    for_each ks
      (fun k self =>
         pp <- GenericLOOPPM._fit_partial_predictions sk_fit np_linalg_inv
                 self k mode test y ;;
         Ok (set_partial_pred (H := GenericLOOPPM.ppm sk_fit np_linalg_inv)
               k (fst pp) (snd pp)))
      self = Ok self' ->
    (forall k, In k ks -> is_Some (partial_preds_of self' !! k))
    /\ (forall k, ~ In k ks ->
          partial_preds_of self' !! k = partial_preds_of self !! k)
    /\ PartialPredictionModelBase.n_blocks (base self')
       = PartialPredictionModelBase.n_blocks (base self)
    /\ PartialPredictionModelBase.is_fitted (base self')
       = PartialPredictionModelBase.is_fitted (base self).
Proof.
  induction ks as [|k0 ks IH]; intros self self'; cbn [for_each].
  - intros [= <-]. repeat split; try reflexivity. intros k [].
  - destruct (GenericLOOPPM._fit_partial_predictions sk_fit np_linalg_inv
                self k0 mode test y) as [[pp s1]|] eqn:Hpp; cbn [Py.bind];
      [|discriminate].
    apply partial_predictions_base in Hpp. cbn [fst snd].
    intros Hrest. apply IH in Hrest.
    destruct Hrest as (Hin & Hout & Hn & Hf).
    unfold set_partial_pred in Hout, Hn, Hf.
    cbn [ppm_base ppm_set_base GenericLOOPPM.ppm base set_base
         PartialPredictionModelBase._partial_preds
         PartialPredictionModelBase.n_blocks
         PartialPredictionModelBase.is_fitted] in Hout, Hn, Hf.
    rewrite Hpp in Hout, Hn, Hf.
    split; [|split; [|split; assumption]].
    + intros k [<-|Hk]; [|now apply Hin].
      destruct (in_dec Nat.eq_dec k0 ks) as [Hk|Hk]; [now apply Hin|].
      rewrite (Hout _ Hk), lookup_insert_eq. now eexists.
    + intros k Hk. rewrite Hout by (intros H; apply Hk; now right).
      apply lookup_insert_ne. intros ->. apply Hk. now left.
Qed.

(** X13. [fit] writes the partial predictions of the blocks of the data it is
    given and removes nothing from the dictionary: after a fit on [n]
    blocks the predictions of blocks [0] to [n - 1] are there, and a key
    from [n] on holds what it held before the fit, so that
    [get_partial_predictions] returns the prediction of an earlier fit on
    more blocks where it would otherwise raise [KeyError]. *)
Theorem fit_keeps_earlier_partial_predictions
    (self : GenericLOOPPM.t) (train test : BlockPartitionedData.t)
    (y_train : ndarray) (y_test : option ndarray) (mode : string)
    (self' : GenericLOOPPM.t) (ws : list warning) :
  loo_fit self train y_train test y_test mode = Ok (self', ws) ->
  PartialPredictionModelBase.n_blocks (base self')
  = Some (BlockPartitionedData.n_blocks train)
  /\ PartialPredictionModelBase.is_fitted (base self') = true
  /\ (forall k, (k < BlockPartitionedData.n_blocks train)%nat ->
        is_ok (get_partial_predictions
                 (H := GenericLOOPPM.ppm sk_fit np_linalg_inv) self' k) = true)
  /\ (forall k, (BlockPartitionedData.n_blocks train <= k)%nat ->
        get_partial_predictions
          (H := GenericLOOPPM.ppm sk_fit np_linalg_inv) self' k
        = get_partial_predictions
            (H := GenericLOOPPM.ppm sk_fit np_linalg_inv) self k).
Proof.
  unfold fit.
  cbn [Importance._fit_model Importance._fit_full_predictions
       Importance._fit_partial_predictions GenericLOOPPM.ppm].
  destruct (GenericLOOPPM._fit_model sk_fit np_linalg_inv _ train y_train)
    as [[s1 ws1]|] eqn:H1; cbn [Py.bind fst snd]; [|discriminate].
  destruct (GenericLOOPPM._fit_full_predictions sk_fit np_linalg_inv s1
              test y_test) as [[fp s2]|] eqn:H2; cbn [Py.bind fst snd];
    [|discriminate].
  match goal with
  | |- Py.bind ?loop _ = _ -> _ => destruct loop as [s3|] eqn:H3
  end; cbn [Py.bind]; [|discriminate].
  intros [= <- _].
  apply fit_model_base in H1. apply full_predictions_base in H2.
  apply partial_loop in H3. destruct H3 as (Hin & Hout & Hn & Hf).
  unfold set_full_preds, set_n_blocks in *.
  cbn [ppm_base ppm_set_base GenericLOOPPM.ppm base set_base
       PartialPredictionModelBase._partial_preds
       PartialPredictionModelBase.n_blocks
       PartialPredictionModelBase.is_fitted] in *.
  rewrite H2, H1 in Hout, Hn.
  cbn [base set_base PartialPredictionModelBase._partial_preds
       PartialPredictionModelBase.n_blocks] in Hout, Hn.
  unfold set_is_fitted, get_partial_predictions.
  cbn [ppm_base ppm_set_base GenericLOOPPM.ppm base set_base
       PartialPredictionModelBase._partial_preds
       PartialPredictionModelBase.n_blocks
       PartialPredictionModelBase.is_fitted].
  split; [exact Hn|]. split; [reflexivity|]. split.
  - intros k Hk. destruct (Hin k) as (pp & ->); [|reflexivity].
    apply in_seq. lia.
  - intros k Hk. rewrite Hout; [reflexivity|]. rewrite in_seq. lia.
Qed.

End Facts.

End GenericLOOPPMBehaviour.

(* ===================================================================== *)
(** ** The scorer: what a fit leaves, and what it returns afterwards *)

Module GMDIBehaviour.
Import Importance NpFacts GMDIFacts.
Import GMDI.
Local Open Scope list_scope.

Lemma for_each_invariant {A S} (Inv : S -> Prop) (body : A -> S -> result S) :
  (forall x s s', body x s = Ok s' -> Inv s -> Inv s') ->
  forall xs s s', for_each xs body s = Ok s' -> Inv s -> Inv s'.
Proof.
  intros Hbody. induction xs as [|x xs IH]; intros s s'; cbn [for_each].
  - now intros [= <-].
  - destruct (body x s) as [s1|] eqn:H1; cbn [Py.bind]; [|discriminate].
    intros Hrest Hs. eapply IH; [exact Hrest|]. eapply Hbody; eassumption.
Qed.

Lemma setitem_length scores k v scores' :
  setitem scores k v = Ok scores' -> length scores' = length scores.
Proof.
  unfold setitem. destruct (Nat.ltb k (length scores)); [|discriminate].
  destruct v as [x|[|x [|x' v]]|[|[|x [|x' r]] [|r' m]]]; try discriminate;
    intros [= <-]; apply length_insert.
Qed.

(** *** The score "mdi_oob" of a block without columns *)

(** A vector broadcast against a vector of one entry. *)
Lemma broadcast2_vector_singleton f u x :
  broadcast2 f (A1 u) (A1 [x]) = Ok (A1 (map (fun a => f a x) u)).
Proof.
  unfold broadcast2. cbn [as2d].
  change (nrows [u]) with 1%nat. change (nrows [[x]]) with 1%nat.
  change (ncols [u]) with (length u). change (ncols [[x]]) with 1%nat.
  rewrite bdim_refl, bdim_1_r. cbn.
  now rewrite stretch_length, map2_repeat_r.
Qed.

Lemma dot_zero_vector (b : Q) (qs : list Q) (acc : Q) :
  (acc == 0)%Q ->
  exists q,
    fold_left (fun a p => Float.add a (Float.mul (fst p) (snd p)))
      (combine (map Finite qs) (repeat (Finite (b + - b)) (length qs)))
      (Finite acc)
    = Finite q
    /\ (q == 0)%Q.
Proof.
  revert acc. induction qs as [|a qs IH]; intros acc Hacc;
    cbn [map length repeat combine fold_left].
  - now exists acc.
  - cbn [fst snd Float.mul Float.add]. apply IH. rewrite Hacc. ring.
Qed.

Definition is_zero (x : float) : Prop := Float.eqb x Float.zero = true.

(** The value the branch "only intercept model" computes: the prediction
    is the intercept at every sample, the intercept is subtracted from it,
    and the product with the target, divided by its length, is zero. *)
Lemma mdi_oob_null_value (qs : list Q) (b : Q) :
  qs <> [] ->
  exists s,
    (baseline <- params_array (ParamList [A0 (Finite b)]) ;;
     mdi_oob_score (A1 (map Finite qs))
       (GenericLOOPPM.np_repeat_each (A0 (Finite b)) (length qs)) baseline)
    = Ok (A0 s)
    /\ is_zero s.
Proof.
  intros Hne. cbn [params_array forallb ndim Nat.eqb andb map ravel concat app
                   Py.bind].
  unfold mdi_oob_score. rewrite GenericLOOPPMFacts.np_repeat_scalar.
  unfold np_sub. rewrite broadcast2_vector_singleton. cbn [Py.bind].
  rewrite map_repeat. cbn [Float.sub Float.neg Float.add].
  cbn [np_dot matmul]. rewrite length_map, repeat_length, Nat.eqb_refl.
  cbn [Py.bind len]. unfold dot.
  destruct (dot_zero_vector b qs 0 (Qeq_refl 0)) as (q & Hfold & Hq).
  change Float.zero with (Finite 0). rewrite Hfold.
  rewrite length_map. unfold np_div, broadcast2. cbn.
  destruct qs as [|a qs]; [congruence|].
  unfold Float.of_nat. cbn -[Z.of_nat]. eexists. split; [reflexivity|].
  unfold is_zero. cbn [Float.eqb Float.zero]. apply Qeq_bool_iff.
  rewrite Hq. unfold Qdiv. ring.
Qed.

(** The loop [for k in range(n): self._scores[k] = value(k)]: the entry
    of a key the loop visits holds the value computed for the key. *)
Lemma setitem_lookup scores k v scores' :
  setitem scores k v = Ok scores' ->
  (exists x, (v = A0 x \/ v = A1 [x] \/ v = A2 [[x]]) /\ scores' !! k = Some x)
  /\ forall j, j <> k -> scores' !! j = scores !! j.
Proof.
  unfold setitem. destruct (Nat.ltb k (length scores)) eqn:Hk; [|discriminate].
  apply Nat.ltb_lt in Hk.
  destruct v as [x|[|x [|x' v]]|[|[|x [|x' r]] [|r' m]]]; try discriminate;
    intros [= <-]; (split;
      [exists x; split; [auto|now apply list_lookup_insert_eq]
      |intros j Hj; now apply list_lookup_insert_ne]).
Qed.

Lemma scores_loop_entry (value : nat -> result ndarray) ks :
  List.NoDup ks ->
  forall scores scores',
    for_each ks (fun k scores => v <- value k ;; setitem scores k v) scores
    = Ok scores' ->
    (forall k, In k ks ->
       exists v x, value k = Ok v
                   /\ (v = A0 x \/ v = A1 [x] \/ v = A2 [[x]])
                   /\ scores' !! k = Some x)
    /\ (forall j, ~ In j ks -> scores' !! j = scores !! j).
Proof.
  induction 1 as [|k0 ks Hk0 Hnd IH]; intros scores scores';
    cbn [for_each].
  - intros [= <-]. split; [intros k []|reflexivity].
  - destruct (value k0) as [v0|] eqn:Hv0; cbn [Py.bind]; [|discriminate].
    destruct (setitem scores k0 v0) as [s1|] eqn:Hset; cbn [Py.bind];
      [|discriminate].
    intros Hrest. destruct (IH _ _ Hrest) as [Hin Hout].
    destruct (setitem_lookup _ _ _ _ Hset) as [(x & Hx & Hlook) Hother].
    split.
    + intros k [<-|Hk].
      * exists v0, x. repeat split; try assumption.
        now rewrite (Hout _ Hk0).
      * now apply Hin.
    + intros j Hj. rewrite Hout by (intros Hc; apply Hj; now right).
      apply Hother. intros ->. apply Hj. now left.
Qed.

Section Facts.

Context {P : Type} `{PartialPredictionModel P}.
Variable np_std : ndarray -> float.
Variable _generate_sample_indices : Z -> nat -> nat -> list nat.
Variable _generate_unsampled_indices : Z -> nat -> nat -> list nat.

Local Abbreviation blocked_train_test :=
  (blocked_train_test np_std _generate_sample_indices
     _generate_unsampled_indices).
Local Abbreviation _fit_importance_scores :=
  (_fit_importance_scores np_std _generate_sample_indices
     _generate_unsampled_indices).
Local Abbreviation get_scores :=
  (get_scores np_std _generate_sample_indices _generate_unsampled_indices).

(** *** The scores of the partial predictions *)

(** The scores [_score_partial_predictions] returns are a vector of one
    entry per block; the call leaves [n_features] and [is_fitted] as they
    are. *)
Lemma scores_per_block (self : t P) full_preds partial_params partial_preds
    y_test (self' : t P) :
  _score_partial_predictions self full_preds partial_params partial_preds
    y_test = Ok self' ->
  exists v,
    _scores self' = Some (A1 v)
    /\ n_features self = Some (length v)
    /\ n_features self' = n_features self
    /\ is_fitted self' = is_fitted self.
Proof.
  unfold _score_partial_predictions.
  destruct (n_features self) as [n|] eqn:Hn; cbn [require Py.bind];
    [|discriminate].
  match goal with
  | |- Py.bind ?c _ = _ -> _ => destruct c as [scores|] eqn:Hs
  end; cbn [Py.bind]; [|discriminate].
  intros [= <-].
  exists scores. cbn [_scores set_scores n_features is_fitted].
  split; [reflexivity|]. split; [|split; [exact Hn | reflexivity]].
  f_equal. symmetry.
  assert (Hloop : forall (body : nat -> list float -> result (list float)),
            (forall k s s', body k s = Ok s' -> length s' = length s) ->
            forall ks s s', for_each ks body s = Ok s' ->
                            length s' = length s).
  { intros body Hb ks s s' Hrun.
    apply (for_each_invariant (fun l => length l = length s) body)
      with (xs := ks) (s := s); [|exact Hrun|reflexivity].
    intros x s0 s1 H1 H0. rewrite <- H0. eapply Hb. exact H1. }
  revert Hs.
  destruct (String.eqb (mode self) "keep_k").
  - intros Hs. apply Hloop in Hs; [now rewrite Hs, repeat_length|].
    intros k s s'.
    match goal with
    | |- Py.bind ?c _ = _ -> _ => destruct c; cbn [Py.bind]; [|discriminate]
    end.
    apply setitem_length.
  - destruct (String.eqb (mode self) "keep_rest").
    + destruct (require _ full_preds); cbn [Py.bind]; [|discriminate].
      destruct (call_scoring _ _ _); cbn [Py.bind]; [|discriminate].
      intros Hs. apply Hloop in Hs; [now rewrite Hs, repeat_length|].
      intros k s s'.
      repeat match goal with
             | |- Py.bind ?c _ = _ -> _ =>
                 destruct c; cbn [Py.bind]; [|discriminate]
             end.
      apply setitem_length.
    + intros [= <-]. apply repeat_length.
Qed.

(** With a mode other than "keep_k" and "keep_rest" the method raises
    nothing and leaves every score at zero. *)
Lemma unknown_mode_zero_scores (self : t P) full_preds partial_params
    partial_preds y_test n :
  mode self <> "keep_k" -> mode self <> "keep_rest" ->
  n_features self = Some n ->
  _score_partial_predictions self full_preds partial_params partial_preds
    y_test
  = Ok (set_scores (A1 (repeat Float.zero n)) self).
Proof.
  intros H1 H2 Hn. unfold _score_partial_predictions.
  rewrite Hn. cbn [require Py.bind].
  apply String.eqb_neq in H1, H2. now rewrite H1, H2.
Qed.

(** X14. With the scoring "mdi_oob" in mode "keep_k", a block that the model
    predicts by its intercept alone (a block without columns, for a model
    with the identity link and no trimming) scores zero, whatever the
    target and the other blocks are. *)
Theorem mdi_oob_null_block_scores_zero
    (self : t P) (full_preds : option ndarray)
    (partial_params : gmap nat partial_params)
    (partial_preds : gmap nat ndarray)
    (qs : list Q) (b : Q) (k n : nat) (self' : t P) :
  scoring_fn self = ScoringTag "mdi_oob" ->
  mode self = "keep_k" ->
  n_features self = Some n -> (k < n)%nat ->
  qs <> [] ->
  partial_params !! k = Some (ParamList [A0 (Finite b)]) ->
  partial_preds !! k
  = Some (GenericLOOPPM.np_repeat_each (A0 (Finite b)) (length qs)) ->
  _score_partial_predictions self full_preds partial_params partial_preds
    (A1 (map Finite qs)) = Ok self' ->
  exists v x,
    _scores self' = Some (A1 v) /\ v !! k = Some x /\ is_zero x.
Proof.
  intros Hscoring Hmode Hn Hk Hne Hparams Hpreds.
  unfold _score_partial_predictions. rewrite Hn, Hmode, Hscoring.
  cbn [require Py.bind String.eqb Ascii.eqb Bool.eqb andb is_mdi_oob].
  match goal with
  | |- Py.bind ?c _ = _ -> _ => destruct c as [scores|] eqn:Hloop
  end; cbn [Py.bind]; [|discriminate].
  intros [= <-]. cbn [_scores set_scores].
  match type of Hloop with
  | for_each _ (fun k scores => Py.bind (@?value k) _) _ = _ =>
      destruct (scores_loop_entry value (seq 0 n) (List.seq_NoDup n 0) _ _ Hloop)
        as [Hin _]
  end.
  destruct (Hin k) as (v & x & Hv & Hx & Hlook); [apply in_seq; lia|].
  exists scores, x. split; [reflexivity|]. split; [exact Hlook|].
  cbn beta in Hv. unfold getitem in Hv. rewrite Hparams, Hpreds in Hv.
  cbn [Py.bind params_len length Nat.eqb] in Hv.
  destruct (mdi_oob_null_value qs b Hne) as (s0 & Hs0 & Hzero).
  rewrite Hs0 in Hv. injection Hv as <-.
  destruct Hx as [[= <-]|[[=]|[=]]]. exact Hzero.
Qed.

(** *** The state after a fit *)

Lemma blocked_train_test_features (self : t P) X y (self1 : t P) sp :
  blocked_train_test self X y = Ok (self1, sp) ->
  exists bd,
    Transformer.transform (transformer self) X (center self) = Ok bd
    /\ self1 = set_n_features (BlockPartitionedData.n_blocks bd) self.
Proof.
  unfold GMDI.blocked_train_test.
  destruct (Transformer.transform (transformer self) X (center self))
    as [bd|]; cbn [Py.bind]; [|discriminate].
  match goal with
  | |- Py.bind ?c _ = _ -> _ => destruct c; cbn [Py.bind]; [|discriminate]
  end.
  match goal with
  | |- Py.bind ?c _ = _ -> _ => destruct c; cbn [Py.bind]; [|discriminate]
  end.
  intros [= <- _]. now exists bd.
Qed.

Lemma fit_one_target_state (self : t P) train yt test ys multitarget r :
  _fit_one_target self train yt test ys multitarget = Ok r ->
  n_features (snd r) = n_features self
  /\ mode (snd r) = mode self
  /\ scoring_fn (snd r) = scoring_fn self.
Proof.
  unfold _fit_one_target.
  destruct (fit (partial_prediction_model self) train yt test (Some ys)
              (mode self)) as [fitted|]; cbn [Py.bind]; [|discriminate].
  destruct (n_features self) eqn:Hn; cbn [require Py.bind]; [|discriminate].
  match goal with
  | |- Py.bind ?c _ = _ -> _ => destruct c; cbn [Py.bind]; [|discriminate]
  end.
  intros [= <-]. cbn [snd].
  destruct multitarget;
    cbn [n_features mode scoring_fn set_partial_prediction_model];
    rewrite ?Hn; split; try split; reflexivity.
Qed.

(** X15. A fit that returns leaves the object fitted, with [n_features] the
    number of blocks of the transformed data and with a vector of scores:
    one score per block, or, when the representation has no column, one
    per column of [X]. *)
Theorem fit_importance_scores_state
    (self : t P) (X y : ndarray) (self' : t P) :
  _fit_importance_scores self X y = Ok self' ->
  exists bd sp v,
    Transformer.transform (transformer self) X (center self) = Ok bd
    /\ blocked_train_test self X y
       = Ok (set_n_features (BlockPartitionedData.n_blocks bd) self, sp)
    /\ is_fitted self' = true
    /\ n_features self' = Some (BlockPartitionedData.n_blocks bd)
    /\ _scores self' = Some (A1 v)
    /\ match shape1 (BlockPartitionedData.get_all_data
                       (train_blocked_data sp)) with
       | Ok 0%nat => shape1 X = Ok (length v)
       | _ => length v = BlockPartitionedData.n_blocks bd
       end.
Proof.
  unfold GMDI._fit_importance_scores.
  destruct (blocked_train_test self X y) as [[self1 sp]|] eqn:Hsplit;
    cbn [Py.bind fst snd]; [|discriminate].
  destruct (blocked_train_test_features _ _ _ _ _ Hsplit) as (bd & Hbd & ->).
  destruct (shape1 (BlockPartitionedData.get_all_data (train_blocked_data sp)))
    as [w|] eqn:Hw; cbn [Py.bind]; [|discriminate].
  destruct w as [|w]; cbn [Nat.eqb].
  - destruct (shape1 X) as [d|] eqn:Hd; cbn [Py.bind]; [|discriminate].
    intros [= <-]. exists bd, sp, (nan_scores d).
    rewrite nan_scores_all, repeat_length, Hw.
    repeat split; assumption.
  - destruct (Nat.eqb (ndim y) 1).
    + destruct (_fit_one_target _ _ _ _ _ false) as [r|] eqn:Hr;
        cbn [Py.bind]; [|discriminate].
      destruct (fit_one_target_state _ _ _ _ _ _ _ Hr) as (Hn & _ & _).
      destruct (unpack3 (fst r)) as [[[fp pp] ppar]|]; cbn [Py.bind];
        [|discriminate].
      destruct fp as [a| |]; cbn [Py.bind]; try discriminate.
      destruct (as_preds pp) as [dpreds|]; cbn [Py.bind]; [|discriminate].
      destruct (as_params ppar) as [dparams|]; cbn [Py.bind]; [|discriminate].
      match goal with
      | |- Py.bind ?c _ = _ -> _ => destruct c as [s2|] eqn:Hscore
      end; cbn [Py.bind]; [|discriminate].
      intros [= <-].
      destruct (scores_per_block _ _ _ _ _ _ Hscore)
        as (v & Hv & Hlen & Hnf & _).
      exists bd, sp, v. cbn [is_fitted set_is_fitted n_features _scores].
      rewrite Hn in Hlen, Hnf. cbn [n_features set_n_features] in Hlen, Hnf.
      rewrite Hw. repeat split; try assumption. now injection Hlen as ->.
    + destruct (fit_targets _ _ _); cbn [Py.bind]; [|discriminate].
      destruct (map_result _ _); cbn [Py.bind]; [|discriminate].
      destruct (array_T _); cbn [Py.bind]; [|discriminate].
      cbn [require n_features set_n_features Py.bind].
      match goal with
      | |- Py.bind (Py.bind ?c _) _ = _ -> _ => destruct c
      end; cbn [Py.bind]; discriminate.
Qed.

(** X16. A mode other than "keep_k" and "keep_rest" is not refused by the
    scorer: when the partial prediction model accepts it, the fit on a
    representation with columns returns, and the score of every block is
    zero. *)
Theorem unknown_mode_scores_zero
    (self : t P) (X y : ndarray) (self1 : t P) (sp : split) (self' : t P) :
  mode self <> "keep_k" -> mode self <> "keep_rest" ->
  blocked_train_test self X y = Ok (self1, sp) ->
  shape1 (BlockPartitionedData.get_all_data (train_blocked_data sp))
  <> Ok 0%nat ->
  _fit_importance_scores self X y = Ok self' ->
  exists n,
    n_features self' = Some n
    /\ _scores self' = Some (A1 (repeat Float.zero n)).
Proof.
  intros Hk Hr Hsplit Hwidth. unfold GMDI._fit_importance_scores.
  rewrite Hsplit. cbn [Py.bind fst snd].
  destruct (blocked_train_test_features _ _ _ _ _ Hsplit) as (bd & Hbd & ->).
  destruct (shape1 (BlockPartitionedData.get_all_data (train_blocked_data sp)))
    as [w|] eqn:Hw; cbn [Py.bind]; [|discriminate].
  destruct w as [|w]; [congruence|]. cbn [Nat.eqb].
  destruct (Nat.eqb (ndim y) 1).
  - destruct (_fit_one_target _ _ _ _ _ false) as [r|] eqn:Hfit;
      cbn [Py.bind]; [|discriminate].
    destruct (fit_one_target_state _ _ _ _ _ _ _ Hfit) as (Hn & Hm & _).
    destruct (unpack3 (fst r)) as [[[fp pp] ppar]|]; cbn [Py.bind];
      [|discriminate].
    destruct fp as [a| |]; cbn [Py.bind]; try discriminate.
    destruct (as_preds pp) as [dpreds|]; cbn [Py.bind]; [|discriminate].
    destruct (as_params ppar) as [dparams|]; cbn [Py.bind]; [|discriminate].
    cbn [n_features mode set_n_features] in Hn, Hm.
    rewrite (unknown_mode_zero_scores (snd r) a dparams dpreds (y_test sp)
               (BlockPartitionedData.n_blocks bd))
      by (rewrite ?Hm; assumption).
    cbn [Py.bind]. intros [= <-].
    exists (BlockPartitionedData.n_blocks bd).
    cbn [n_features _scores set_is_fitted set_scores]. now split.
  - destruct (fit_targets _ _ _); cbn [Py.bind]; [|discriminate].
    destruct (map_result _ _); cbn [Py.bind]; [|discriminate].
    destruct (array_T _); cbn [Py.bind]; [|discriminate].
    cbn [require n_features set_n_features Py.bind].
    match goal with
    | |- Py.bind (Py.bind ?c _) _ = _ -> _ => destruct c
    end; cbn [Py.bind]; discriminate.
Qed.

Lemma fit_leaves_fitted (self : t P) (X y : ndarray) (self' : t P) :
  _fit_importance_scores self X y = Ok self' -> is_fitted self' = true.
Proof.
  unfold GMDI._fit_importance_scores.
  destruct (blocked_train_test self X y); cbn [Py.bind]; [|discriminate].
  destruct (shape1 _); cbn [Py.bind]; [|discriminate].
  match goal with
  | |- Py.bind ?c _ = _ -> _ => destruct c; cbn [Py.bind]; [|discriminate]
  end.
  now intros [= <-].
Qed.

(** *** Scores are computed once *)

(** X17. [get_scores] fits the object on its first call, which needs both [X]
    and [y]; from then on it returns the scores of that fit and leaves the
    object as it is, whatever it is passed. *)
Theorem gmdi_scores_are_computed_once
    (self : t P) (X y : option ndarray) :
  (forall s self',
     get_scores self X y = Ok (s, self') ->
     is_fitted self' = true
     /\ forall X' y', get_scores self' X' y' = Ok (s, self'))
  /\ (is_fitted self = false -> X = None \/ y = None ->
      get_scores self X y
      = Raise (ValueError "Not yet fitted. Need X and y as inputs.")).
Proof.
  split.
  - intros s self'. unfold GMDI.get_scores.
    destruct (is_fitted self) eqn:Hf.
    + intros [= <- <-]. rewrite Hf. split; [reflexivity|]. reflexivity.
    + destruct X as [X0|]; [|discriminate]. destruct y as [y0|];
        [|discriminate].
      destruct (_fit_importance_scores self X0 y0) as [s1|] eqn:Hfit;
        cbn [Py.bind]; [|discriminate].
      intros [= <- <-].
      rewrite (fit_leaves_fitted _ _ _ _ Hfit). split; reflexivity.
  - intros Hf Hnone. unfold GMDI.get_scores. rewrite Hf.
    destruct Hnone as [-> | ->]; [reflexivity|]. now destruct X.
Qed.

End Facts.

End GMDIBehaviour.

(* ===================================================================== *)
(** ** The ensemble: how its members are built and fitted *)

Module GMDIEnsembleBehaviour.
Import Importance NpFacts.
Import GMDIEnsemble.
Local Open Scope list_scope.

Section Facts.

Context {P : Type} `{PartialPredictionModel P}.
Variable np_std : ndarray -> float.
Variable _generate_sample_indices : Z -> nat -> nat -> list nat.
Variable _generate_unsampled_indices : Z -> nat -> nat -> list nat.

Local Abbreviation blocked_train_test :=
  (GMDI.blocked_train_test np_std _generate_sample_indices
     _generate_unsampled_indices).
Local Abbreviation _train_test_split :=
  (GMDI._train_test_split (P := P) _generate_sample_indices
     _generate_unsampled_indices).
Local Abbreviation _fit_importance_scores :=
  (_fit_importance_scores np_std _generate_sample_indices
     _generate_unsampled_indices).
Local Abbreviation _fit_importance_scores_writes :=
  (_fit_importance_scores_writes np_std _generate_sample_indices
     _generate_unsampled_indices).
Local Abbreviation get_scores :=
  (get_scores np_std _generate_sample_indices _generate_unsampled_indices).

(** *** The members *)

Lemma member_of_ensemble transformers (ppm : P) scoring_fn mode
    oob center include_raw drop_features g :
  In g (gmdi_objects (__init__ transformers ppm scoring_fn mode oob center
                        include_raw drop_features)) ->
  exists transformer,
    In transformer transformers
    /\ g = GMDI.__init__ transformer ppm scoring_fn mode oob center
             include_raw drop_features true.
Proof.
  cbn [gmdi_objects __init__]. intros Hin. apply in_map_iff in Hin.
  destruct Hin as (tr & <- & Htr). now exists tr.
Qed.

(** X18. The members of an ensemble are built by a positional call, so that
    the [center] of the ensemble is the [training] flag of its members:
    with [oob] and [center] set, as [GMDI_pipeline] sets [center] by
    default, every member is tested on the bootstrap sample it is trained
    on, not on the out-of-bag samples; with [oob] and without [center] it
    is tested on the out-of-bag samples. *)
Theorem ensemble_members_test_split
    (transformers : list Transformer.t) (ppm : P) (scoring_fn : scoring)
    (mode : string) (center include_raw drop_features : bool)
    (g : GMDI.t P) (X y : ndarray) (g' : GMDI.t P) (sp : GMDI.split) :
  In g (gmdi_objects (__init__ transformers ppm scoring_fn mode true center
                        include_raw drop_features)) ->
  blocked_train_test g X y = Ok (g', sp) ->
  exists bd sp0,
    Transformer.transform (GMDI.transformer g) X include_raw = Ok bd
    /\ _train_test_split g' bd y = Ok sp0
    /\ GMDI.train_blocked_data sp = GMDI.train_blocked_data sp0
    /\ GMDI.y_train sp = GMDI.y_train sp0
    /\ if center
       then GMDI.test_blocked_data sp = GMDI.train_blocked_data sp0
            /\ GMDI.y_test sp = GMDI.y_train sp0
       else GMDI.test_blocked_data sp = GMDI.test_blocked_data sp0
            /\ GMDI.y_test sp = GMDI.y_test sp0.
Proof.
  intros Hin. apply member_of_ensemble in Hin.
  destruct Hin as (tr & _ & ->). unfold GMDI.blocked_train_test.
  cbn [GMDI.transformer GMDI.center GMDI.include_raw GMDI.drop_features
       GMDI.oob GMDI.training GMDI.__init__ GMDI.set_n_features negb].
  rewrite andb_false_r.
  destruct (Transformer.transform tr X include_raw) as [bd|];
    cbn [Py.bind]; [|discriminate].
  destruct center.
  - match goal with
    | |- Py.bind (Py.bind ?c _) _ = _ -> _ => destruct c as [sp0|] eqn:Hsp
    end; cbn [Py.bind]; [|discriminate].
    intros [= <- <-]. exists bd, sp0.
    cbn [GMDI.train_blocked_data GMDI.test_blocked_data GMDI.y_train
         GMDI.y_test].
    repeat split. exact Hsp.
  - match goal with
    | |- Py.bind ?c _ = _ -> _ => destruct c as [sp0|] eqn:Hsp
    end; cbn [Py.bind]; [|discriminate].
    intros [= <- <-]. exists bd, sp0. repeat split. exact Hsp.
Qed.

(** X19. A member of an ensemble works on the representation its transformer
    yields when called with the [include_raw] of the ensemble as [center];
    the blocks of raw features are never rescaled, whatever [include_raw]
    and [drop_features] the ensemble is given, and no standard deviation
    is computed. *)
Theorem ensemble_members_representation
    (transformers : list Transformer.t) (ppm : P) (scoring_fn : scoring)
    (mode : string) (oob center include_raw drop_features : bool)
    (g : GMDI.t P) (X y : ndarray) :
  In g (gmdi_objects (__init__ transformers ppm scoring_fn mode oob center
                        include_raw drop_features)) ->
  GMDI.center g = include_raw
  /\ GMDI.training g = center
  /\ GMDI.include_raw g = drop_features
  /\ GMDI.drop_features g = true
  /\ (oob = false ->
      blocked_train_test g X y
      = (bd <- Transformer.transform (GMDI.transformer g) X include_raw ;;
         Ok (GMDI.set_n_features (BlockPartitionedData.n_blocks bd) g,
             GMDI.mk_split bd bd y y)))
  /\ forall np_std',
       GMDI.blocked_train_test np_std' _generate_sample_indices
         _generate_unsampled_indices g X y
       = blocked_train_test g X y.
Proof.
  intros Hin. apply member_of_ensemble in Hin.
  destruct Hin as (tr & _ & ->).
  split; [reflexivity|]. split; [reflexivity|]. split; [reflexivity|].
  split; [reflexivity|]. split.
  - intros ->. unfold GMDI.blocked_train_test.
    cbn [GMDI.transformer GMDI.center GMDI.include_raw GMDI.drop_features
         GMDI.oob GMDI.training GMDI.__init__ GMDI.set_n_features negb].
    rewrite andb_false_r.
    destruct (Transformer.transform tr X include_raw); reflexivity.
  - intros np_std'. unfold GMDI.blocked_train_test.
    cbn [GMDI.transformer GMDI.center GMDI.include_raw GMDI.drop_features
         GMDI.oob GMDI.training GMDI.__init__ GMDI.set_n_features negb].
    rewrite andb_false_r. reflexivity.
Qed.

(** *** The fit of the ensemble *)

(** X20. The fit of an ensemble raises the assertion error when [X] and [y]
    differ in length, before anything is written.  On an ensemble without
    transformers the fit raises [IndexError], but at its last statement
    only: by then it has stored the mean of no scores, not-a-number, as
    [_scores] and has set [is_fitted], so that the object the failed call
    leaves behind answers every later [get_scores] with not-a-number
    instead of raising. *)
Theorem ensemble_fit_errors
    (self : t P) (X y : ndarray) (n m : nat) :
  shape0 X = Ok n -> len y = Ok m ->
  (n <> m ->
   _fit_importance_scores_writes self X y = Raise (AssertionError "")
   /\ _fit_importance_scores self X y = Raise (AssertionError ""))
  /\ (n = m -> gmdi_objects self = [] ->
      exists left,
        _fit_importance_scores_writes self X y = Ok left
        /\ is_fitted left = true
        /\ _scores left = Some (A0 NaN)
        /\ n_features left = n_features self
        /\ _fit_importance_scores self X y
           = Raise (IndexError "list index out of range")
        /\ (is_fitted self = false ->
            get_scores self (Some X) (Some y)
            = Raise (IndexError "list index out of range"))
        /\ forall X' y',
             get_scores left X' y' = Ok (Some (A0 NaN), left)).
Proof.
  intros HX Hy. split.
  - intros Hnm.
    assert (Hw : _fit_importance_scores_writes self X y
                 = Raise (AssertionError "")).
    { unfold GMDIEnsemble._fit_importance_scores_writes.
      rewrite HX, Hy. cbn [Py.bind]. apply Nat.eqb_neq in Hnm.
      now rewrite Hnm. }
    split; [exact Hw|].
    unfold GMDIEnsemble._fit_importance_scores. now rewrite Hw.
  - intros -> Hempty.
    assert (Hw : _fit_importance_scores_writes self X y
                 = Ok (mk (n_transformers self) [] (oob self)
                         (scoring_fn self) (mode self) (n_features self)
                         (Some (A0 NaN)) true (include_raw self)
                         (drop_features self))).
    { unfold GMDIEnsemble._fit_importance_scores_writes.
      rewrite HX, Hy. cbn [Py.bind]. rewrite Nat.eqb_refl. cbn [negb].
      rewrite Hempty. reflexivity. }
    assert (Hfit : _fit_importance_scores self X y
                   = Raise (IndexError "list index out of range")).
    { unfold GMDIEnsemble._fit_importance_scores. rewrite Hw.
      reflexivity. }
    eexists. split; [exact Hw|]. cbn [is_fitted _scores n_features].
    split; [reflexivity|]. split; [reflexivity|]. split; [reflexivity|].
    split; [exact Hfit|]. split.
    + intros Hunfit. unfold GMDIEnsemble.get_scores.
      now rewrite Hunfit, Hfit.
    + intros X' y'. reflexivity.
Qed.

Lemma ensemble_fit_leaves_fitted (self : t P) X y (self' : t P) :
  _fit_importance_scores self X y = Ok self' -> is_fitted self' = true.
Proof.
  unfold GMDIEnsemble._fit_importance_scores,
    GMDIEnsemble._fit_importance_scores_writes.
  destruct (shape0 X); cbn [Py.bind]; [|discriminate].
  destruct (len y); cbn [Py.bind]; [|discriminate].
  destruct (negb _); [discriminate|].
  destruct (member_scores _ _ _ _ _ _); cbn [Py.bind]; [|discriminate].
  destruct (map_result _ _); cbn [Py.bind]; [|discriminate].
  destruct (nanmean_axis0 _); cbn [Py.bind]; [|discriminate].
  unfold GMDIEnsemble.set_n_features_of_first. cbn [gmdi_objects].
  destruct (map snd _); [discriminate|]. now intros [= <-].
Qed.

(** X21. [get_scores] of the ensemble fits the members on its first call,
    which needs both [X] and [y]; from then on it returns the scores of
    that fit and leaves the ensemble as it is, whatever it is passed. *)
Theorem ensemble_scores_are_computed_once
    (self : t P) (X y : option ndarray) :
  (forall s self',
     get_scores self X y = Ok (s, self') ->
     is_fitted self' = true
     /\ forall X' y', get_scores self' X' y' = Ok (s, self'))
  /\ (is_fitted self = false -> X = None \/ y = None ->
      get_scores self X y
      = Raise (ValueError "Not yet fitted. Need X and y as inputs.")).
Proof.
  split.
  - intros s self'. unfold GMDIEnsemble.get_scores.
    destruct (is_fitted self) eqn:Hf.
    + intros [= <- <-]. rewrite Hf. split; reflexivity.
    + destruct X as [X0|]; [|discriminate]. destruct y as [y0|];
        [|discriminate].
      destruct (_fit_importance_scores self X0 y0) as [s1|] eqn:Hfit;
        cbn [Py.bind]; [|discriminate].
      intros [= <- <-].
      rewrite (ensemble_fit_leaves_fitted _ _ _ _ Hfit). split; reflexivity.
  - intros Hf Hnone. unfold GMDIEnsemble.get_scores. rewrite Hf.
    destruct Hnone as [-> | ->]; [reflexivity|]. now destruct X.
Qed.

End Facts.

End GMDIEnsembleBehaviour.

(* ===================================================================== *)
(** ** The Huber loss *)

Module ScoringBehaviour.
Import Importance NpFacts.
Local Open Scope list_scope.

(** *** Loops and indices *)

Lemma for_each_app {A S} (body : A -> S -> result S) xs ys s :
  for_each (xs ++ ys) body s
  = (s1 <- for_each xs body s ;; for_each ys body s1).
Proof.
  revert s. induction xs as [|x xs IH]; intros s; cbn [app for_each Py.bind];
    [reflexivity|].
  destruct (body x s); cbn [Py.bind]; [apply IH | reflexivity].
Qed.

Lemma for_each_ext {A S} (body body' : A -> S -> result S) xs :
  (forall x, In x xs -> forall s, body x s = body' x s) ->
  forall s, for_each xs body s = for_each xs body' s.
Proof.
  induction xs as [|x xs IH]; intros Hext s; cbn [for_each]; [reflexivity|].
  rewrite (Hext x (or_introl eq_refl)).
  destruct (body' x s); cbn [Py.bind]; [|reflexivity].
  apply IH. intros x' Hx'. apply Hext. now right.
Qed.

Lemma item_in_range (v : list float) (i : nat) :
  (i < length v)%nat -> item v (Z.of_nat i) = Ok (nth i v NaN).
Proof.
  intros Hi. unfold item, norm_index.
  destruct (Z.ltb_spec (Z.of_nat i) 0); [lia|].
  destruct (Z.leb_spec 0 (Z.of_nat i)); [|lia].
  destruct (Z.ltb_spec (Z.of_nat i) (Z.of_nat (length v))); [|lia].
  cbn [andb Py.bind]. now rewrite Nat2Z.id.
Qed.

Lemma item_out_of_range (v : list float) (i : nat) :
  (length v <= i)%nat ->
  item v (Z.of_nat i) = Raise (IndexError "index is out of bounds").
Proof.
  intros Hi. unfold item, norm_index.
  destruct (Z.ltb_spec (Z.of_nat i) 0); [lia|].
  destruct (Z.ltb_spec (Z.of_nat i) (Z.of_nat (length v))); [lia|].
  now rewrite andb_false_r.
Qed.

(** *** The Huber loss: what it raises *)

Lemma huber_turn_ok y preds epsilon i total :
  (i < length y)%nat -> (i < length preds)%nat ->
  is_ok (huber_turn y preds epsilon i total) = true.
Proof.
  intros Hy Hp. unfold huber_turn.
  rewrite (item_in_range _ _ Hy), (item_in_range _ _ Hp). cbn [Py.bind].
  destruct (Float.ltb _ _); reflexivity.
Qed.

Lemma huber_loop_ok y preds epsilon k :
  (k <= length y)%nat -> (k <= length preds)%nat ->
  forall s total, (s + k <= Nat.min (length y) (length preds))%nat ->
    is_ok (for_each (seq s k) (huber_turn y preds epsilon) total) = true.
Proof.
  intros _ _. induction k as [|k IH]; intros s total Hs; cbn [seq for_each];
    [reflexivity|].
  pose proof (huber_turn_ok y preds epsilon s total) as Hturn.
  destruct (huber_turn y preds epsilon s total) as [t|]; cbn [Py.bind].
  - apply IH. lia.
  - apply Hturn; lia.
Qed.

(** X22. [huber_loss] on an empty [y] raises [ZeroDivisionError]; on a [preds]
    shorter than [y] it raises [IndexError]; and the entries of a longer
    [preds] past the length of [y] are ignored. *)
Theorem huber_loss_lengths (y preds : list float) (epsilon : float) :
  (y = [] -> huber_loss y preds epsilon = RaisesZeroDivisionError)
  /\ ((length preds < length y)%nat ->
      huber_loss y preds epsilon
      = Raises (IndexError "index is out of bounds"))
  /\ ((length y <= length preds)%nat ->
      huber_loss y preds epsilon
      = huber_loss y (firstn (length y) preds) epsilon
      /\ (y <> [] -> exists loss, huber_loss y preds epsilon = Returns loss)).
Proof.
  split; [|split].
  - intros ->. reflexivity.
  - intros Hlen. unfold huber_loss.
    replace (length y)
      with (length preds + S (length y - S (length preds)))%nat by lia.
    rewrite seq_app, for_each_app.
    pose proof (huber_loop_ok y preds epsilon (length preds)
                  ltac:(lia) ltac:(lia) 0%nat Float.zero ltac:(lia)) as Hok.
    destruct (for_each (seq 0 (length preds)) (huber_turn y preds epsilon)
                Float.zero) as [t|]; [|discriminate].
    cbn [Py.bind seq for_each Nat.add]. unfold huber_turn at 1.
    rewrite (item_in_range y) by lia. cbn [Py.bind].
    rewrite (item_out_of_range preds) by lia. reflexivity.
  - intros Hlen. split.
    + unfold huber_loss.
      rewrite (for_each_ext (huber_turn y preds epsilon)
                 (huber_turn y (firstn (length y) preds) epsilon));
        [reflexivity|].
      intros i Hi total. apply in_seq in Hi. unfold huber_turn.
      rewrite !(item_in_range y) by lia. cbn [Py.bind].
      rewrite !item_in_range by (rewrite ?length_firstn; lia).
      cbn [Py.bind]. rewrite nth_firstn.
      destruct (Nat.ltb_spec i (length y)); [reflexivity | lia].
    + intros Hne. unfold huber_loss.
      pose proof (huber_loop_ok y preds epsilon (length y)
                    ltac:(lia) ltac:(lia) 0%nat Float.zero ltac:(lia)) as Hok.
      destruct (for_each (seq 0 (length y)) (huber_turn y preds epsilon)
                  Float.zero) as [t|]; [|discriminate].
      destruct y as [|a y]; [congruence|]. cbn [length]. eexists. reflexivity.
Qed.

End ScoringBehaviour.

(* ===================================================================== *)
(** ** Runs of the importance code on data *)

Module BehaviourRuns.
Import Importance ToyImportance ImportanceRuns.
Import GlmAlooCalculatorBehaviour GenericLOOPPMBehaviour.
Import GMDIBehaviour GMDIEnsembleBehaviour ScoringBehaviour.
Local Open Scope list_scope.

(** *** The calculator *)

(** The calculator of [loo_ppm Ridge] with the trimming limit 0.25, as the
    logistic model sets one. *)
Definition trimming_calculator : GlmAlooCalculator.t :=
  GlmAlooCalculator.__init__ Ridge [F 0; F 1] (fun a => Ok a)
    (Lambda2 (fun a b => np_sub b a))
    (Lambda2 (fun a b => Ok (A0 Float.one)))
    (Some (fun a => Ok (A0 Float.one)))
    (Lambda2 mean_squared_error) (Some (Finite (1 # 4))).

Lemma trim_values_range_witness :
  exists v,
    GlmAlooCalculator._trim_values trimming_calculator
      (A1 [F 2; Finite (1 # 2); NaN; NInf]) = Ok (A1 v)
    /\ Forall2 (trimmed (Finite (1 # 4)))
         [F 2; Finite (1 # 2); NaN; NInf] v.
Proof.
  pose proof (trim_values_range trimming_calculator
                (A1 [F 2; Finite (1 # 2); NaN; NInf]) (Finite (1 # 4))
                eq_refl) as Hrange.
  destruct (GlmAlooCalculator._trim_values trimming_calculator
              (A1 [F 2; Finite (1 # 2); NaN; NInf])) as [[x|v|m]|] eqn:Hrun;
    try (exfalso; vm_compute in Hrun; discriminate Hrun).
  exists v. split; [reflexivity|].
  destruct Hrange as (_ & _ & _ & Hall). exact Hall.
Defined.

Lemma aloocv_alpha_is_from_grid_witness :
  exists a calc ws,
    GlmAlooCalculator.get_aloocv_alpha sk_fit np_linalg_inv
      (calculator Ridge) X y = Ok (a, calc, ws)
    /\ In a [F 0; F 1]
    /\ GlmAlooCalculator.loo_fitted_parameters calc = None.
Proof.
  pose proof (aloocv_alpha_is_from_grid sk_fit np_linalg_inv
                (calculator Ridge) X y) as Hgrid.
  destruct (GlmAlooCalculator.get_aloocv_alpha sk_fit np_linalg_inv
              (calculator Ridge) X y) as [[[a calc] ws]|] eqn:Hrun;
    [|exfalso; vm_compute in Hrun; discriminate Hrun].
  exists a, calc, ws. split; [reflexivity|].
  destruct Hgrid as (Hin & _ & _ & Hcache & _).
  split; [exact Hin | exact Hcache].
Defined.

(** The calculator after a call that filled its cache, at the strength 1. *)
Definition cached_calculator : GlmAlooCalculator.t :=
  Eval vm_compute in
    match get_aloo_fitted_parameters (calculator Ridge) (Some X) (Some y)
            (Some (F 1)) true with
    | Ok (_, calc, _) => calc
    | Raise _ => calculator Ridge
    end.

Definition cached_parameters : ndarray :=
  Eval vm_compute in
    match GlmAlooCalculator.loo_fitted_parameters cached_calculator with
    | Some p => p
    | None => A0 NaN
    end.

(** Other data of the same shape. *)
Definition other_X : ndarray := A2 [[F 7]; [F 7]; [F 8]; [F 9]].

Lemma aloocv_alpha_on_filled_cache_witness :
  exists ws,
    GlmAlooCalculator.get_aloocv_alpha sk_fit np_linalg_inv
      cached_calculator other_X y
    = Ok (F 0, GlmAlooCalculator.set_alpha_ (F 0) cached_calculator, ws).
Proof.
  destruct (GlmAlooCalculator.get_aloocv_alpha sk_fit np_linalg_inv
              cached_calculator other_X y) as [[[a calc] ws]|] eqn:Hrun;
    [|exfalso; vm_compute in Hrun; discriminate Hrun].
  destruct (aloocv_alpha_on_filled_cache sk_fit np_linalg_inv
              cached_calculator other_X y cached_parameters a calc ws
              eq_refl Hrun) as ((rest & Hfirst) & ->).
  injection Hfirst as <- _. exists ws. reflexivity.
Defined.

(** *** The leave-one-out model *)

Lemma loo_fit_needs_target_and_mode_witness :
  fit (H := ppm_instance) (loo_ppm Ridge) blocks y blocks None "keep_k"
  = Raise (ValueError "Need to supply y_test for LOO")
  /\ fit (H := ppm_instance) (loo_ppm Ridge) blocks y blocks (Some y)
       "keep_both"
     = Raise (ValueError "Invalid mode").
Proof.
  destruct (loo_fit_needs_target_and_mode sk_fit np_linalg_inv
              (loo_ppm Ridge) blocks blocks y "keep_both")
    as [_ Hmode].
  destruct (loo_fit_needs_target_and_mode sk_fit np_linalg_inv
              (loo_ppm Ridge) blocks blocks y "keep_k")
    as [Htarget _].
  split.
  - change (@fit GenericLOOPPM.t ppm_instance)
      with (@fit GenericLOOPPM.t (GenericLOOPPM.ppm sk_fit np_linalg_inv)).
    destruct (fit (H := GenericLOOPPM.ppm sk_fit np_linalg_inv)
                (loo_ppm Ridge) blocks y blocks None "keep_k")
      as [r|e]; [destruct Htarget|].
    rewrite Htarget; [reflexivity | vm_compute; reflexivity].
  - specialize (Hmode y ltac:(discriminate) ltac:(discriminate)
                  ltac:(cbn; lia)).
    change (@fit GenericLOOPPM.t ppm_instance)
      with (@fit GenericLOOPPM.t (GenericLOOPPM.ppm sk_fit np_linalg_inv)).
    destruct (fit (H := GenericLOOPPM.ppm sk_fit np_linalg_inv)
                (loo_ppm Ridge) blocks y blocks (Some y) "keep_both")
      as [r|e]; [destruct Hmode|].
    destruct (GenericLOOPPM._fit_model sk_fit np_linalg_inv
                (set_n_blocks (H := GenericLOOPPM.ppm sk_fit np_linalg_inv)
                   (BlockPartitionedData.n_blocks blocks) (loo_ppm Ridge))
                blocks y) as [[self1 ws]|] eqn:Hmodel;
      [|exfalso; vm_compute in Hmodel; discriminate Hmodel].
    destruct (GenericLOOPPM._fit_full_predictions sk_fit np_linalg_inv
                self1 blocks (Some y)) as [fp|] eqn:Hfull.
    + specialize (Hmode self1 ws fp eq_refl Hfull). subst e. reflexivity.
    + exfalso. revert Hfull. vm_compute in Hmodel.
      injection Hmodel as <- _. vm_compute. discriminate.
Defined.

Lemma partial_predictions_use_cache_witness :
  exists preds self',
    GenericLOOPPM._fit_full_predictions sk_fit np_linalg_inv fitted_ppm
      blocks (Some y) = Ok (preds, self')
    /\ GenericLOOPPM._fit_partial_predictions
         (fun _ _ _ => Raise (ValueError "no fit"))
         (fun _ => Raise (LinAlgError "no inverse")) self' 0 "keep_k" blocks
         (Some y)
       = GenericLOOPPM._fit_partial_predictions sk_fit np_linalg_inv self' 0
           "keep_k" blocks (Some y).
Proof.
  destruct (GenericLOOPPM._fit_full_predictions sk_fit np_linalg_inv
              fitted_ppm blocks (Some y)) as [[preds self']|] eqn:Hfull;
    [|exfalso; vm_compute in Hfull; discriminate Hfull].
  exists preds, self'. split; [reflexivity|].
  exact (proj2 (partial_predictions_use_cache sk_fit np_linalg_inv
                  fitted_ppm blocks (Some y) preds self' Hfull) _ _ _ _ _ _).
Defined.

Lemma fit_leaves_own_estimator_unfitted_witness :
  exists self' ws,
    fit (H := ppm_instance) (loo_ppm Ridge) blocks y blocks (Some y) "keep_k"
    = Ok (self', ws)
    /\ Estimator.coef_ (GenericLOOPPM.estimator self') = None
    /\ exists a,
         GenericLOOPPM.alpha_ self' = Some a
         /\ Estimator.alpha (GenericLOOPPM.estimator self')
            = Present (Some a).
Proof.
  change (@fit GenericLOOPPM.t ppm_instance)
    with (@fit GenericLOOPPM.t (GenericLOOPPM.ppm sk_fit np_linalg_inv)).
  destruct (fit (H := GenericLOOPPM.ppm sk_fit np_linalg_inv) (loo_ppm Ridge)
              blocks y blocks (Some y) "keep_k") as [[self' ws]|] eqn:Hfit;
    [|exfalso; vm_compute in Hfit; discriminate Hfit].
  destruct (fit_leaves_own_estimator_unfitted sk_fit np_linalg_inv
              (loo_ppm Ridge) blocks blocks y (Some y) "keep_k" self' ws Hfit)
    as (a & Halpha & _ & Hcoef & _ & Hparam & _).
  exists self', ws. split; [reflexivity|]. split; [exact Hcoef|].
  exists a. split; [exact Halpha | exact (Hparam eq_refl)].
Defined.

(** One block, of the column of [X]. *)
Definition one_block : BlockPartitionedData.t :=
  BlockPartitionedData.mk 4 [as2d X].

Lemma fit_keeps_earlier_partial_predictions_witness :
  exists self' ws,
    fit (H := ppm_instance) fitted_ppm one_block y one_block (Some y) "keep_k"
    = Ok (self', ws)
    /\ PartialPredictionModelBase.n_blocks (GenericLOOPPM.base self')
       = Some 1%nat
    /\ get_partial_predictions (H := ppm_instance) self' 1
       = get_partial_predictions (H := ppm_instance) fitted_ppm 1
    /\ is_ok (get_partial_predictions (H := ppm_instance) fitted_ppm 1)
       = true.
Proof.
  change (@fit GenericLOOPPM.t ppm_instance)
    with (@fit GenericLOOPPM.t (GenericLOOPPM.ppm sk_fit np_linalg_inv)).
  destruct (fit (H := GenericLOOPPM.ppm sk_fit np_linalg_inv) fitted_ppm
              one_block y one_block (Some y) "keep_k")
    as [[self' ws]|] eqn:Hfit;
    [|exfalso; vm_compute in Hfit; discriminate Hfit].
  destruct (fit_keeps_earlier_partial_predictions sk_fit np_linalg_inv
              fitted_ppm one_block one_block y (Some y) "keep_k" self' ws
              Hfit) as (Hn & _ & _ & Hkept).
  exists self', ws. split; [reflexivity|]. split; [exact Hn|].
  split; [exact (Hkept 1%nat (le_n 1)) | vm_compute; reflexivity].
Defined.

(** *** The scorer *)

(** A scorer with the out-of-bag MDI score, on two features of which the
    tree uses the first only, and the dictionaries of the partial
    predictions of the model fitted on the two blocks. *)
Definition mdi_oob_gmdi : GMDI.t GenericLOOPPM.t :=
  GMDI.set_n_features 2
    (GMDI.__init__ (column_transformer (fun k => Nat.eqb k 0) (fun _ => F 1))
       (loo_ppm Ridge) (ScoringTag "mdi_oob") "keep_k" false false true false
       true).

Definition partial_of_block (k : nat) : partial_prediction :=
  match get_partial_predictions (H := ppm_instance) fitted_ppm k with
  | Ok pp => pp
  | Raise _ => (A0 NaN, ParamList [])
  end.

Definition partial_0 : partial_prediction :=
  Eval vm_compute in partial_of_block 0.
Definition partial_1 : partial_prediction :=
  Eval vm_compute in partial_of_block 1.

Definition mdi_oob_dicts : gmap nat ndarray * gmap nat partial_params :=
  (<[0%nat := fst partial_0]> (<[1%nat := fst partial_1]> ∅),
   <[0%nat := snd partial_0]> (<[1%nat := snd partial_1]> ∅)).

Definition null_intercept : Q :=
  Eval vm_compute in
    match snd partial_1 with
    | ParamList [A0 (Finite b)] => b
    | _ => 0%Q
    end.

Lemma mdi_oob_null_block_scores_zero_witness :
  exists self' v x,
    GMDI._score_partial_predictions mdi_oob_gmdi None (snd mdi_oob_dicts)
      (fst mdi_oob_dicts) y = Ok self'
    /\ GMDI._scores self' = Some (A1 v)
    /\ v !! 1%nat = Some x
    /\ GMDIBehaviour.is_zero x.
Proof.
  change y with (A1 (map Finite [1; 3; 2; 6]%Q)).
  destruct (GMDI._score_partial_predictions mdi_oob_gmdi None
              (snd mdi_oob_dicts) (fst mdi_oob_dicts)
              (A1 (map Finite [1; 3; 2; 6]%Q))) as [self'|] eqn:Hrun;
    [|exfalso; vm_compute in Hrun; discriminate Hrun].
  destruct (mdi_oob_null_block_scores_zero mdi_oob_gmdi None
              (snd mdi_oob_dicts) (fst mdi_oob_dicts) [1; 3; 2; 6]%Q
              null_intercept 1 2 self')
    as (v & x & Hscores & Hx & Hzero).
  - reflexivity.
  - reflexivity.
  - reflexivity.
  - lia.
  - discriminate.
  - vm_compute. reflexivity.
  - vm_compute. reflexivity.
  - exact Hrun.
  - exists self', v, x. split; [reflexivity|].
    split; [exact Hscores|]. split; [exact Hx | exact Hzero].
Defined.

Lemma fit_importance_scores_state_witness :
  exists self' v,
    gmdi_fit (gmdi (fun _ => true)) X y = Ok self'
    /\ GMDI.is_fitted self' = true
    /\ GMDI.n_features self' = Some 1%nat
    /\ GMDI._scores self' = Some (A1 v)
    /\ length v = 1%nat.
Proof.
  unfold gmdi_fit.
  destruct (GMDI._fit_importance_scores (H := ppm_instance) np_std
              _generate_sample_indices _generate_unsampled_indices
              (gmdi (fun _ => true)) X y) as [self'|] eqn:Hfit;
    [|exfalso; vm_compute in Hfit; discriminate Hfit].
  destruct (fit_importance_scores_state (H := ppm_instance) np_std
              _generate_sample_indices _generate_unsampled_indices
              (gmdi (fun _ => true)) X y self' Hfit)
    as (bd & sp & v & Hbd & Hsplit & Hfitted & Hn & Hscores & Hlen).
  vm_compute in Hbd. injection Hbd as <-.
  vm_compute in Hsplit. injection Hsplit as <-.
  exists self', v. split; [reflexivity|]. split; [exact Hfitted|].
  split; [exact Hn|]. split; [exact Hscores | exact Hlen].
Defined.

(** A partial prediction model of the user's own that does not look at
    the mode: it fits nothing and predicts the row sums of block [k]. *)
Module RowSumPPM.

Record t : Type := mk { base : PartialPredictionModelBase.t }.

Definition __init__ : t := mk PartialPredictionModelBase.__init__.

Definition _fit_model (self : t) (train : BlockPartitionedData.t)
    (y_train : ndarray) : result (t * list warning) :=
  Ok (self, []).

Definition _fit_full_predictions (self : t) (test : BlockPartitionedData.t)
    (y_test : option ndarray) : result (ndarray * t) :=
  s <- sum_axis1 (BlockPartitionedData.get_all_data test) ;; Ok (s, self).

Definition _fit_partial_predictions (self : t) (k : nat) (mode : string)
    (test : BlockPartitionedData.t) (y_test : option ndarray)
  : result (partial_prediction * t) :=
  b <- BlockPartitionedData.get_block test k ;;
  s <- sum_axis1 b ;;
  Ok (s, ParamList [], self).

Definition ppm : PartialPredictionModel t := {|
  ppm_base := base;
  ppm_set_base := fun b _ => mk b;
  Importance._fit_model := _fit_model;
  Importance._fit_full_predictions := _fit_full_predictions;
  Importance._fit_partial_predictions := _fit_partial_predictions
|}.

End RowSumPPM.

Definition keep_both_gmdi : GMDI.t RowSumPPM.t :=
  GMDI.__init__ (column_transformer (fun _ => true) (fun _ => F 1))
    RowSumPPM.__init__ (ScoringFn r2_score) "keep_both" false false true
    false true.

Definition keep_both_split : GMDI.t RowSumPPM.t * GMDI.split :=
  Eval vm_compute in
    match GMDI.blocked_train_test np_std _generate_sample_indices
            _generate_unsampled_indices keep_both_gmdi X2 y with
    | Ok ss => ss
    | Raise _ =>
        (keep_both_gmdi,
         GMDI.mk_split (BlockPartitionedData.mk 0 [])
           (BlockPartitionedData.mk 0 []) y y)
    end.

Lemma unknown_mode_scores_zero_witness :
  exists self',
    GMDI._fit_importance_scores (H := RowSumPPM.ppm) np_std
      _generate_sample_indices _generate_unsampled_indices keep_both_gmdi
      X2 y = Ok self'
    /\ GMDI._scores self' = Some (A1 [Float.zero; Float.zero]).
Proof.
  destruct (GMDI._fit_importance_scores (H := RowSumPPM.ppm) np_std
              _generate_sample_indices _generate_unsampled_indices
              keep_both_gmdi X2 y) as [self'|] eqn:Hfit;
    [|exfalso; vm_compute in Hfit; discriminate Hfit].
  destruct (unknown_mode_scores_zero (H := RowSumPPM.ppm) np_std
              _generate_sample_indices _generate_unsampled_indices
              keep_both_gmdi X2 y (fst keep_both_split)
              (snd keep_both_split) self')
    as (n & Hn & Hscores).
  - discriminate.
  - discriminate.
  - vm_compute. reflexivity.
  - vm_compute. discriminate.
  - exact Hfit.
  - exists self'. split; [reflexivity|]. rewrite Hscores.
    assert (Hn2 : GMDI.n_features self' = Some 2%nat).
    { revert Hfit. clear. intros Hfit. vm_compute in Hfit.
      injection Hfit as <-. reflexivity. }
    rewrite Hn2 in Hn. injection Hn as <-. reflexivity.
Defined.

Lemma gmdi_scores_are_computed_once_witness :
  (exists s self',
     GMDI.get_scores (H := ppm_instance) np_std _generate_sample_indices
       _generate_unsampled_indices (gmdi (fun _ => true)) (Some X) (Some y)
     = Ok (s, self')
     /\ GMDI.get_scores (H := ppm_instance) np_std _generate_sample_indices
          _generate_unsampled_indices self' (Some X2) None
        = Ok (s, self'))
  /\ GMDI.get_scores (H := ppm_instance) np_std _generate_sample_indices
       _generate_unsampled_indices (gmdi (fun _ => true)) (Some X) None
     = Raise (ValueError "Not yet fitted. Need X and y as inputs.").
Proof.
  split.
  - destruct (GMDI.get_scores (H := ppm_instance) np_std
                _generate_sample_indices _generate_unsampled_indices
                (gmdi (fun _ => true)) (Some X) (Some y))
      as [[s self']|] eqn:Hget;
      [|exfalso; vm_compute in Hget; discriminate Hget].
    exists s, self'. split; [reflexivity|].
    exact (proj2 (proj1 (gmdi_scores_are_computed_once (H := ppm_instance)
                           np_std _generate_sample_indices
                           _generate_unsampled_indices
                           (gmdi (fun _ => true)) (Some X) (Some y))
                    s self' Hget) (Some X2) None).
  - apply (proj2 (gmdi_scores_are_computed_once (H := ppm_instance) np_std
                    _generate_sample_indices _generate_unsampled_indices
                    (gmdi (fun _ => true)) (Some X) None)).
    + reflexivity.
    + right. reflexivity.
Defined.

(** *** The ensemble *)

(** An ensemble of one member that scores out of bag, built with
    [center = True], [include_raw = False] and [drop_features = False]. *)
Definition oob_ensemble : GMDIEnsemble.t BlockSumPPM.t :=
  GMDIEnsemble.__init__ [column_transformer (fun _ => true) (fun _ => F 1)]
    BlockSumPPM.__init__ (ScoringFn r2_score) "keep_k" true true false false.

Definition oob_member : GMDI.t BlockSumPPM.t :=
  Eval vm_compute in
    match GMDIEnsemble.gmdi_objects oob_ensemble with
    | g :: _ => g
    | [] => GMDI.__init__ (column_transformer (fun _ => true) (fun _ => F 1))
              BlockSumPPM.__init__ (ScoringFn r2_score) "keep_k" false false
              true true true
    end.

Lemma ensemble_members_test_split_witness :
  exists g' sp,
    GMDI.blocked_train_test np_std _generate_sample_indices
      _generate_unsampled_indices oob_member X y = Ok (g', sp)
    /\ GMDI.test_blocked_data sp = GMDI.train_blocked_data sp
    /\ GMDI.y_test sp = GMDI.y_train sp.
Proof.
  destruct (GMDI.blocked_train_test np_std _generate_sample_indices
              _generate_unsampled_indices oob_member X y)
    as [[g' sp]|] eqn:Hrun;
    [|exfalso; vm_compute in Hrun; discriminate Hrun].
  destruct (ensemble_members_test_split np_std _generate_sample_indices
              _generate_unsampled_indices
              [column_transformer (fun _ => true) (fun _ => F 1)]
              BlockSumPPM.__init__ (ScoringFn r2_score) "keep_k" true false
              false oob_member X y g' sp)
    as (bd & sp0 & _ & _ & Htrain & Hy & Htest & Hytest).
  - left. reflexivity.
  - exact Hrun.
  - exists g', sp. split; [reflexivity|].
    split; congruence.
Defined.

Lemma ensemble_members_representation_witness :
  GMDI.center oob_member = false
  /\ GMDI.training oob_member = true
  /\ GMDI.include_raw oob_member = false
  /\ GMDI.drop_features oob_member = true.
Proof.
  destruct (ensemble_members_representation np_std _generate_sample_indices
              _generate_unsampled_indices
              [column_transformer (fun _ => true) (fun _ => F 1)]
              BlockSumPPM.__init__ (ScoringFn r2_score) "keep_k" true true
              false false oob_member X y)
    as (Hcenter & Htraining & Hraw & Hdrop & _).
  - left. reflexivity.
  - split; [exact Hcenter|]. split; [exact Htraining|].
    split; [exact Hraw | exact Hdrop].
Defined.

(** An ensemble without a transformer. *)
Definition empty_ensemble : GMDIEnsemble.t BlockSumPPM.t :=
  GMDIEnsemble.__init__ [] BlockSumPPM.__init__ (ScoringFn r2_score)
    "keep_k" false true true true.

Lemma ensemble_fit_errors_witness :
  GMDIEnsemble._fit_importance_scores (H := BlockSumPPM.ppm) np_std
    _generate_sample_indices _generate_unsampled_indices
    (ensemble (ScoringFn r2_score) 1 1 1) X (A1 [F 1; F 3])
  = Raise (AssertionError "")
  /\ exists left,
       GMDIEnsemble._fit_importance_scores_writes (H := BlockSumPPM.ppm)
         np_std _generate_sample_indices _generate_unsampled_indices
         empty_ensemble X y = Ok left
       /\ GMDIEnsemble.get_scores (H := BlockSumPPM.ppm) np_std
            _generate_sample_indices _generate_unsampled_indices
            empty_ensemble (Some X) (Some y)
          = Raise (IndexError "list index out of range")
       /\ GMDIEnsemble.get_scores (H := BlockSumPPM.ppm) np_std
            _generate_sample_indices _generate_unsampled_indices
            left None None
          = Ok (Some (A0 NaN), left).
Proof.
  split.
  - apply (proj1 (ensemble_fit_errors (H := BlockSumPPM.ppm) np_std
                    _generate_sample_indices _generate_unsampled_indices
                    (ensemble (ScoringFn r2_score) 1 1 1) X
                    (A1 [F 1; F 3]) 4 2 eq_refl eq_refl)).
    lia.
  - destruct (proj2 (ensemble_fit_errors (H := BlockSumPPM.ppm) np_std
                       _generate_sample_indices _generate_unsampled_indices
                       empty_ensemble X y 4 4 eq_refl eq_refl)
                eq_refl eq_refl)
      as (left & Hwrites & _ & _ & _ & _ & Hraise & Hlater).
    exists left. split; [exact Hwrites|].
    split; [exact (Hraise eq_refl) | exact (Hlater None None)].
Defined.

Lemma ensemble_scores_are_computed_once_witness :
  exists s self',
    GMDIEnsemble.get_scores (H := BlockSumPPM.ppm) np_std
      _generate_sample_indices _generate_unsampled_indices
      (ensemble (ScoringFn r2_score) 1 2 3) (Some X) (Some y)
    = Ok (s, self')
    /\ GMDIEnsemble.get_scores (H := BlockSumPPM.ppm) np_std
         _generate_sample_indices _generate_unsampled_indices self' None None
       = Ok (s, self').
Proof.
  destruct (GMDIEnsemble.get_scores (H := BlockSumPPM.ppm) np_std
              _generate_sample_indices _generate_unsampled_indices
              (ensemble (ScoringFn r2_score) 1 2 3) (Some X) (Some y))
    as [[s self']|] eqn:Hget;
    [|exfalso; vm_compute in Hget; discriminate Hget].
  exists s, self'. split; [reflexivity|].
  exact (proj2 (proj1 (ensemble_scores_are_computed_once
                         (H := BlockSumPPM.ppm) np_std
                         _generate_sample_indices
                         _generate_unsampled_indices
                         (ensemble (ScoringFn r2_score) 1 2 3)
                         (Some X) (Some y))
                  s self' Hget) None None).
Defined.

(** *** The Huber loss *)

Lemma huber_loss_lengths_witness :
  huber_loss [] [F 1] (F 1) = RaisesZeroDivisionError
  /\ huber_loss [F 1; F 2] [F 1] (F 1)
     = Raises (IndexError "index is out of bounds")
  /\ huber_loss [F 1; F 2] [F 1; F 4; F 9] (F 1)
     = huber_loss [F 1; F 2] [F 1; F 4] (F 1).
Proof.
  split; [|split].
  - exact (proj1 (huber_loss_lengths [] [F 1] (F 1)) eq_refl).
  - apply (proj1 (proj2 (huber_loss_lengths [F 1; F 2] [F 1] (F 1)))).
    cbn [length]. lia.
  - apply (proj2 (proj2 (huber_loss_lengths [F 1; F 2] [F 1; F 4; F 9]
                           (F 1)))).
    cbn [length]. lia.
Defined.

End BehaviourRuns.
